(** * physicsLab: the experiment data model and its save-file loader

    A shallow embedding of [electricity/_elementPosition.py],
    [physicsLab/_tools.py] and [physicsLab/element.py], with the properties
    of the coordinate transform, of element creation, of the save-file
    loader and of the experiment lifecycle that the specification states.

    Conventions.
    - Python values are the inductive [pyval]; a Python [dict] with string
      keys is an association list in insertion order ([pydict]).
    - Python [int] is [Z]; Python [float] is an IEEE-754 binary64 number
      (the primitive [float]), with its infinities and nan. A Python [str]
      is the string of the bytes of its UTF-8 encoding.
    - [Module ElementPosition] states the coordinate transform in exact
      arithmetic, a float standing for the rational it denotes;
      [Module Binary64] has the same two functions on binary64 numbers.
    - A call that can raise returns [result A]: [Ok a] or [Raise e].
    - The interpreter and the operating system (codecs, [json.loads],
      [eval], the file system, [chardet]) are the class [Interpreter]; the
      modules of the package that the files above import but that are not
      among them are the classes [Package] and [Catalogue]. Statements are
      made for every instance; the examples run on the instances of
      [Module Sample]. *)

From Stdlib Require Import ZArith QArith Qround Qabs Lqa Floats Uint63 Lia Ascii
  String.
From stdpp Require Import base option list strings.

Set Warnings "-inexact-float,-register-all".
Local Open Scope Z_scope.

(* ===================================================================== *)
(** ** electricity/_elementPosition.py *)
(* ===================================================================== *)

Module ElementPosition.

Local Open Scope Q_scope.

(** [num_type = Union[int, float]] in exact arithmetic: a float is the
    rational it denotes, and the operations are those of the rationals. *)
Inductive num : Type :=
  | NInt (n : Z)
  | NFloat (q : Q).

(** The value of a number as a float, as Python's arithmetic on mixed
    operands converts it. *)
Definition to_float (a : num) : Q :=
  match a with
  | NInt n => inject_Z n
  | NFloat q => q
  end.

(** Equality of numbers by value, as Python's [==] on [int] and [float]. *)
Definition num_eq (a b : num) : Prop := (to_float a == to_float b)%Q.

(** [translate]: element coordinates to the coordinates of the
    application. *)
Definition translate (x y z : num) (isBigElement : bool) : num * num * num :=
  let x := to_float x * 0.15 in
  let y := to_float y * 0.075 in
  let z := to_float z * 0.1 in
  let y := if isBigElement then y + 0.045 else y in
  (NFloat x, NFloat y, NFloat z).

(** [change]: the coordinates of the application to element coordinates.
    The offset is subtracted after the division, as in the source. *)
Definition change (x y z : num) (isBigElement : bool) : num * num * num :=
  let x := to_float x / 0.15 in
  let y := to_float y / 0.075 in
  let z := to_float z / 0.1 in
  let y := if isBigElement then y - 0.045 else y in
  (NFloat x, NFloat y, NFloat z).

(** [change] applied to the triple that [translate] returns. *)
Definition change_translate (x y z : num) (isBigElement : bool) : num * num * num :=
  let '(x', y', z') := translate x y z isBigElement in
  change x' y' z' isBigElement.

(** Component-wise equality by value. *)
Definition triple_eq (p q : num * num * num) : Prop :=
  num_eq p.1.1 q.1.1 /\ num_eq p.1.2 q.1.2 /\ num_eq p.2 q.2.

End ElementPosition.

(** The same two functions on IEEE-754 binary64 numbers, the [float] of
    CPython. *)
Module Binary64.

Local Open Scope float_scope.

Definition translate (x y z : float) (isBigElement : bool) : float * float * float :=
  let x := x * 0.15 in
  let y := y * 0.075 in
  let z := z * 0.1 in
  let y := if isBigElement then y + 0.045 else y in
  (x, y, z).

Definition change (x y z : float) (isBigElement : bool) : float * float * float :=
  let x := x / 0.15 in
  let y := y / 0.075 in
  let z := z / 0.1 in
  let y := if isBigElement then y - 0.045 else y in
  (x, y, z).

Definition change_translate (x y z : float) (isBigElement : bool) : float * float * float :=
  let '(x', y', z') := translate x y z isBigElement in
  change x' y' z' isBigElement.

End Binary64.

(* ===================================================================== *)
(** ** Numbers *)
(* ===================================================================== *)

(** [num_type = Union[int, float]]: an [int] of any size, or a binary64
    [float]. *)
Inductive num : Type :=
  | NInt (n : Z)
  | NFloat (f : float).

(** The rational that a finite float denotes; [None] for an infinity and
    for nan. *)
Definition float_value (f : float) : option Q :=
  match Prim2SF f with
  | S754_zero _ => Some 0%Q
  | S754_finite s m e =>
      Some (inject_Z (if s then Z.neg m else Z.pos m) * Qpower 2 e)%Q
  | S754_infinity _ | S754_nan => None
  end.

(** The sign bit of a float. *)
Definition float_sign (f : float) : bool :=
  match Prim2SF f with
  | S754_zero s | S754_infinity s | S754_finite s _ _ => s
  | S754_nan => false
  end.

(** [a == k] for an [int] [k]: Python compares an [int] or a [float] with
    an [int] by exact value; an infinity and nan are equal to no [int]. *)
Definition num_eqb_int (a : num) (k : Z) : bool :=
  match a with
  | NInt n => n =? k
  | NFloat f =>
      match float_value f with
      | Some q => Qeq_bool q (inject_Z k)
      | None => false
      end
  end.

(* ===================================================================== *)
(** ** Python values, exceptions and dictionaries *)
(* ===================================================================== *)

(** The exceptions that the modelled code raises or lets through.
    [EvalError] stands for whatever [eval] raises on a text that does not
    name a constructor of the catalogue ([AttributeError], [NameError],
    [SyntaxError]). *)
Inductive exn : Type :=
  | TypeError
  | ValueError
  | OverflowError
  | KeyError
  | IndexError
  | AssertionError
  | AttributeError
  | LookupError
  | FileNotFoundError
  | OSError
  | UnicodeDecodeError
  | JSONDecodeError
  | EvalError
  | InvalidSavError
  | ExperimentOpenedError
  | ExperimentNotExistError
  | ExperimentExistError
  | ExperimentTypeError.

Inductive result (A : Type) : Type :=
  | Ok (a : A)
  | Raise (e : exn).
Arguments Ok {A} a.
Arguments Raise {A} e.

#[global] Instance result_ret : MRet result := fun A a => Ok a.
#[global] Instance result_bind : MBind result := fun A B f m =>
  match m with
  | Ok a => f a
  | Raise e => Raise e
  end.
#[global] Instance result_fmap : FMap result := fun A B f m =>
  match m with
  | Ok a => Ok (f a)
  | Raise e => Raise e
  end.

(** [assert c]. *)
Definition py_assert (c : bool) : result unit :=
  if c then Ok tt else Raise AssertionError.

(** The values that occur in a decoded save file and in the arguments of
    the modelled functions. *)
Inductive pyval : Type :=
  | VNone
  | VBool (b : bool)
  | VNum (n : num)
  | VStr (s : string)
  | VTuple (l : list pyval)
  | VList (l : list pyval)
  | VDict (d : list (string * pyval)).

(** A [dict] with string keys, in insertion order. *)
Definition pydict : Type := list (string * pyval).

(** [k in d]. *)
Definition dict_mem (d : pydict) (k : string) : bool :=
  existsb (fun kv => String.eqb kv.1 k) d.

(** [d.get(k)] without default: the value of the first entry for [k]. *)
Fixpoint dict_find (d : pydict) (k : string) : option pyval :=
  match d with
  | [] => None
  | (k', v) :: d' => if String.eqb k' k then Some v else dict_find d' k
  end.

(** [d[k]]. *)
Definition dict_get (d : pydict) (k : string) : result pyval :=
  match dict_find d k with
  | Some v => Ok v
  | None => Raise KeyError
  end.

(** [d[k] = v]: an existing key keeps its place, a new key goes last. *)
Fixpoint dict_set (d : pydict) (k : string) (v : pyval) : pydict :=
  match d with
  | [] => [(k, v)]
  | (k', v') :: d' =>
      if String.eqb k' k then (k, v) :: d' else (k', v') :: dict_set d' k v
  end.

(** [del d[k]]. *)
Fixpoint dict_del (d : pydict) (k : string) : result pydict :=
  match d with
  | [] => Raise KeyError
  | (k', v') :: d' =>
      if String.eqb k' k then Ok d' else cons (k', v') <$> dict_del d' k
  end.

(** [list(d.values())]. *)
Definition dict_values (d : pydict) : list pyval := d.*2.

(** [list(d.keys())]. *)
Definition dict_keys (d : pydict) : list string := d.*1.

(** [v[k]] for a string key: defined on dictionaries only. *)
Definition py_getitem (v : pyval) (k : string) : result pyval :=
  match v with
  | VDict d => dict_get d k
  | _ => Raise TypeError
  end.

(** [v[k] = x] for a string key. *)
Definition py_setitem (v : pyval) (k : string) (x : pyval) : result pyval :=
  match v with
  | VDict d => Ok (VDict (dict_set d k x))
  | _ => Raise TypeError
  end.

(** A continuation byte of UTF-8: 10xxxxxx. *)
Definition is_continuation (a : ascii) : bool :=
  let n := nat_of_ascii a in ((128 <=? n) && (n <? 192))%nat.

(** The characters of a string: every byte that is not a continuation byte
    starts a character, which takes the continuation bytes that follow it.
    The first component holds the continuation bytes at the front, which no
    character has claimed (there are none in well-formed UTF-8). *)
Fixpoint split_chars (s : string) : string * list string :=
  match s with
  | EmptyString => (EmptyString, [])
  | String a s' =>
      let '(c, l) := split_chars s' in
      if is_continuation a then (String a c, l)
      else (EmptyString, String a c :: l)
  end.

(** The characters of a string as one-character strings. *)
Definition py_chars (s : string) : list pyval :=
  let '(c, l) := split_chars s in
  VStr <$> match c with
           | EmptyString => l
           | _ => c :: l
           end.

(** Iteration, as tuple unpacking uses it. *)
Definition py_iter (v : pyval) : result (list pyval) :=
  match v with
  | VTuple l | VList l => Ok l
  | VStr s => Ok (py_chars s)
  | VDict d => Ok (VStr <$> dict_keys d)
  | _ => Raise TypeError
  end.

(** [a, b, c = v]. *)
Definition py_unpack3 (v : pyval) : result (pyval * pyval * pyval) :=
  l ← py_iter v;
  match l with
  | [a; b; c] => Ok (a, b, c)
  | _ => Raise ValueError
  end.

(** [v[i]] for a non-negative literal index. *)
Definition py_index (v : pyval) (i : nat) : result pyval :=
  match v with
  | VTuple l | VList l =>
      match l !! i with
      | Some a => Ok a
      | None => Raise IndexError
      end
  | VStr s =>
      match py_chars s !! i with
      | Some a => Ok a
      | None => Raise IndexError
      end
  | VDict _ => Raise KeyError
  | _ => Raise TypeError
  end.

(** [isinstance(v, (int, float))]; [bool] is a subclass of [int]. *)
Definition is_number (v : pyval) : bool :=
  match v with
  | VBool _ | VNum _ => true
  | _ => false
  end.

(** [isinstance(v, str)]. *)
Definition is_str (v : pyval) : bool :=
  match v with
  | VStr _ => true
  | _ => false
  end.

(** [bool(v)]. *)
Definition py_bool (v : pyval) : bool :=
  match v with
  | VNone => false
  | VBool b => b
  | VNum (NInt n) => negb (n =? 0)
  | VNum (NFloat f) => negb (PrimFloat.eqb f 0)
  | VStr s => negb (String.eqb s "")
  | VTuple l | VList l => negb (Nat.eqb (length l) 0)
  | VDict d => negb (Nat.eqb (length d) 0)
  end.

(** The white space of [str.isspace], which [str.strip()] removes: the
    characters U+0009 to U+000D, U+001C to U+0020, U+0085, U+00A0, U+1680,
    U+2000 to U+200A, U+2028, U+2029, U+202F, U+205F and U+3000. In UTF-8
    they take one byte ([is_space]), two bytes ([is_space2]: C2 85, C2 A0)
    or three bytes ([is_space3]: E1 9A 80, E2 80 80 to E2 80 8A, E2 80 A8,
    E2 80 A9, E2 80 AF, E2 81 9F, E3 80 80). *)
Definition is_space (a : ascii) : bool :=
  let n := nat_of_ascii a in
  ((9 <=? n) && (n <=? 13) || (28 <=? n) && (n <=? 32))%nat.

Definition is_space2 (a b : ascii) : bool :=
  let m := nat_of_ascii a in
  let n := nat_of_ascii b in
  ((m =? 194) && ((n =? 133) || (n =? 160)))%nat.

Definition is_space3 (a b c : ascii) : bool :=
  let m := nat_of_ascii a in
  let n := nat_of_ascii b in
  let k := nat_of_ascii c in
  ((m =? 225) && (n =? 154) && (k =? 128)
   || (m =? 226) && (n =? 128)
      && ((128 <=? k) && (k <=? 138) || (k =? 168) || (k =? 169) || (k =? 175))
   || (m =? 226) && (n =? 129) && (k =? 159)
   || (m =? 227) && (n =? 128) && (k =? 128))%nat.

(** The rest of [s] after its first character, when that character is
    white space. *)
Definition skip_space (s : string) : option string :=
  match s with
  | EmptyString => None
  | String a s1 =>
      if is_space a then Some s1
      else
        match s1 with
        | EmptyString => None
        | String b s2 =>
            if is_space2 a b then Some s2
            else
              match s2 with
              | EmptyString => None
              | String c s3 => if is_space3 a b c then Some s3 else None
              end
        end
  end.

(** [s] is one white-space character. *)
Definition is_one_space (s : string) : bool :=
  match skip_space s with
  | Some EmptyString => true
  | _ => false
  end.

(** [s.lstrip()]: the white-space characters at the front are dropped. *)
Fixpoint lstrip (s : string) : string :=
  match s with
  | EmptyString => EmptyString
  | String a s1 =>
      if is_space a then lstrip s1
      else
        match s1 with
        | EmptyString => s
        | String b s2 =>
            if is_space2 a b then lstrip s2
            else
              match s2 with
              | EmptyString => s
              | String c s3 => if is_space3 a b c then lstrip s3 else s
              end
        end
  end.

(** [s.rstrip()], from the end of the string: what remains of the rest,
    with the byte [a] in front, is dropped when it is one white-space
    character. *)
Fixpoint rstrip (s : string) : string :=
  match s with
  | EmptyString => EmptyString
  | String a s' =>
      let r := String a (rstrip s') in
      if is_one_space r then EmptyString else r
  end.

(** [s.strip()]. *)
Definition strip (s : string) : string := rstrip (lstrip s).

(** [s.replace(a, b)] for one-character [a] and [b]. *)
Fixpoint replace (a b : ascii) (s : string) : string :=
  match s with
  | EmptyString => EmptyString
  | String c s' => String (if Ascii.eqb c a then b else c) (replace a b s')
  end.

(** [s.startswith(p)]. *)
Definition startswith (s p : string) : bool := String.prefix p s.

(** [s.endswith(p)]. *)
Definition endswith (s p : string) : bool :=
  String.prefix (String.rev p) (String.rev s).

(* ===================================================================== *)
(** ** physicsLab/_tools.py *)
(* ===================================================================== *)

Module Tools.

(** [position = namedtuple("position", ["x", "y", "z"])]: three fields,
    stored as given. *)
Record position : Type := mk_position { x : pyval; y : pyval; z : pyval }.

(** Rounding to the nearest integer, ties to the even one. *)
Definition round_half_even (q : Q) : Z :=
  let f := Qfloor q in
  match (q - inject_Z f ?= 1 # 2)%Q with
  | Lt => f
  | Gt => f + 1
  | Eq => if Z.even f then f else f + 1
  end.

(** The decimal with four fractional digits that is nearest to [q] (ties to
    the even last digit), as the number of its ten-thousandths. This is the
    first step of [round(x, 4)] on a float [x], which CPython takes on the
    exact value of [x]. *)
Definition decimal4 (q : Q) : Z := round_half_even (q * 10000).

(** The second step: the float nearest to the decimal [k]/10000 with the
    given sign. For [|k| < 2^53] both [|k|] and 10000 are floats, and their
    quotient is rounded to the nearest float by the division. *)
Definition float_of_decimal4 (negative : bool) (k : Z) : float :=
  let r := (PrimFloat.of_uint63 (Uint63.of_Z (Z.abs k)) / 10000)%float in
  if negative then (- r)%float else r.

(** [round(x, 4)] on a float. An infinity and nan are returned as they are.
    When [|k|] reaches [2^53] the float is at least [9 * 10^11], the floats
    next to it are more than 0.0001 away, and the float nearest to the
    decimal is [x] itself. *)
Definition round4_float (x : float) : float :=
  match float_value x with
  | Some q =>
      let k := decimal4 q in
      if Z.abs k <? 2 ^ 53 then float_of_decimal4 (float_sign x) k else x
  | None => x
  end.

(** [round(n, 4)]: an [int] is returned as it is. *)
Definition round4 (n : num) : num :=
  match n with
  | NInt k => NInt k
  | NFloat x => NFloat (round4_float x)
  end.

(** [round_data]. *)
Definition round_data (v : pyval) : result pyval :=
  match v with
  | VBool b => Ok (VNum (NInt (Z.b2z b)))
  | VNum n => Ok (VNum (round4 n))
  | _ => Raise TypeError
  end.

(** [roundData], on the list of its positional arguments. *)
Definition roundData (args : list pyval) : result pyval :=
  if negb (forallb is_number args) then Raise TypeError
  else
    match args with
    | [a] => round_data a
    | _ => VTuple <$> mapM round_data args
    end.

(** [string.ascii_lowercase], [string.ascii_letters] and [string.digits]. *)
Definition ascii_lowercase : string := "abcdefghijklmnopqrstuvwxyz".
Definition ascii_letters : string :=
  (ascii_lowercase ++ "ABCDEFGHIJKLMNOPQRSTUVWXYZ")%string.
Definition digits : string := "0123456789".

(** [random.choice(seq)] for a non-empty [seq]: the character at the index
    that the generator draws, taken within the length of [seq]. *)
Definition choice (seq : string) (draw : nat) : ascii :=
  match String.get (draw mod String.length seq) seq with
  | Some c => c
  | None => "000"%char
  end.

(** [''.join(choice(letters + digits) for _ in range(n))]; [draws i] is the
    draw of the generator at the [i]-th call. *)
Fixpoint join_choices (alphabet : string) (draws : nat -> nat) (i n : nat)
    : string :=
  match n with
  | O => EmptyString
  | S n' =>
      String (choice alphabet (draws i)) (join_choices alphabet draws (S i) n')
  end.

(** [randString]; a negative length gives the empty range. *)
Definition randString (draws : nat -> nat) (strLength : pyval) (lower : bool)
    : result string :=
  let letters := if lower then ascii_lowercase else ascii_letters in
  match strLength with
  | VBool b =>
      Ok (join_choices (letters ++ digits) draws O (Z.to_nat (Z.b2z b)))
  | VNum (NInt n) => Ok (join_choices (letters ++ digits) draws O (Z.to_nat n))
  | _ => Raise TypeError
  end.

End Tools.

(* ===================================================================== *)
(** ** physicsLab/element.py: [crt_element] *)
(* ===================================================================== *)

Inductive ExperimentType : Type := Circuit | Celestial | Electromagnetism.

#[global] Instance ExperimentType_eq_dec : EqDecision ExperimentType.
Proof. solve_decision. Defined.

(** The constructor calls that the module makes. The three [*_by_name]
    calls are the [eval] of a text built from the model name. *)
Inductive ctor_call : Type :=
  | NE555 (x y z : pyval) (elementXYZ : option bool)
  | eight_bit_Input (x y z : pyval) (elementXYZ : option bool)
  | eight_bit_Display (x y z : pyval) (elementXYZ : option bool)
  | circuit_by_name (name : string) (x y z : pyval) (elementXYZ : option bool)
      (args : list pyval) (kwargs : pydict)
  | celestial_by_name (name : string) (x y z : pyval)
  | electromagnetism_by_name (name : string) (x y z : pyval)
  | Simple_Instrument (x y z : pyval) (elementXYZ : bool)
      (instrument pitch : Z) (velocity rated_oltage : pyval)
      (is_ideal_model is_single : bool).

(** An element object: the call that made it, its [data] dictionary, the
    arguments of the last [set_rotation] and the notes added by
    [add_note]. *)
Record Element : Type := mk_Element {
  ctor : ctor_call;
  data : pydict;
  rotation : option (pyval * pyval * pyval);
  notes : list Z
}.

(** The catalogue of element classes ([physicsLab.circuit],
    [physicsLab.celestial], [physicsLab.electromagnetism]), which is not
    part of the modelled files: the [data] dictionary that a constructor
    call builds, or the exception it raises. *)
Class Catalogue : Type := {
  initial_data : ctor_call -> result pydict
}.

Section CrtElement.
Context {cat : Catalogue}.

(** A constructor call of the catalogue. *)
Definition construct (c : ctor_call) : result Element :=
  d ← initial_data c;
  Ok {| ctor := c; data := d; rotation := None; notes := [] |}.

(** [name.strip().replace(' ', '_').replace('-', '_')]. *)
Definition normalize_name (name : string) : string :=
  replace "-"%char "_"%char (replace " "%char "_"%char (strip name)).

(** The part of [crt_element] before the constructor is called: the type
    checks, the normalised name, the rounded coordinates and the choice of
    the constructor. *)
Definition crt_element_dispatch (experiment_type : ExperimentType)
    (name x y z : pyval) (elementXYZ : option bool)
    (args : list pyval) (kwargs : pydict) : result ctor_call :=
  if negb (is_str name) || negb (is_number x) || negb (is_number y)
     || negb (is_number z)
  then Raise TypeError
  else
    match name with
    | VStr name =>
        let name := normalize_name name in
        r ← Tools.roundData [x; y; z];
        '(x, y, z) ← py_unpack3 r;
        match experiment_type with
        | Circuit =>
            if String.eqb name "555_Timer" then Ok (NE555 x y z elementXYZ)
            else if String.eqb name "8bit_Input" then
              Ok (eight_bit_Input x y z elementXYZ)
            else if String.eqb name "8bit_Display" then
              Ok (eight_bit_Display x y z elementXYZ)
            else Ok (circuit_by_name name x y z elementXYZ args kwargs)
        | Celestial => Ok (celestial_by_name name x y z)
        | Electromagnetism => Ok (electromagnetism_by_name name x y z)
        end
    | _ => Raise TypeError
    end.

(** [crt_element]. *)
Definition crt_element (experiment_type : ExperimentType)
    (name x y z : pyval) (elementXYZ : option bool)
    (args : list pyval) (kwargs : pydict) : result Element :=
  c ← crt_element_dispatch experiment_type name x y z elementXYZ args kwargs;
  construct c.

End CrtElement.

(* ===================================================================== *)
(** ** The environment of [element.py] *)
(* ===================================================================== *)

Inductive OpenMode : Type :=
  | load_by_sav_name
  | load_by_filepath
  | load_by_plar_app
  | crt.

#[global] Instance OpenMode_eq_dec : EqDecision OpenMode.
Proof. solve_decision. Defined.

Inductive Category : Type := Category_Experiment | Category_Discussion.

(** The interpreter and the operating system. [fs] is the state of the file
    system. An encoding is [Some name], or [None] for the default of the
    locale (what [open(path, encoding=None)] uses). *)
Class Interpreter : Type := {
  fs : Type;
  (** [os.path.exists] *)
  path_exists : fs -> string -> bool;
  (** [os.path.abspath] *)
  abspath : string -> string;
  (** [os.path.join] *)
  path_join : string -> string -> string;
  (** [[i for i in os.walk(dir)][0][-1]]: the names of the files of [dir] *)
  walk_files : fs -> string -> result (list string);
  (** [os.remove] *)
  os_remove : fs -> string -> result fs;
  (** [open(path, encoding=e).read()] *)
  read_text : fs -> string -> option string -> result string;
  (** [open(path, "rb").read()] *)
  read_bytes : fs -> string -> result string;
  (** [json.loads] *)
  json_loads : string -> result pyval;
  (** [eval] of a text whose evaluation has no side effects (the texts are
      the numbers of a save file, separated by commas) *)
  py_eval : string -> result pyval;
  (** [str(v)], as an f-string formats a value *)
  py_format : pyval -> string;
  (** [int(s)] for a string [s] *)
  int_of_string : string -> result Z;
  (** [chardet.detect(bytes)["encoding"]] when [import chardet] succeeds,
      [None] when it raises [ImportError] *)
  chardet : option (string -> option string)
}.

(** The parts of the package that [element.py] imports: the directory of
    the saves, the values of the [ExperimentType] enumeration, the
    templates and the [Generate] marker of [savTemplate],
    [_Experiment.__entitle] and the client of
    the server ([web.User]). *)
Class Package : Type := {
  SAV_PATH_DIR : string;
  ExperimentType_value : ExperimentType -> Z;
  savTemplate : ExperimentType -> pyval;
  Generate : pyval;
  entitle : pyval -> string -> result pyval;
  User : Type;
  new_User : result User;
  get_summary : User -> string -> Category -> result pyval;
  get_experiment : User -> pyval -> result pyval
}.

(** [f"{v}"]: a string is inserted as it is. *)
Definition fstring {interp : Interpreter} (v : pyval) : string :=
  match v with
  | VStr s => s
  | _ => py_format v
  end.

(** [s.replace('\n', '')]. *)
Fixpoint remove_newlines (s : string) : string :=
  match s with
  | EmptyString => EmptyString
  | String c s' =>
      if Ascii.eqb c "010"%char then remove_newlines s'
      else String c (remove_newlines s')
  end.

(** [v == t.value] for a member [t] of [ExperimentType]: only a number can
    be equal to the integer. *)
Definition is_type_value {pkg : Package} (v : pyval) (t : ExperimentType) : bool :=
  match v with
  | VBool b => Z.b2z b =? ExperimentType_value t
  | VNum n => num_eqb_int n (ExperimentType_value t)
  | _ => false
  end.

(** [v == s] for a string [s]. *)
Definition is_string_value (v : pyval) (s : string) : bool :=
  match v with
  | VStr s' => String.eqb s' s
  | _ => false
  end.

(* ===================================================================== *)
(** ** physicsLab/element.py: reading save files *)
(* ===================================================================== *)

Section OpenSav.
Context {interp : Interpreter} {pkg : Package}.

(** [_get_all_pl_sav]. *)
Definition _get_all_pl_sav (files : fs) : result (list string) :=
  savs ← walk_files files SAV_PATH_DIR;
  Ok (filter (fun aSav => Is_true (endswith aSav ".sav")) savs).

(** [encode_sav], the helper inside [_open_sav]: [VNone] is Python's
    [None]. Only the two decoding errors are caught. *)
Definition encode_sav (files : fs) (path : string) (encoding : option string)
    : result pyval :=
  match read_text files path encoding with
  | Raise UnicodeDecodeError => Ok VNone
  | Raise e => Raise e
  | Ok text =>
      match json_loads (remove_newlines text) with
      | Raise JSONDecodeError => Ok VNone
      | Raise e => Raise e
      | Ok d => Ok d
      end
  end.

(** The loop [for encoding in (...)] of [_open_sav]: the first result that
    is not [None], or [None] after the last encoding. *)
Fixpoint try_encodings (files : fs) (path : string) (encodings : list string)
    : result pyval :=
  match encodings with
  | [] => Ok VNone
  | encoding :: rest =>
      res ← encode_sav files path (Some encoding);
      match res with
      | VNone => try_encodings files path rest
      | _ => Ok res
      end
  end.

(** The encodings tried when [chardet] cannot be imported. *)
Definition fallback_encodings : list string := ["utf-8-sig"; "gbk"].

(** [_open_sav]. *)
Definition _open_sav (files : fs) (sav_path : string) : result pyval :=
  _ ← py_assert (path_exists files sav_path);
  res ← encode_sav files sav_path (Some "utf-8");
  match res with
  | VNone =>
      res ←
        match chardet with
        | None => try_encodings files sav_path fallback_encodings
        | Some detect =>
            bytes ← read_bytes files sav_path;
            encode_sav files sav_path (detect bytes)
        end;
      match res with
      | VNone => Raise InvalidSavError
      | _ => Ok res
      end
  | _ => Ok res
  end.

(** The loop of [search_experiment] over the names of the save files. *)
Fixpoint search_experiment_loop (files : fs) (sav_name : string)
    (savs : list string) : result (option (string * pyval)) :=
  match savs with
  | [] => Ok None
  | aSav :: rest =>
      match _open_sav files (path_join SAV_PATH_DIR aSav) with
      | Raise InvalidSavError => search_experiment_loop files sav_name rest
      | Raise e => Raise e
      | Ok sav =>
          name ← py_getitem sav "InternalName";
          if is_string_value name sav_name then Ok (Some (aSav, sav))
          else search_experiment_loop files sav_name rest
      end
  end.

(** [search_experiment]: [Ok None] is the pair [(None, None)]. *)
Definition search_experiment (files : fs) (sav_name : string)
    : result (option (string * pyval)) :=
  savs ← _get_all_pl_sav files;
  search_experiment_loop files sav_name savs.

End OpenSav.

(* ===================================================================== *)
(** ** physicsLab/element.py: decoding the elements and the wires *)
(* ===================================================================== *)

(** A pin: the index of its element in [Elements] and the pin label. *)
Definition Pin : Type := (nat * pyval)%type.

Record Wire : Type := mk_Wire {
  Source : Pin;
  Target : Pin;
  color : pyval
}.

(** The outcome of [__load]. *)
Record Loaded : Type := mk_Loaded {
  l_PlSav : pyval;
  l_CameraSave : pyval;
  l_VisionCenter : Tools.position;
  l_TargetRotation : Tools.position;
  l_experiment_type : ExperimentType
}.

Section Load.
Context {interp : Interpreter} {pkg : Package} {cat : Catalogue}.

(** [eval(f"({v})")]. *)
Definition eval_parenthesised (v : pyval) : result pyval :=
  py_eval ("(" ++ fstring v ++ ")").

(** [temp = eval(f"({v})")] followed by
    [position(temp[0], temp[2], temp[1])]. *)
Definition eval_position_xzy (v : pyval) : result Tools.position :=
  temp ← eval_parenthesised v;
  a ← py_index temp 0;
  b ← py_index temp 2;
  c ← py_index temp 1;
  Ok (Tools.mk_position a b c).

(** The chain of comparisons of a [Type] field with the three values of
    [ExperimentType]; [assert False] when none is equal. *)
Definition type_of_value (v : pyval) : result ExperimentType :=
  if is_type_value v Circuit then Ok Circuit
  else if is_type_value v Celestial then Ok Celestial
  else if is_type_value v Electromagnetism then Ok Electromagnetism
  else Raise AssertionError.

(** [Experiment.__load]. *)
Definition Experiment_load (PlSav : pyval) : result Loaded :=
  experiment ← py_getitem PlSav "Experiment";
  camera_text ← py_getitem experiment "CameraSave";
  _ ← py_assert (is_str camera_text);
  CameraSave ←
    match camera_text with
    | VStr text => json_loads text
    | _ => Raise AssertionError
    end;
  vc ← py_getitem CameraSave "VisionCenter";
  VisionCenter ← eval_position_xzy vc;
  tr ← py_getitem CameraSave "TargetRotation";
  TargetRotation ← eval_position_xzy tr;
  summary ← py_getitem PlSav "Summary";
  PlSav ←
    match summary with
    | VNone =>
        template_summary ← py_getitem (savTemplate Circuit) "Summary";
        py_setitem PlSav "Summary" template_summary
    | _ => Ok PlSav
    end;
  experiment ← py_getitem PlSav "Experiment";
  type ← py_getitem experiment "Type";
  experiment_type ← type_of_value type;
  Ok (mk_Loaded PlSav CameraSave VisionCenter TargetRotation experiment_type).

(** [int(v)]: a float is truncated towards zero; an infinity raises
    [OverflowError] and nan [ValueError]. *)
Definition py_int (v : pyval) : result Z :=
  match v with
  | VBool b => Ok (Z.b2z b)
  | VNum (NInt n) => Ok n
  | VNum (NFloat f) =>
      match float_value f with
      | Some q => Ok (Z.quot (Qnum q) (Z.pos (Qden q)))
      | None =>
          match Prim2SF f with
          | S754_nan => Raise ValueError
          | _ => Raise OverflowError
          end
      end
  | VStr s => int_of_string s
  | _ => Raise TypeError
  end.

(** [for attr, val in properties.items(): if attr.startswith("音高"):
    obj.add_note(int(val))]. The method [add_note] belongs to the catalogue;
    the model collects the arguments of its calls. *)
Fixpoint collect_notes (properties : pydict) : result (list Z) :=
  match properties with
  | [] => Ok []
  | (attr, val) :: rest =>
      if startswith attr "音高" then
        n ← py_int val;
        ns ← collect_notes rest;
        Ok (n :: ns)
      else collect_notes rest
  end.

(** Modelled from the spec: [set_rotation] of [_core.py], which gives an
    element its rotation. The model keeps the three arguments of the
    call. *)
Definition set_rotation (obj : Element) (r_x r_y r_z : pyval) : Element :=
  {| ctor := ctor obj; data := data obj;
     rotation := Some (r_x, r_y, r_z); notes := notes obj |}.

Definition set_data (obj : Element) (d : pydict) : Element :=
  {| ctor := ctor obj; data := d; rotation := rotation obj; notes := notes obj |}.

Definition set_notes (obj : Element) (ns : list Z) : Element :=
  {| ctor := ctor obj; data := data obj; rotation := rotation obj; notes := ns |}.

(** The Simple Instrument branch of [__load_elements]. *)
Definition load_simple_instrument (element : pyval) (x y z : pyval)
    : result Element :=
  properties ← py_getitem element "Properties";
  match properties with
  | VDict props =>
      instrument ←
        py_int (default (VNum (NInt 0)) (dict_find props "乐器"));
      pitch ← dict_get props "音高" ≫= py_int;
      velocity ← dict_get props "音量";
      rated_oltage ← dict_get props "额定电压";
      is_ideal_model ← py_bool <$> dict_get props "理想模式";
      is_single ← py_bool <$> dict_get props "脉冲";
      obj ← construct (Simple_Instrument x y z false instrument pitch
                         velocity rated_oltage is_ideal_model is_single);
      ns ← collect_notes props;
      Ok (set_notes obj ns)
  | _ => Raise AttributeError
  end.

(** The other Circuit elements: [crt_element], then the stored
    [Properties] with the lock added. *)
Definition load_circuit_element (element : pyval) (x y z : pyval)
    : result Element :=
  ModelID ← py_getitem element "ModelID";
  obj ← crt_element Circuit ModelID x y z (Some false) [] [];
  properties ← py_getitem element "Properties";
  let d := dict_set (data obj) "Properties" properties in
  properties ← dict_get d "Properties";
  properties ← py_setitem properties "锁定" (VNum (NFloat 1));
  Ok (set_data obj (dict_set d "Properties" properties)).

(** The body of the loop of [__load_elements]. *)
Definition load_element (experiment_type : ExperimentType) (element : pyval)
    : result Element :=
  pos ← py_getitem element "Position";
  xzy ← eval_parenthesised pos ≫= py_unpack3;
  let '(x, z, y) := xzy in
  match experiment_type with
  | Circuit =>
      ModelID ← py_getitem element "ModelID";
      obj ←
        (if is_string_value ModelID "Simple Instrument"
         then load_simple_instrument element x y z
         else load_circuit_element element x y z);
      rot ← py_getitem element "Rotation";
      rotation ← eval_parenthesised rot;
      r_x ← py_index rotation 0;
      r_y ← py_index rotation 2;
      r_z ← py_index rotation 1;
      let obj := set_rotation obj r_x r_y r_z in
      identifier ← py_getitem element "Identifier";
      Ok (set_data obj (dict_set (data obj) "Identifier" identifier))
  | Celestial =>
      Model ← py_getitem element "Model";
      obj ← crt_element Celestial Model x y z None [] [];
      match element with
      | VDict d => Ok (set_data obj d)
      | _ => Raise TypeError
      end
  | Electromagnetism =>
      ModelID ← py_getitem element "ModelID";
      obj ← crt_element Electromagnetism ModelID x y z None [] [];
      match element with
      | VDict d => Ok (set_data obj d)
      | _ => Raise TypeError
      end
  end.

(** The loop of [__load_elements]. The elements made so far are
    [Elements]; every new element is appended to them, which in the package
    is done by the constructor of the element. The result is [Elements]
    after the last record; when a record fails, the result is the exception
    alone (what the constructors had appended by then is not part of
    it). *)
Definition load_elements_loop (experiment_type : ExperimentType)
    : list pyval -> list Element -> result (list Element) :=
  fix go (_elements : list pyval) (Elements : list Element) :=
    match _elements with
    | [] => Ok Elements
    | element :: rest =>
        obj ← load_element experiment_type element;
        go rest (Elements ++ [obj])
    end.

Definition Experiment_load_elements (experiment_type : ExperimentType)
    (_elements : pyval) (Elements : list Element) : result (list Element) :=
  match _elements with
  | VList l => load_elements_loop experiment_type l Elements
  | _ => Raise AssertionError
  end.

End Load.

(* ===================================================================== *)
(** ** physicsLab/element.py: the [Experiment] class *)
(* ===================================================================== *)

Record Experiment : Type := mk_Experiment {
  open_mode : OpenMode;
  SAV_PATH : string;
  PlSav : pyval;
  CameraSave : pyval;
  VisionCenter : Tools.position;
  TargetRotation : Tools.position;
  experiment_type : ExperimentType;
  (** the three attributes that only a Circuit experiment has *)
  is_elementXYZ : option bool;
  elementXYZ_origin_position : option Tools.position;
  Wires : option (list Wire);
  Elements : list Element
}.

(** Modelled from the spec: [_ExperimentStack] of [_core.py], the
    process-wide registry of the open experiments, keyed by the absolute
    path of the save file, with the operations contains ([inside]), push
    and remove. *)
Module ExperimentStack.

Definition inside (stack : list string) (path : string) : bool :=
  existsb (String.eqb path) stack.

Definition push (stack : list string) (path : string) : list string :=
  stack ++ [path].

Fixpoint remove (stack : list string) (path : string) : list string :=
  match stack with
  | [] => []
  | p :: rest => if String.eqb path p then rest else p :: remove rest path
  end.

End ExperimentStack.

(** Modelled from the spec: what [save] of [_core.py] does to the files.
    It re-encodes the experiment and writes the document (optionally to an
    alternate path); being file I/O it returns, with the new state of the
    files, or fails. *)
Class Core {interp : Interpreter} : Type := {
  write_document : fs -> Experiment -> option string -> result fs
}.

(** The calls of [save] and [exit], in the order they were made. *)
Inductive event : Type :=
  | Saved (path : string) (extra_filepath : option string)
  | Exited (path : string) (delete : bool).

(** [s.replace(old, new)] for a non-empty [old]; [skip] counts the
    characters of a match that are still to be dropped. *)
Fixpoint replace_from (old new : string) (skip : nat) (s : string) : string :=
  match s with
  | EmptyString => EmptyString
  | String c s' =>
      match skip with
      | S k => replace_from old new k s'
      | O =>
          if String.prefix old s
          then new ++ replace_from old new (String.length old - 1) s'
          else String c (replace_from old new O s')
      end
  end.

Definition replace_str (old new s : string) : string :=
  replace_from old new O s.

Section ExperimentClass.
Context {interp : Interpreter} {pkg : Package} {cat : Catalogue} {core : Core}.

(** The arguments of [Experiment.__init__], which checks their types
    itself. *)
Inductive arg : Type :=
  | AVal (v : pyval)
  | AOpenMode (m : OpenMode)
  | AExperimentType (t : ExperimentType)
  | ACategory (c : Category)
  | AUser (u : User).

(** The state of the process: the file system, the stack of the open
    experiments and the record of the [save] and [exit] calls. *)
Record World : Type := mk_World {
  files : fs;
  stack : list string;
  log : list event
}.

(** A computation that reads and changes the state and may raise. *)
Definition io (A : Type) : Type := World -> World * result A.

#[local] Instance io_ret : MRet io := fun A a w => (w, Ok a).
#[local] Instance io_bind : MBind io := fun A B f m w =>
  match m w with
  | (w', Ok a) => f a w'
  | (w', Raise e) => (w', Raise e)
  end.

Definition lift {A} (r : result A) : io A := fun w => (w, r).
Definition raise {A} (e : exn) : io A := fun w => (w, Raise e).
Definition get_files : io fs := fun w => (w, Ok (files w)).
Definition get_stack : io (list string) := fun w => (w, Ok (stack w)).
Definition set_files (f : fs) : io unit :=
  fun w => (mk_World f (stack w) (log w), Ok tt).
Definition set_stack (st : list string) : io unit :=
  fun w => (mk_World (files w) st (log w), Ok tt).
Definition emit (ev : event) : io unit :=
  fun w => (mk_World (files w) (stack w) (log w ++ [ev]), Ok tt).

(** [if _ExperimentStack.inside(self): raise errors.ExperimentOpenedError]. *)
Definition check_not_opened (path : string) : io unit :=
  st ← get_stack;
  if ExperimentStack.inside st path then raise ExperimentOpenedError
  else mret tt.

(** [_ExperimentStack.push(self)]. *)
Definition push_self (path : string) : io unit :=
  st ← get_stack;
  set_stack (ExperimentStack.push st path).

(** The template of the declared type with [_temp] as its [Experiment]
    region. *)
Definition wrap_in_template (_temp : pyval) : result pyval :=
  type ← py_getitem _temp "Type";
  t ← type_of_value type;
  py_setitem (savTemplate t) "Experiment" _temp.

(** The experiment that a load mode builds from the outcome of [__load]. *)
Definition loaded_experiment (m : OpenMode) (path : string) (l : Loaded)
    : Experiment :=
  let circuit := bool_decide (l_experiment_type l = Circuit) in
  {| open_mode := m; SAV_PATH := path; PlSav := l_PlSav l;
     CameraSave := l_CameraSave l; VisionCenter := l_VisionCenter l;
     TargetRotation := l_TargetRotation l;
     experiment_type := l_experiment_type l;
     is_elementXYZ := if circuit then Some false else None;
     elementXYZ_origin_position :=
       if circuit
       then Some (Tools.mk_position (VNum (NInt 0)) (VNum (NInt 0)) (VNum (NInt 0)))
       else None;
     Wires := if circuit then Some [] else None;
     Elements := [] |}.

(** The branch [open_mode == OpenMode.load_by_filepath]. *)
Definition open_by_filepath (args : list arg) : io Experiment :=
  match args with
  | [AVal (VStr sav_name)] =>
      let path := abspath sav_name in
      fs0 ← get_files;
      if negb (path_exists fs0 path) then raise FileNotFoundError
      else
        _ ← check_not_opened path;
        _temp ← lift (_open_sav fs0 path);
        PlSav ← lift
          match _temp with
          | VDict d =>
              if dict_mem d "Experiment" then Ok _temp
              else wrap_in_template _temp
          | _ => Raise AttributeError
          end;
        l ← lift (Experiment_load PlSav);
        mret (loaded_experiment load_by_filepath path l)
  | _ => raise TypeError
  end.

(** The branch [open_mode == OpenMode.load_by_sav_name]. *)
Definition open_by_sav_name (args : list arg) : io Experiment :=
  match args with
  | [AVal (VStr sav_name)] =>
      fs0 ← get_files;
      found ← lift (search_experiment fs0 sav_name);
      match found with
      | None => raise ExperimentNotExistError
      | Some (filename, _plsav) =>
          let path := path_join SAV_PATH_DIR filename in
          _ ← check_not_opened path;
          l ← lift (Experiment_load _plsav);
          mret (loaded_experiment load_by_sav_name path l)
      end
  | _ => raise TypeError
  end.

(** [kwargs.get(key, default)]. *)
Definition kwargs_get (kwargs : list (string * arg)) (key : string)
    (default : arg) : arg :=
  match List.find (fun kv => String.eqb kv.1 key) kwargs with
  | Some kv => kv.2
  | None => default
  end.

(** [v["Data"]] with the key ["$type"] deleted. *)
Definition data_without_type (v : pyval) : result pydict :=
  d ← py_getitem v "Data";
  match d with
  | VDict d => dict_del d "$type"
  | _ => Raise TypeError
  end.

(** The branch [open_mode == OpenMode.load_by_plar_app]. *)
Definition open_by_plar_app (args : list arg) (kwargs : list (string * arg))
    : io Experiment :=
  match args with
  | [] | [_] => raise ValueError
  | [AVal (VStr content_id); ACategory category] =>
      anonymous ← lift new_User;
      match kwargs_get kwargs "user" (AUser anonymous) with
      | AUser user =>
          let path := path_join SAV_PATH_DIR (content_id ++ ".sav") in
          _ ← check_not_opened path;
          _summary ← lift (get_summary user content_id category
                             ≫= data_without_type);
          ContentID ← lift (dict_get _summary "ContentID");
          _experiment ← lift (get_experiment user ContentID
                                ≫= data_without_type);
          PlSav ← lift (
            wrapped ← wrap_in_template (VDict _experiment);
            py_setitem wrapped "Summary" (VDict _summary));
          l ← lift (Experiment_load PlSav);
          mret (loaded_experiment load_by_plar_app path l)
      | _ => raise TypeError
      end
  | _ => raise TypeError
  end.

(** The camera of a new experiment: [CameraSave], [VisionCenter] and
    [TargetRotation] by experiment type. *)
Definition new_camera (t : ExperimentType)
    : pyval * Tools.position * Tools.position :=
  let f x := VNum (NFloat x) in
  let i n := VNum (NInt n) in
  let camera (mode : Z) (distance : float) :=
    VDict [("Mode", i mode); ("Distance", f distance);
           ("VisionCenter", Generate); ("TargetRotation", Generate)] in
  match t with
  | Circuit =>
      (camera 0 2.7%float, Tools.mk_position (i 0) (f (-0.45)%float)
                             (f 1.08%float),
       Tools.mk_position (i 50) (i 0) (i 0))
  | Celestial =>
      (camera 2 2.75%float, Tools.mk_position (i 0) (i 0) (f 1.08%float),
       Tools.mk_position (i 90) (i 0) (i 0))
  | Electromagnetism =>
      (camera 0 3.25%float, Tools.mk_position (i 0) (i 0) (f 0.88%float),
       Tools.mk_position (i 90) (i 0) (i 0))
  end.

(** The branch [open_mode == OpenMode.crt]; [token] is the string that
    [_tools.randString(34)] returns. It has no check against the stack. *)
Definition open_crt (token : string) (args : list arg)
    (kwargs : list (string * arg)) : io Experiment :=
  match args with
  | [] | [_] => raise ValueError
  | [AVal (VStr sav_name); AExperimentType experiment_type] =>
      match kwargs_get kwargs "force_crt" (AVal (VBool false)) with
      | AVal (VBool force_crt) =>
          fs0 ← get_files;
          found ← lift (search_experiment fs0 sav_name);
          _ ←
            match found with
            | Some (filepath, _) =>
                if negb force_crt then raise ExperimentExistError
                else
                  let path := path_join SAV_PATH_DIR filepath in
                  fs1 ← lift (os_remove fs0 path);
                  _ ← set_files fs1;
                  let jpg := replace_str ".sav" ".jpg" path in
                  if path_exists fs1 jpg then
                    fs2 ← lift (os_remove fs1 jpg);
                    set_files fs2
                  else mret tt
            | None => mret tt
            end;
          let path := path_join SAV_PATH_DIR (token ++ ".sav") in
          let '(camera, vision, target) := new_camera experiment_type in
          let circuit := bool_decide (experiment_type = Circuit) in
          PlSav ← lift (entitle (savTemplate experiment_type) sav_name);
          mret {| open_mode := crt; SAV_PATH := path; PlSav := PlSav;
                  CameraSave := camera; VisionCenter := vision;
                  TargetRotation := target;
                  experiment_type := experiment_type;
                  is_elementXYZ := if circuit then Some false else None;
                  elementXYZ_origin_position :=
                    if circuit
                    then Some (Tools.mk_position (VNum (NInt 0)) (VNum (NInt 0))
                                 (VNum (NInt 0)))
                    else None;
                  Wires := if circuit then Some [] else None;
                  Elements := [] |}
      | _ => raise TypeError
      end
  | _ => raise TypeError
  end.

(** Modelled from the spec: [get_element_from_identifier] of [_core.py],
    which resolves an identifier to the decoded element that carries it and
    fails when there is none. The result is the index of the element. *)
Fixpoint get_element_from_identifier (Elements : list Element)
    (identifier : pyval) (index : nat) : result nat :=
  match Elements with
  | [] => Raise LookupError
  | e :: rest =>
      match identifier, dict_find (data e) "Identifier" with
      | VStr i, Some (VStr j) =>
          if String.eqb i j then Ok index
          else get_element_from_identifier rest identifier (S index)
      | _, _ => get_element_from_identifier rest identifier (S index)
      end
  end.

(** [__load_wires]. The result lists the wires in the order of the [add]
    calls; the set of the source keeps one of several equal wires. *)
Fixpoint load_wires_loop (Elements : list Element) (_wires : list pyval)
    (Wires : list Wire) : result (list Wire) :=
  match _wires with
  | [] => Ok Wires
  | wire_dict :: rest =>
      source ← py_getitem wire_dict "Source";
      source ← get_element_from_identifier Elements source O;
      source_pin ← py_getitem wire_dict "SourcePin";
      target ← py_getitem wire_dict "Target";
      target ← get_element_from_identifier Elements target O;
      target_pin ← py_getitem wire_dict "TargetPin";
      color_name ← py_getitem wire_dict "ColorName";
      color ← py_index color_name 0;
      load_wires_loop Elements rest
        (Wires ++ [mk_Wire (source, source_pin) (target, target_pin) color])
  end.

Definition with_Elements (e : Experiment) (els : list Element) : Experiment :=
  {| open_mode := open_mode e; SAV_PATH := SAV_PATH e; PlSav := PlSav e;
     CameraSave := CameraSave e; VisionCenter := VisionCenter e;
     TargetRotation := TargetRotation e;
     experiment_type := experiment_type e;
     is_elementXYZ := is_elementXYZ e;
     elementXYZ_origin_position := elementXYZ_origin_position e;
     Wires := Wires e; Elements := els |}.

Definition with_Wires (e : Experiment) (ws : list Wire) : Experiment :=
  {| open_mode := open_mode e; SAV_PATH := SAV_PATH e; PlSav := PlSav e;
     CameraSave := CameraSave e; VisionCenter := VisionCenter e;
     TargetRotation := TargetRotation e;
     experiment_type := experiment_type e;
     is_elementXYZ := is_elementXYZ e;
     elementXYZ_origin_position := elementXYZ_origin_position e;
     Wires := Some ws; Elements := Elements e |}.

(** The [Elements] field of the decoded [StatusSave] as the list that is
    handed to [__load_elements]: for a Celestial experiment,
    [list(status_sav["Elements"].values())]. *)
Definition elements_of_status (t : ExperimentType) (status_sav : pyval)
    : result pyval :=
  elements ← py_getitem status_sav "Elements";
  match t with
  | Celestial =>
      match elements with
      | VDict d => Ok (VList (dict_values d))
      | _ => Raise AttributeError
      end
  | _ => Ok elements
  end.

(** The end of [__init__], after the push: the elements and the wires of
    a loaded experiment. *)
Definition load_status (e : Experiment) : result Experiment :=
  experiment ← py_getitem (PlSav e) "Experiment";
  text ← py_getitem experiment "StatusSave";
  status_sav ←
    match text with
    | VStr text => json_loads text
    | _ => Raise TypeError
    end;
  _elements ← elements_of_status (experiment_type e) status_sav;
  els ← Experiment_load_elements (experiment_type e) _elements (Elements e);
  let e := with_Elements e els in
  match experiment_type e with
  | Circuit =>
      _wires ← py_getitem status_sav "Wires";
      _wires ← py_iter _wires;
      ws ← load_wires_loop els _wires (default [] (Wires e));
      Ok (with_Wires e ws)
  | _ => Ok e
  end.

Definition is_dict (v : pyval) : bool :=
  match v with
  | VDict _ => true
  | _ => false
  end.

(** The assertions on the attributes before the push; those on attributes
    that are of the asserted type by construction are left out. *)
Definition check_attributes (e : Experiment) : result unit :=
  _ ← py_assert (is_dict (PlSav e));
  py_assert (is_dict (CameraSave e)).

(** [Experiment.__init__] up to and including [_ExperimentStack.push]. *)
Definition Experiment_open (token : string) (mode : arg) (args : list arg)
    (kwargs : list (string * arg)) : io Experiment :=
  match mode, args with
  | AOpenMode m, _ :: _ =>
      e ←
        match m with
        | load_by_filepath => open_by_filepath args
        | load_by_sav_name => open_by_sav_name args
        | load_by_plar_app => open_by_plar_app args kwargs
        | crt => open_crt token args kwargs
        end;
      _ ← lift (check_attributes e);
      _ ← push_self (SAV_PATH e);
      mret e
  | _, _ => raise TypeError
  end.

(** [Experiment.__init__]. *)
Definition Experiment_init (token : string) (mode : arg) (args : list arg)
    (kwargs : list (string * arg)) : io Experiment :=
  e ← Experiment_open token mode args kwargs;
  match open_mode e with
  | crt => mret e
  | _ => lift (load_status e)
  end.

(** Modelled from the spec: [save] of [_core.py] writes the document and
    leaves the stack as it is; a failure of the writing is raised to the
    caller. The call is recorded when it is made. *)
Definition save (e : Experiment) (extra_filepath : option string) : io unit :=
  _ ← emit (Saved (SAV_PATH e) extra_filepath);
  fs0 ← get_files;
  fs1 ← lift (write_document fs0 e extra_filepath);
  set_files fs1.

(** Modelled from the spec: [exit] of [_core.py] removes the entry of the
    experiment from the stack and, when [delete] is set, deletes the file. *)
Definition exit (e : Experiment) (delete : bool) : io unit :=
  st ← get_stack;
  _ ← set_stack (ExperimentStack.remove st (SAV_PATH e));
  _ ← emit (Exited (SAV_PATH e) delete);
  if delete then
    fs0 ← get_files;
    if path_exists fs0 (SAV_PATH e) then
      fs1 ← lift (os_remove fs0 (SAV_PATH e));
      set_files fs1
    else mret tt
  else mret tt.

(** [Experiment.__exit__]; [exc_type] is [None] when the block was left
    without an exception. *)
Definition Experiment_exit (e : Experiment) (exc_type : option exn) : io unit :=
  st ← get_stack;
  match exc_type with
  | None =>
      if ExperimentStack.inside st (SAV_PATH e) then
        _ ← save e None;
        exit e false
      else mret tt
  | Some _ => mret tt
  end.

(** The attributes of the deprecated class [experiment] that its
    [__exit__] reads. *)
Record experiment : Type := mk_experiment {
  delete : bool;
  write : bool;
  extra_filepath : option string;
  is_exit : bool;
  _Experiment : Experiment
}.

(** [experiment.__exit__]. *)
Definition experiment_exit (self : experiment) (exc_type : option exn)
    : io unit :=
  match exc_type with
  | Some _ => exit (_Experiment self) false
  | None =>
      if is_exit self then exit (_Experiment self) false
      else
        _ ← (if write self && negb (delete self)
             then save (_Experiment self) (extra_filepath self)
             else mret tt);
        exit (_Experiment self) (delete self)
  end.

End ExperimentClass.

(* ===================================================================== *)
(** ** A small concrete environment *)
(* ===================================================================== *)

(** An environment on which the functions above run: a file system that is
    a list of paths with their contents, a decoder that accepts ASCII text
    as UTF-8 and any text as GBK, and a JSON parser and an [eval] that know
    a given table of texts. It is used to run the model on examples. *)
Module Sample.

Fixpoint strip_prefix (p s : string) : option string :=
  match p, s with
  | EmptyString, _ => Some s
  | String a p', String b s' =>
      if Ascii.eqb a b then strip_prefix p' s' else None
  | _, EmptyString => None
  end.

Fixpoint is_ascii (s : string) : bool :=
  match s with
  | EmptyString => true
  | String a s' => (nat_of_ascii a <? 128)%nat && is_ascii s'
  end.

Definition lookup_text {A} (table : list (string * A)) (k : string) : option A :=
  snd <$> List.find (fun kv => String.eqb kv.1 k) table.

Definition sample_read_text (files : list (string * string)) (path : string)
    (encoding : option string) : result string :=
  match lookup_text files path with
  | None => Raise FileNotFoundError
  | Some bytes =>
      match encoding with
      | Some "utf-8" =>
          if is_ascii bytes then Ok bytes else Raise UnicodeDecodeError
      | Some "gbk" => Ok bytes
      | Some "utf-8-sig" | Some "ascii" | None =>
          if is_ascii bytes then Ok bytes else Raise UnicodeDecodeError
      | Some _ => Raise LookupError
      end
  end.

Definition sample_interpreter (json_table eval_table : list (string * pyval))
    (detector : option (string -> option string)) : Interpreter :=
  {| fs := list (string * string);
     path_exists files path := existsb (fun kv => String.eqb kv.1 path) files;
     abspath path := path;
     path_join a b := (a ++ "/" ++ b)%string;
     walk_files files dir :=
       Ok (omap (fun kv => strip_prefix (dir ++ "/")%string kv.1) files);
     os_remove files path :=
       if existsb (fun kv => String.eqb kv.1 path) files
       then Ok (List.filter (fun kv => negb (String.eqb kv.1 path)) files)
       else Raise FileNotFoundError;
     read_text := sample_read_text;
     read_bytes files path :=
       match lookup_text files path with
       | Some bytes => Ok bytes
       | None => Raise FileNotFoundError
       end;
     json_loads text :=
       match lookup_text json_table text with
       | Some v => Ok v
       | None => Raise JSONDecodeError
       end;
     py_eval text :=
       match lookup_text eval_table text with
       | Some v => Ok v
       | None => Raise EvalError
       end;
     py_format _ := "";
     int_of_string _ := Raise ValueError;
     chardet := detector |}.

Definition int (n : Z) : pyval := VNum (NInt n).
Definition float (x : PrimFloat.float) : pyval := VNum (NFloat x).

Definition sample_template (t : ExperimentType) : pyval :=
  VDict [("Type", int match t with Circuit => 0 | Celestial => 3
                                 | Electromagnetism => 4 end);
         ("Experiment", VNone);
         ("Summary", VDict [("Subject", VNone)])].

#[export] Instance sample_package : Package :=
  {| SAV_PATH_DIR := "/sav";
     ExperimentType_value t :=
       match t with Circuit => 0 | Celestial => 3 | Electromagnetism => 4 end;
     savTemplate := sample_template;
     Generate := VStr "Generate";
     entitle PlSav sav_name := py_setitem PlSav "InternalName" (VStr sav_name);
     User := unit;
     new_User := Ok tt;
     get_summary _ content_id _ :=
       Ok (VDict [("Data", VDict [("$type", VStr "summary");
                                  ("ContentID", VStr content_id)])]);
     get_experiment _ _ := Raise LookupError |}.

(** A catalogue in which every constructor call succeeds and starts from
    an empty [data]. *)
#[export] Instance sample_catalogue : Catalogue :=
  {| initial_data _ := Ok [] |}.

(** [open(path, "w").write(text)] on the sample file system: the content of
    an existing file is replaced, a new file goes last. *)
Fixpoint write_file (path text : string) (files : list (string * string))
    : list (string * string) :=
  match files with
  | [] => [(path, text)]
  | (p, t) :: rest =>
      if String.eqb p path then (path, text) :: rest
      else (p, t) :: write_file path text rest
  end.

(** A [save] that writes the text ["{saved}"] to the path of the experiment
    and, if there is one, to the alternate path. *)
Definition sample_write (files : list (string * string)) (e : Experiment)
    (extra_filepath : option string) : result (list (string * string)) :=
  let files := write_file (SAV_PATH e) "{saved}" files in
  Ok match extra_filepath with
     | Some p => write_file p "{saved}" files
     | None => files
     end.

Definition sample_core (json_table eval_table : list (string * pyval))
    (detector : option (string -> option string))
    : Core (interp := sample_interpreter json_table eval_table detector) :=
  @Build_Core (sample_interpreter json_table eval_table detector) sample_write.

(** A [save] on a medium that cannot be written. *)
Definition read_only_core (json_table eval_table : list (string * pyval))
    (detector : option (string -> option string))
    : Core (interp := sample_interpreter json_table eval_table detector) :=
  @Build_Core (sample_interpreter json_table eval_table detector)
    (fun _ _ _ => Raise OSError).

End Sample.

(** Sample data: a save document of a Circuit experiment whose camera
    looks at a point with five fractional digits. *)
Module SampleData.
Import Sample.

Definition camera : pyval :=
  VDict [("Mode", int 0); ("Distance", float 2.7);
         ("VisionCenter", VStr "0.00001,0,0");
         ("TargetRotation", VStr "50,10,20")].

Definition circuit_element : pyval :=
  VDict [("ModelID", VStr "Logic Input"); ("Identifier", VStr "id1");
         ("Position", VStr "1,2,3"); ("Rotation", VStr "0,180,90");
         ("Properties", VDict [("高电平", float 3); ("锁定", float 0)])].

Definition celestial_element (name position : string) : pyval :=
  VDict [("Model", VStr name); ("Position", VStr position)].

Definition electromagnetism_element : pyval :=
  VDict [("ModelID", VStr "Bar Magnet"); ("Identifier", VStr "id7");
         ("Position", VStr "1,2,3"); ("Rotation", VStr "0,180,90");
         ("Properties", VDict [("锁定", float 1)])].

Definition circuit_status : pyval :=
  VDict [("Elements", VList [circuit_element]); ("Wires", VList [])].

Definition celestial_status : pyval :=
  VDict [("Elements",
          VDict [("a1", celestial_element "Sun" "1,2,3");
                 ("b2", celestial_element "Earth" "4,5,6");
                 ("c3", celestial_element "Moon" "1,2,3")])].

Definition circuit_sav : pyval :=
  VDict [("InternalName", VStr "T1");
         ("Experiment",
          VDict [("Type", int 0); ("CameraSave", VStr "{camera}");
                 ("StatusSave", VStr "{circuit status}")]);
         ("Summary", VNone)].

Definition json_table : list (string * pyval) :=
  [("{camera}", camera); ("{circuit status}", circuit_status);
   ("{celestial status}", celestial_status); ("{circuit sav}", circuit_sav)].

Definition eval_table : list (string * pyval) :=
  [("(0.00001,0,0)", VTuple [float 0.00001; int 0; int 0]);
   ("(50,10,20)", VTuple [int 50; int 10; int 20]);
   ("(1,2,3)", VTuple [int 1; int 2; int 3]);
   ("(4,5,6)", VTuple [int 4; int 5; int 6]);
   ("(0,180,90)", VTuple [int 0; int 180; int 90])].

(** The interpreter without [chardet], and with a [chardet] that reports
    ASCII for every file. *)
Definition plain : Interpreter := sample_interpreter json_table eval_table None.
Definition with_chardet : Interpreter :=
  sample_interpreter json_table eval_table (Some (fun _ => Some "ascii")).

End SampleData.

(** Sample data: a directory of saves with a file that is not a save, a
    file with another extension, a GBK-encoded save and a UTF-8 save. *)
Module SampleFiles.
Import Sample.

(** The two bytes of a GBK-encoded character; they are not valid UTF-8. *)
Definition gbk_bytes : string := String "180" (String "230" EmptyString).

Definition gbk_sav : pyval :=
  VDict [("InternalName", VStr "G1");
         ("Experiment",
          VDict [("Type", int 3); ("CameraSave", VStr "{camera}");
                 ("StatusSave", VStr "{celestial status}")]);
         ("Summary", VNone)].

Definition json_table : list (string * pyval) :=
  (gbk_bytes, gbk_sav) :: SampleData.json_table.

Definition plain : Interpreter :=
  sample_interpreter json_table SampleData.eval_table None.
Definition with_chardet : Interpreter :=
  sample_interpreter json_table SampleData.eval_table
    (Some (fun _ => Some "ascii")).

Definition files : list (string * string) :=
  [("/sav/broken.sav", "garbage"); ("/sav/notes.txt", "{circuit sav}");
   ("/sav/g.sav", gbk_bytes); ("/sav/a.sav", "{circuit sav}")].

#[global] Instance plain_core : Core (interp := plain) :=
  sample_core json_table SampleData.eval_table None.

(** The same directory on a medium that cannot be written. *)
Definition read_only : Core (interp := plain) :=
  read_only_core json_table SampleData.eval_table None.

End SampleFiles.

(* ===================================================================== *)
(** ** Vocabulary of the statements *)
(* ===================================================================== *)

(** [k] is the integer nearest to [q], the even one of the two when [q]
    lies half-way between two integers. *)
Definition nearest_even (q : Q) (k : Z) : Prop :=
  (Qabs (inject_Z k - q) <= 1 # 2)%Q /\
  ((Qabs (inject_Z k - q) == 1 # 2)%Q -> Z.even k = true).

(** [r] is [v] rounded to four fractional digits, as [round(v, 4)] does
    it: an [int] (or [bool]) gives the same [int]; an infinity or nan gives
    itself; a finite float [x] gives the float nearest to [k]/10000, where
    [k] is the integer nearest to 10000 times the exact value of [x], and
    [x] itself once [|k|] has reached [2^53]. *)
Definition rounded4_of (v r : pyval) : Prop :=
  match v with
  | VBool b => r = VNum (NInt (Z.b2z b))
  | VNum (NInt n) => r = VNum (NInt n)
  | VNum (NFloat x) =>
      match float_value x with
      | None => r = VNum (NFloat x)
      | Some q =>
          exists k, nearest_even (q * 10000) k /\
            r = VNum (NFloat (if Z.abs k <? 2 ^ 53
                              then Tools.float_of_decimal4 (float_sign x) k
                              else x))
      end
  | _ => False
  end.

(** The coordinates that a constructor call passes on. *)
Definition ctor_position (c : ctor_call) : pyval * pyval * pyval :=
  match c with
  | NE555 x y z _ | eight_bit_Input x y z _ | eight_bit_Display x y z _
  | circuit_by_name _ x y z _ _ _ | celestial_by_name _ x y z
  | electromagnetism_by_name _ x y z
  | Simple_Instrument x y z _ _ _ _ _ _ _ => (x, y, z)
  end.

(** [s] is a sequence of white-space characters. *)
Fixpoint all_space (s : string) : bool :=
  match s with
  | EmptyString => true
  | String a s1 =>
      if is_space a then all_space s1
      else
        match s1 with
        | EmptyString => false
        | String b s2 =>
            if is_space2 a b then all_space s2
            else
              match s2 with
              | EmptyString => false
              | String c s3 => if is_space3 a b c then all_space s3 else false
              end
        end
  end.

(** [s] ends with a white-space character: one of its suffixes is one. *)
Fixpoint ends_with_space (s : string) : bool :=
  match s with
  | EmptyString => false
  | String _ s' => is_one_space s || ends_with_space s'
  end.

(** [m] is [s] without its leading and trailing white space: what was
    taken away at either end is white space, and [m] neither starts nor
    ends with a white-space character. *)
Definition trimmed (s m : string) : Prop :=
  exists l r, s = (l ++ m ++ r)%string /\
    all_space l = true /\ all_space r = true /\
    skip_space m = None /\ ends_with_space m = false.

(** The character that replaces [c] in a model name. *)
Definition underscore (c : ascii) : ascii :=
  if Ascii.eqb c " " || Ascii.eqb c "-" then "_"%char else c.

Fixpoint map_string (f : ascii -> ascii) (s : string) : string :=
  match s with
  | EmptyString => EmptyString
  | String c s' => String (f c) (map_string f s')
  end.

Section OpenSavVocabulary.
Context {interp : Interpreter} {pkg : Package}.

(** The save file [aSav] cannot answer a search for [sav_name]: it is not a
    save document, or its [InternalName] is another one. *)
Definition no_match (files : fs) (sav_name aSav : string) : Prop :=
  let opened := _open_sav files (path_join SAV_PATH_DIR aSav) in
  opened = Raise InvalidSavError \/
  exists sav name, opened = Ok sav /\
    py_getitem sav "InternalName" = Ok name /\
    is_string_value name sav_name = false.

End OpenSavVocabulary.

(** The lock that the loader puts on a decoded Circuit element. *)
Definition lock_key : string := "锁定".
Definition lock_value : pyval := VNum (NFloat 1).

(** How a constructor call received the coordinate [a] as [x]: a Simple
    Instrument gets it as it is, every other element through
    [round_data]. *)
Definition is_simple_instrument (c : ctor_call) : bool :=
  match c with
  | Simple_Instrument _ _ _ _ _ _ _ _ _ _ => true
  | _ => false
  end.

Definition passed_on (c : ctor_call) (a x : pyval) : Prop :=
  if is_simple_instrument c then x = a else Tools.round_data a = Ok x.

Section LoadVocabulary.
Context {interp : Interpreter}.

(** [text] is a stored triple in the order (x, z, y), and [p] is the same
    triple in the order (x, y, z). *)
Definition swapped_from (text : pyval) (p : pyval * pyval * pyval) : Prop :=
  exists t a b c, eval_parenthesised text = Ok t /\
    py_index t 0 = Ok a /\ py_index t 1 = Ok b /\ py_index t 2 = Ok c /\
    p = (a, c, b).

End LoadVocabulary.

Definition position_triple (p : Tools.position) : pyval * pyval * pyval :=
  (Tools.x p, Tools.y p, Tools.z p).

Section StackVocabulary.
Context {interp : Interpreter} {pkg : Package}.

(** The computation [m] neither reads nor changes the stack: from the same
    files and log it gives the same files, log and result whatever the
    stack is, and leaves the stack as it found it. *)
Definition stack_blind {A} (m : io A) : Prop :=
  forall f lg, exists f' lg' r,
    forall st, m (mk_World f st lg) = (mk_World f' st lg', r).

End StackVocabulary.

(** The state of the examples: the sample directory, and a stack that
    holds the given paths. *)
Definition sample_world (st : list string) : World (interp := SampleFiles.plain) :=
  mk_World (interp := SampleFiles.plain) SampleFiles.files st [].

(** More sample data: a stored Simple Instrument, an interpreter for which
    one file cannot be read, and an object of the deprecated class
    [experiment]. *)
Module SampleMore.
Import Sample.

Definition simple_instrument_element : pyval :=
  VDict [("ModelID", VStr "Simple Instrument"); ("Identifier", VStr "id3");
         ("Position", VStr "1,2,3"); ("Rotation", VStr "0,180,90");
         ("Properties",
          VDict [("额定电压", float 3); ("音量", float 1); ("音高", float 60);
                 ("理想模式", float 0); ("脉冲", float 1);
                 ("音高1", float 64.5)])].

(** As [SampleFiles.plain], but reading ["/sav/locked.sav"] raises
    [OSError]. *)
Definition locked : Interpreter :=
  {| fs := list (string * string);
     path_exists := path_exists (Interpreter := SampleFiles.plain);
     abspath := abspath (Interpreter := SampleFiles.plain);
     path_join := path_join (Interpreter := SampleFiles.plain);
     walk_files := walk_files (Interpreter := SampleFiles.plain);
     os_remove := os_remove (Interpreter := SampleFiles.plain);
     read_text files path encoding :=
       if String.eqb path "/sav/locked.sav" then Raise OSError
       else sample_read_text files path encoding;
     read_bytes := read_bytes (Interpreter := SampleFiles.plain);
     json_loads := json_loads (Interpreter := SampleFiles.plain);
     py_eval := py_eval (Interpreter := SampleFiles.plain);
     py_format := py_format (Interpreter := SampleFiles.plain);
     int_of_string := int_of_string (Interpreter := SampleFiles.plain);
     chardet := None |}.

Definition locked_files : list (string * string) :=
  [("/sav/locked.sav", "{circuit sav}")].

(** [experiment("T1", delete=True)] after [__enter__] has opened the save
    at ["/sav/a.sav"]. *)
Definition wrapper : experiment :=
  {| delete := true; write := true; extra_filepath := None;
     is_exit := false;
     _Experiment :=
       loaded_experiment load_by_sav_name "/sav/a.sav"
         (mk_Loaded SampleData.circuit_sav SampleData.camera
            (Tools.mk_position (float 0.00001) (int 0) (int 0))
            (Tools.mk_position (int 50) (int 20) (int 10)) Circuit) |}.

(** [experiment("T1")] in the same state: it saves when the block is
    left. *)
Definition saving_wrapper : experiment :=
  {| delete := false; write := true; extra_filepath := None;
     is_exit := false; _Experiment := _Experiment wrapper |}.

(** The model name "555 Timer" between an ideographic space (U+3000, the
    bytes E3 80 80) and a no-break space (U+00A0, the bytes C2 A0). *)
Definition ideographic_space : string :=
  String "227" (String "128" (String "128" EmptyString)).
Definition no_break_space : string := String "194" (String "160" EmptyString).
Definition padded_timer : string :=
  (ideographic_space ++ "555 Timer" ++ no_break_space)%string.

(** A save whose [StatusSave] is not JSON, in a directory of its own. *)
Definition bad_status_sav : pyval :=
  VDict [("InternalName", VStr "T3");
         ("Experiment",
          VDict [("Type", int 0); ("CameraSave", VStr "{camera}");
                 ("StatusSave", VStr "not json")]);
         ("Summary", VNone)].

Definition with_bad_status : Interpreter :=
  sample_interpreter (("{bad sav}", bad_status_sav) :: SampleData.json_table)
    SampleData.eval_table None.

Definition bad_status_world : World (interp := with_bad_status) :=
  mk_World (interp := with_bad_status) [("/sav/bad.sav", "{bad sav}")] [] [].

End SampleMore.

(* ===================================================================== *)
(** ** Vocabulary of the further statements *)
(* ===================================================================== *)

(** Every character of [s] satisfies [p]. *)
Fixpoint string_all (p : ascii -> bool) (s : string) : bool :=
  match s with
  | EmptyString => true
  | String a s' => p a && string_all p s'
  end.

(** A letter or a digit of ASCII; a lower-case letter or a digit. *)
Definition is_alnum (a : ascii) : bool :=
  let n := nat_of_ascii a in
  ((48 <=? n) && (n <=? 57) || (65 <=? n) && (n <=? 90)
   || (97 <=? n) && (n <=? 122))%nat.

Definition is_lower_alnum (a : ascii) : bool :=
  let n := nat_of_ascii a in
  ((48 <=? n) && (n <=? 57) || (97 <=? n) && (n <=? 122))%nat.

(** A character that a normalised model name can hold. *)
Definition not_space_or_hyphen (a : ascii) : bool :=
  negb (Ascii.eqb a " ") && negb (Ascii.eqb a "-").

(** The number of keys of [d] that start with [prefix]. *)
Definition count_prefixed (prefix : string) (d : pydict) : nat :=
  length (List.filter (fun kv => startswith kv.1 prefix) d).

Section WorldVocabulary.
Context {interp : Interpreter} {pkg : Package}.

(** The computation [m] leaves the state of the process as it is, whatever
    its result. *)
Definition preserves_world {A} (m : io A) : Prop :=
  forall w w' r, m w = (w', r) -> w' = w.

End WorldVocabulary.

(* ===================================================================== *)
(** ** Theorems: the coordinate transform *)
(* ===================================================================== *)

Module ElementPositionFacts.
Import ElementPosition.

(** Without the offset the exact round trip is the identity. *)
Lemma change_translate_small (x y z : num) :
  triple_eq (change_translate x y z false) (x, y, z).
Proof.
  unfold triple_eq, change_translate, translate, change, num_eq; simpl.
  repeat split; field.
Qed.

(** C1 (fails on the code). With [isBigElement] set, [change] after
    [translate] does not return the triple it started from: in exact
    arithmetic the second coordinate comes back larger by
    0.045/0.075 - 0.045 = 0.555, whatever the input, because [change]
    subtracts the offset after dividing instead of before. *)
Theorem change_translate_big_shifts_y (x y z : num) :
  triple_eq (change_translate x y z true)
            (x, NFloat (to_float y + 0.555)%Q, z).
Proof.
  unfold triple_eq, change_translate, translate, change, num_eq; simpl.
  repeat split; field.
Qed.

(** At the origin, in exact arithmetic. *)
Lemma change_translate_big_origin :
  triple_eq (change_translate (NInt 0) (NInt 0) (NInt 0) true)
            (NInt 0, NFloat 0.555, NInt 0)
  /\ ~ triple_eq (change_translate (NInt 0) (NInt 0) (NInt 0) true)
                 (NInt 0, NInt 0, NInt 0).
Proof.
  split.
  - unfold triple_eq, num_eq; simpl. repeat split.
  - unfold triple_eq, num_eq; simpl. intros (_ & H & _). discriminate H.
Qed.

(** The same on binary64 numbers: the second coordinate is off by more than
    one half, far beyond any rounding of the fourth decimal. *)
Lemma binary64_change_translate_big_origin :
  let '(x, y, z) := Binary64.change_translate 0 0 0 true in
  PrimFloat.eqb x 0 = true /\ PrimFloat.eqb z 0 = true /\
  PrimFloat.ltb 0.5 (PrimFloat.abs (y - 0)) = true.
Proof. vm_compute. repeat split. Qed.

(** On binary64 numbers the round trip without the offset stays within
    rounding distance at a sample point. *)
Lemma binary64_change_translate_small_sample :
  let '(x, y, z) := Binary64.change_translate 1 2 3 false in
  PrimFloat.ltb (PrimFloat.abs (x - 1)) 0.00001 = true /\
  PrimFloat.ltb (PrimFloat.abs (y - 2)) 0.00001 = true /\
  PrimFloat.ltb (PrimFloat.abs (z - 3)) 0.00001 = true.
Proof. vm_compute. repeat split. Qed.

End ElementPositionFacts.

(* ===================================================================== *)
(** ** Theorems: rounding *)
(* ===================================================================== *)

Module ToolsFacts.
Import Tools.
Local Open Scope Q_scope.

Lemma round_half_even_close (q : Q) :
  Qabs (inject_Z (round_half_even q) - q) <= 1 # 2.
Proof.
  unfold round_half_even.
  pose proof (Qfloor_le q) as Hlo.
  pose proof (Qlt_floor q) as Hhi.
  set (f := Qfloor q) in *.
  rewrite inject_Z_plus in Hhi. change (inject_Z 1) with 1 in Hhi.
  apply Qabs_Qle_condition.
  destruct (q - inject_Z f ?= 1 # 2) eqn:Hc.
  - apply Qeq_alt in Hc.
    destruct (Z.even f);
      [|rewrite inject_Z_plus; change (inject_Z 1) with 1]; split; lra.
  - apply Qlt_alt in Hc. split; lra.
  - apply Qgt_alt in Hc. rewrite inject_Z_plus; change (inject_Z 1) with 1.
    split; lra.
Qed.

(** At a tie the even neighbour is chosen. *)
Lemma round_half_even_tie (q : Q) :
  Qabs (inject_Z (round_half_even q) - q) == 1 # 2 ->
  Z.even (round_half_even q) = true.
Proof.
  unfold round_half_even.
  pose proof (Qfloor_le q) as Hlo.
  pose proof (Qlt_floor q) as Hhi.
  set (f := Qfloor q) in *.
  rewrite inject_Z_plus in Hhi. change (inject_Z 1) with 1 in Hhi.
  destruct (q - inject_Z f ?= 1 # 2) eqn:Hc.
  - intros _. destruct (Z.even f) eqn:He; [exact He|].
    change (f + 1)%Z with (Z.succ f). rewrite Z.even_succ, <- Z.negb_even, He.
    reflexivity.
  - apply Qlt_alt in Hc. intros Ht. exfalso.
    rewrite Qabs_neg in Ht by lra. lra.
  - apply Qgt_alt in Hc. intros Ht. exfalso.
    rewrite inject_Z_plus in Ht. change (inject_Z 1) with 1 in Ht.
    rewrite Qabs_pos in Ht by lra. lra.
Qed.

Lemma round_half_even_nearest (q : Q) : nearest_even q (round_half_even q).
Proof. split; [apply round_half_even_close|apply round_half_even_tie]. Qed.

(** There is one such integer only. *)
Lemma nearest_even_unique (q : Q) (k r : Z) :
  nearest_even q k -> nearest_even q r -> k = r.
Proof.
  assert (Hstep : forall a b : Z, nearest_even q a -> nearest_even q b ->
            (a <= b)%Z).
  { intros a b [Ha Ta] [Hb Tb].
    apply Qabs_Qle_condition in Ha as [Ha1 Ha2].
    apply Qabs_Qle_condition in Hb as [Hb1 Hb2].
    destruct (Z_le_gt_dec a b) as [Hle|Hgt]; [exact Hle|exfalso].
    assert (Hab : inject_Z b + 1 <= inject_Z a).
    { change 1 with (inject_Z 1). rewrite <- inject_Z_plus.
      rewrite <- Zle_Qle. lia. }
    assert (Ea : inject_Z a - q == 1 # 2) by lra.
    assert (Eb : inject_Z b - q == - (1 # 2)) by lra.
    assert (Hea : Z.even a = true).
    { apply Ta. rewrite Ea. reflexivity. }
    assert (Heb : Z.even b = true).
    { apply Tb. rewrite Eb. reflexivity. }
    assert (Eab : a = (b + 1)%Z).
    { apply Z.le_antisymm; [|lia]. rewrite Zle_Qle, inject_Z_plus.
      change (inject_Z 1) with 1. lra. }
    subst a. change (b + 1)%Z with (Z.succ b) in Hea.
    rewrite Z.even_succ, <- Z.negb_even, Heb in Hea. discriminate Hea. }
  intros Hk Hr. apply Z.le_antisymm; apply Hstep; assumption.
Qed.

(** The decimal is within half a unit of its last digit. *)
Lemma decimal4_close (q : Q) : Qabs ((decimal4 q # 10000) - q) <= 1 # 20000.
Proof.
  unfold decimal4.
  pose proof (round_half_even_close (q * 10000)) as Hc.
  set (k := round_half_even (q * 10000)) in *.
  apply Qabs_Qle_condition in Hc. apply Qabs_Qle_condition.
  assert (Hk : (k # 10000) * 10000 == inject_Z k).
  { rewrite (Qmake_Qdiv k 10000). field. }
  set (a := k # 10000) in *. set (b := inject_Z k) in *.
  destruct Hc as [H1 H2]. clearbody a b. split; lra.
Qed.

(** [round_data] accepts exactly the numbers and returns the rounded
    number. *)
Lemma round_data_number (v : pyval) :
  is_number v = true -> exists r, round_data v = Ok r /\ rounded4_of v r.
Proof.
  destruct v as [|b|[n|x]| | | |]; try discriminate; intros _.
  - exists (VNum (NInt (Z.b2z b))). split; reflexivity.
  - exists (VNum (NInt n)). split; reflexivity.
  - exists (VNum (round4 (NFloat x))). split; [reflexivity|].
    cbn [rounded4_of round4]. unfold round4_float.
    destruct (float_value x) as [q|]; [|reflexivity].
    exists (decimal4 q). split; [apply round_half_even_nearest|].
    cbn zeta. destruct (Z.abs (decimal4 q) <? 2 ^ 53)%Z; reflexivity.
Qed.

Lemma round_data_not_number (v : pyval) :
  is_number v = false -> round_data v = Raise TypeError.
Proof. destruct v as [|b|n| | | |]; try discriminate; reflexivity. Qed.

(** [roundData(x, y, z)] on three numbers is the tuple of the three
    rounded numbers. *)
Lemma roundData_triple (x y z : pyval) :
  is_number x = true -> is_number y = true -> is_number z = true ->
  exists x' y' z',
    round_data x = Ok x' /\ round_data y = Ok y' /\ round_data z = Ok z' /\
    roundData [x; y; z] = Ok (VTuple [x'; y'; z']).
Proof.
  intros Hx Hy Hz.
  destruct (round_data_number x Hx) as (x' & Ex & _).
  destruct (round_data_number y Hy) as (y' & Ey & _).
  destruct (round_data_number z Hz) as (z' & Ez & _).
  exists x', y', z'. repeat split; try assumption.
  unfold roundData. cbn [forallb]. rewrite Hx, Hy, Hz. cbn.
  rewrite Ex, Ey, Ez. reflexivity.
Qed.

End ToolsFacts.

(* ===================================================================== *)
(** ** Theorems: strings and the dispatch of [crt_element] *)
(* ===================================================================== *)

Module StringFacts.

Lemma app_String (a : ascii) (p r : string) :
  (String a p ++ r)%string = String a (p ++ r)%string.
Proof. reflexivity. Qed.

Lemma app_assoc_string (p q r : string) :
  ((p ++ q) ++ r)%string = (p ++ (q ++ r))%string.
Proof.
  induction p as [|a p IH]; [reflexivity|].
  rewrite !app_String, IH. reflexivity.
Qed.

Lemma lstrip_eq (s : string) :
  lstrip s = match skip_space s with
             | Some r => lstrip r
             | None => s
             end.
Proof.
  destruct s as [|a [|b [|c s]]]; cbn; repeat (case_match; cbn);
    reflexivity.
Qed.

Lemma all_space_eq (s : string) :
  all_space s = match s with
                | EmptyString => true
                | _ => match skip_space s with
                       | Some r => all_space r
                       | None => false
                       end
                end.
Proof.
  destruct s as [|a [|b [|c s]]]; cbn; repeat (case_match; cbn);
    reflexivity.
Qed.

Lemma skip_space_app (p x r : string) :
  skip_space p = Some x -> skip_space (p ++ r) = Some (x ++ r)%string.
Proof.
  destruct p as [|a p]; [discriminate|]. rewrite app_String. cbn.
  destruct (is_space a); [intros [= <-]; reflexivity|].
  destruct p as [|b p]; [discriminate|]. rewrite app_String. cbn.
  destruct (is_space2 a b); [intros [= <-]; reflexivity|].
  destruct p as [|c p]; [discriminate|]. rewrite app_String. cbn.
  destruct (is_space3 a b c); [intros [= <-]; reflexivity|discriminate].
Qed.

(** A white-space character at the front is a prefix of one to three
    bytes. *)
Lemma skip_space_Some (s r : string) :
  skip_space s = Some r ->
  exists w, s = (w ++ r)%string /\ is_one_space w = true /\
    (String.length r < String.length s)%nat.
Proof.
  unfold is_one_space.
  destruct s as [|a s]; [discriminate|]. cbn.
  destruct (is_space a) eqn:Ha.
  { intros [= <-]. exists (String a EmptyString). cbn. rewrite Ha.
    repeat split. lia. }
  destruct s as [|b s]; [discriminate|]. cbn.
  destruct (is_space2 a b) eqn:Hb.
  { intros [= <-]. exists (String a (String b EmptyString)). cbn.
    rewrite Ha, Hb. repeat split. lia. }
  destruct s as [|c s]; [discriminate|]. cbn.
  destruct (is_space3 a b c) eqn:Hc; [|discriminate].
  intros [= <-]. exists (String a (String b (String c EmptyString))). cbn.
  rewrite Ha, Hb, Hc. repeat split. lia.
Qed.

Lemma all_space_one (w l : string) :
  is_one_space w = true -> all_space l = true -> all_space (w ++ l) = true.
Proof.
  unfold is_one_space. intros Hw Hl.
  destruct (skip_space w) as [[|]|] eqn:Hs; try discriminate Hw.
  rewrite all_space_eq, (skip_space_app _ _ l Hs).
  destruct w; [discriminate Hs|]. cbn. exact Hl.
Qed.

Lemma lstrip_spec (s : string) :
  exists l, s = (l ++ lstrip s)%string /\ all_space l = true /\
    skip_space (lstrip s) = None.
Proof.
  remember (String.length s) as n eqn:Hn. revert s Hn.
  induction n as [n IH] using lt_wf_ind. intros s ->.
  rewrite lstrip_eq. destruct (skip_space s) as [r|] eqn:Hs.
  - destruct (skip_space_Some _ _ Hs) as (w & -> & Hw & Hlen).
    destruct (IH _ Hlen r eq_refl) as (l & Hr & Hl & Hf).
    exists (w ++ l)%string. split; [|split; [|exact Hf]].
    + rewrite app_assoc_string, <- Hr. reflexivity.
    + apply all_space_one; assumption.
  - exists EmptyString. auto.
Qed.

Lemma rstrip_spec (s : string) :
  exists r, s = (rstrip s ++ r)%string /\ all_space r = true /\
    ends_with_space (rstrip s) = false.
Proof.
  induction s as [|a s IH]; cbn [rstrip].
  - exists EmptyString. auto.
  - destruct IH as (r & Hs & Hr & He). cbn zeta.
    destruct (is_one_space (String a (rstrip s))) eqn:Hw.
    + exists (String a (rstrip s) ++ r)%string. split; [|split; [|reflexivity]].
      * change (String a s = String a (rstrip s ++ r)%string).
        rewrite <- Hs. reflexivity.
      * apply all_space_one; assumption.
    + exists r. split; [|split; [exact Hr|]].
      * change (String a s = String a (rstrip s ++ r)%string).
        rewrite <- Hs. reflexivity.
      * cbn [ends_with_space]. rewrite Hw, He. reflexivity.
Qed.

(** [strip] removes the white space at both ends, and nothing else. *)
Lemma strip_trimmed (s : string) : trimmed s (strip s).
Proof.
  unfold strip.
  destruct (lstrip_spec s) as (l & Hs & Hl & Hf).
  destruct (rstrip_spec (lstrip s)) as (r & Hm & Hr & He).
  exists l, r. repeat split; try assumption.
  - rewrite <- Hm. exact Hs.
  - destruct (skip_space (rstrip (lstrip s))) as [x|] eqn:Hx; [|reflexivity].
    apply (skip_space_app _ _ r) in Hx. rewrite <- Hm, Hf in Hx.
    discriminate Hx.
Qed.

Lemma replace_map (a b : ascii) (s : string) :
  replace a b s = map_string (fun c => if Ascii.eqb c a then b else c) s.
Proof. induction s as [|c s IH]; cbn; congruence. Qed.

Lemma map_string_compose (f g : ascii -> ascii) (s : string) :
  map_string g (map_string f s) = map_string (fun c => g (f c)) s.
Proof. induction s as [|c s IH]; cbn; congruence. Qed.

Lemma map_string_ext (f g : ascii -> ascii) (s : string) :
  (forall c, f c = g c) -> map_string f s = map_string g s.
Proof. intros E. induction s as [|c s IH]; cbn; congruence. Qed.

End StringFacts.

Module CrtElementFacts.
Import StringFacts ToolsFacts.

(** Every space and every hyphen of the trimmed name becomes an
    underscore; the other characters stay. *)
Lemma normalize_name_spec (name : string) :
  trimmed name (strip name) /\
  normalize_name name = map_string underscore (strip name).
Proof.
  split; [apply strip_trimmed|].
  unfold normalize_name. rewrite !replace_map, map_string_compose.
  apply map_string_ext. intros c. unfold underscore.
  destruct (Ascii.eqb_spec c " ") as [->|Hs]; [reflexivity|].
  cbn. destruct (Ascii.eqb c "-"); reflexivity.
Qed.

Section WithCatalogue.
Context {cat : Catalogue}.

(** The dispatch fails with [TypeError] exactly on a name that is not a
    string or a coordinate that is not a number. *)
Lemma crt_element_dispatch_TypeError t name x y z exy args kwargs :
  is_str name && is_number x && is_number y && is_number z = false ->
  crt_element_dispatch t name x y z exy args kwargs = Raise TypeError.
Proof.
  intros Hb. unfold crt_element_dispatch.
  destruct (is_str name), (is_number x), (is_number y), (is_number z);
    try discriminate Hb; reflexivity.
Qed.

Lemma crt_element_dispatch_rounds t (name : string) x y z exy args kwargs :
  is_number x = true -> is_number y = true -> is_number z = true ->
  exists x' y' z',
    Tools.round_data x = Ok x' /\ Tools.round_data y = Ok y' /\
    Tools.round_data z = Ok z' /\
    crt_element_dispatch t (VStr name) x y z exy args kwargs =
    let n := normalize_name name in
    Ok match t with
       | Circuit =>
           if String.eqb n "555_Timer" then NE555 x' y' z' exy
           else if String.eqb n "8bit_Input" then eight_bit_Input x' y' z' exy
           else if String.eqb n "8bit_Display"
                then eight_bit_Display x' y' z' exy
           else circuit_by_name n x' y' z' exy args kwargs
       | Celestial => celestial_by_name n x' y' z'
       | Electromagnetism => electromagnetism_by_name n x' y' z'
       end.
Proof.
  intros Hx Hy Hz.
  destruct (roundData_triple x y z Hx Hy Hz) as (x' & y' & z' & Ex & Ey & Ez & ER).
  exists x', y', z'. repeat split; try assumption.
  unfold crt_element_dispatch. rewrite Hx, Hy, Hz. cbn [is_str negb orb].
  rewrite ER. cbn.
  destruct t; [|reflexivity..].
  repeat case_match; reflexivity.
Qed.

End WithCatalogue.
End CrtElementFacts.

(* ===================================================================== *)
(** ** Theorems: positions and rounding *)
(* ===================================================================== *)

Module PositionFacts.
Import StringFacts ToolsFacts CrtElementFacts Sample.

(** C7 (fails on the code as stated). A [position] is not rounded when it
    is constructed: the camera position that [__load] builds from a save
    file keeps the coordinate 0.00001 as it is, a value that [round_data]
    turns into 0.0. *)
Lemma position_not_rounded_on_construction :
  let p := Tools.mk_position (Sample.float 0.00001) (Sample.int 0) (Sample.int 0) in
  Tools.x p = Sample.float 0.00001 /\
  Tools.round_data (Tools.x p) = Ok (Sample.float 0) /\
  Tools.x p <> Sample.float 0 /\
  l_VisionCenter <$> Experiment_load (interp := SampleData.plain) SampleData.circuit_sav
    = Ok p.
Proof.
  cbn zeta. split; [reflexivity|]. split; [vm_compute; reflexivity|].
  split; [discriminate|reflexivity].
Qed.

(** C7 (as amended). A [position] stores the three values it is given.
    The rounding to four fractional digits is done by [round_data], which
    [crt_element] applies to each coordinate before it calls a
    constructor: an [int] reaches the constructor as it is (a [bool] as
    the [int] it is), a finite float as the float nearest to the decimal
    with four fractional digits that is nearest to it, ties going to the
    even last digit, and an infinity or nan as it is. *)
Theorem crt_element_rounds_coordinates t name x y z exy args kwargs c :
  crt_element_dispatch t name x y z exy args kwargs = Ok c ->
  (forall a b d, let p := Tools.mk_position a b d in
     Tools.x p = a /\ Tools.y p = b /\ Tools.z p = d) /\
  rounded4_of x (ctor_position c).1.1 /\
  rounded4_of y (ctor_position c).1.2 /\
  rounded4_of z (ctor_position c).2.
Proof.
  intros Hc. split; [intros; repeat split|].
  destruct (is_str name && is_number x && is_number y && is_number z) eqn:Hb.
  - apply andb_prop in Hb as [Hb Hz]. apply andb_prop in Hb as [Hb Hy].
    apply andb_prop in Hb as [Hn Hx].
    destruct name as [| | |s| | |]; try discriminate Hn.
    destruct (crt_element_dispatch_rounds t s x y z exy args kwargs Hx Hy Hz)
      as (x' & y' & z' & Ex & Ey & Ez & E).
    rewrite E in Hc. cbn zeta in Hc. injection Hc as <-.
    destruct (round_data_number x Hx) as (x'' & Ex' & Rx).
    destruct (round_data_number y Hy) as (y'' & Ey' & Ry).
    destruct (round_data_number z Hz) as (z'' & Ez' & Rz).
    assert (x'' = x') as -> by congruence.
    assert (y'' = y') as -> by congruence.
    assert (z'' = z') as -> by congruence.
    destruct t; [repeat case_match|..]; cbn [ctor_position fst snd]; auto.
  - rewrite (crt_element_dispatch_TypeError _ _ _ _ _ _ _ _ Hb) in Hc.
    discriminate Hc.
Qed.

Lemma crt_element_rounds_coordinates_witness :
  let c := circuit_by_name "Logic_Input" (Sample.float 0.1235) (Sample.int 2)
             (Sample.int 1) None [] [] in
  crt_element_dispatch Circuit (VStr "Logic Input") (Sample.float 0.12345)
    (Sample.int 2) (VBool true) None [] [] = Ok c /\
  rounded4_of (Sample.float 0.12345) (ctor_position c).1.1.
Proof.
  cbn zeta.
  assert (E : crt_element_dispatch Circuit (VStr "Logic Input")
                (Sample.float 0.12345) (Sample.int 2) (VBool true) None [] []
              = Ok (circuit_by_name "Logic_Input" (Sample.float 0.1235)
                      (Sample.int 2) (Sample.int 1) None [] []))
    by (vm_compute; reflexivity).
  split; [exact E|].
  exact (proj1 (proj2 (crt_element_rounds_coordinates Circuit
    (VStr "Logic Input") (Sample.float 0.12345) (Sample.int 2) (VBool true)
    None [] [] _ E))).
Defined.

End PositionFacts.

(* ===================================================================== *)
(** ** Theorems: the choice of the constructor *)
(* ===================================================================== *)

Module DispatchFacts.
Import StringFacts ToolsFacts CrtElementFacts.

(** C8 (fails on the code as stated). In a Celestial experiment the name
    ["555 Timer"] is not given to the dedicated constructor: the call is
    the evaluation of the text [celestial.555_Timer(0, 0, 0)]. *)
Lemma special_name_outside_circuit :
  crt_element_dispatch Celestial (VStr "555 Timer") (Sample.int 0)
    (Sample.int 0) (Sample.int 0) None [] []
  = Ok (celestial_by_name "555_Timer" (Sample.int 0) (Sample.int 0) (Sample.int 0))
  /\ crt_element_dispatch Celestial (VStr "555 Timer") (Sample.int 0)
       (Sample.int 0) (Sample.int 0) None [] []
     <> Ok (NE555 (Sample.int 0) (Sample.int 0) (Sample.int 0) None).
Proof. split; [reflexivity|discriminate]. Qed.

(** C8 (as amended). A call whose name is not a string or one of whose
    coordinates is not a number raises [TypeError]. Otherwise the name is
    trimmed of the white space of [str.strip] and its spaces and hyphens
    become underscores, the coordinates are rounded, and the constructor is
    chosen by the experiment type: in a Circuit experiment the dedicated
    constructor for [555_Timer], [8bit_Input] and [8bit_Display], and for
    every other name the evaluation of the text [circuit.<name>(...)]; in a
    Celestial or Electromagnetism experiment the evaluation of the text
    [celestial.<name>(...)] or [electromagnetism.<name>(...)] for every
    name. *)
Theorem crt_element_dispatch_spec t name x y z exy args kwargs :
  (is_str name && is_number x && is_number y && is_number z = false ->
   crt_element_dispatch t name x y z exy args kwargs = Raise TypeError) /\
  (forall s, name = VStr s ->
   is_number x = true -> is_number y = true -> is_number z = true ->
   let n := normalize_name s in
   trimmed s (strip s) /\ n = map_string underscore (strip s) /\
   exists x' y' z',
     rounded4_of x x' /\ rounded4_of y y' /\ rounded4_of z z' /\
     crt_element_dispatch t name x y z exy args kwargs =
     Ok match t with
        | Circuit =>
            if String.eqb n "555_Timer" then NE555 x' y' z' exy
            else if String.eqb n "8bit_Input"
                 then eight_bit_Input x' y' z' exy
            else if String.eqb n "8bit_Display"
                 then eight_bit_Display x' y' z' exy
            else circuit_by_name n x' y' z' exy args kwargs
        | Celestial => celestial_by_name n x' y' z'
        | Electromagnetism => electromagnetism_by_name n x' y' z'
        end).
Proof.
  split; [apply crt_element_dispatch_TypeError|].
  intros s -> Hx Hy Hz n.
  destruct (normalize_name_spec s) as [Htrim Hn].
  split; [exact Htrim|]. split; [exact Hn|].
  destruct (crt_element_dispatch_rounds t s x y z exy args kwargs Hx Hy Hz)
    as (x' & y' & z' & Ex & Ey & Ez & E).
  exists x', y', z'.
  destruct (round_data_number x Hx) as (x'' & Ex' & Rx).
  destruct (round_data_number y Hy) as (y'' & Ey' & Ry).
  destruct (round_data_number z Hz) as (z'' & Ez' & Rz).
  assert (x'' = x') as -> by congruence.
  assert (y'' = y') as -> by congruence.
  assert (z'' = z') as -> by congruence.
  repeat split; assumption.
Qed.

Lemma crt_element_dispatch_spec_witness :
  (exists x' y' z',
     crt_element_dispatch Circuit (VStr "  8bit-Input ") (Sample.float 0.12345)
       (Sample.int 2) (VBool true) (Some false) [] []
     = Ok (eight_bit_Input x' y' z' (Some false))) /\
  (exists x' y' z',
     crt_element_dispatch Circuit (VStr SampleMore.padded_timer)
       (Sample.float 1.00005) (Sample.int 2) (Sample.int 3) None [] []
     = Ok (NE555 x' y' z' None)) /\
  crt_element_dispatch Circuit (VStr "8bit_Input") VNone (Sample.int 2)
    (Sample.int 3) None [] [] = Raise TypeError.
Proof.
  split; [|split].
  - destruct (proj2 (crt_element_dispatch_spec Circuit (VStr "  8bit-Input ")
      (Sample.float 0.12345) (Sample.int 2) (VBool true) (Some false) [] [])
      _ eq_refl eq_refl eq_refl eq_refl) as (_ & _ & x' & y' & z' & _ & _ & _ & E).
    exists x', y', z'. exact E.
  - destruct (proj2 (crt_element_dispatch_spec Circuit
      (VStr SampleMore.padded_timer) (Sample.float 1.00005) (Sample.int 2)
      (Sample.int 3) None [] [])
      _ eq_refl eq_refl eq_refl eq_refl) as (_ & _ & x' & y' & z' & _ & _ & _ & E).
    exists x', y', z'. exact E.
  - exact (proj1 (crt_element_dispatch_spec Circuit (VStr "8bit_Input") VNone
      (Sample.int 2) (Sample.int 3) None [] []) eq_refl).
Defined.

End DispatchFacts.

(* ===================================================================== *)
(** ** Theorems: [_open_sav] *)
(* ===================================================================== *)

Module OpenSavFacts.
Import Sample.

Section WithEnvironment.
Context {interp : Interpreter} {pkg : Package}.

(** Strict UTF-8 comes first: its document is the result. *)
Lemma open_sav_utf8 files path d :
  path_exists files path = true ->
  encode_sav files path (Some "utf-8") = Ok d -> d <> VNone ->
  _open_sav files path = Ok d.
Proof.
  intros Hex Hd Hn. unfold _open_sav. rewrite Hex, Hd. cbn.
  destruct d; congruence.
Qed.

Lemma open_sav_after_utf8 files path :
  path_exists files path = true ->
  encode_sav files path (Some "utf-8") = Ok VNone ->
  _open_sav files path =
  res ← match chardet with
        | None => try_encodings files path fallback_encodings
        | Some detect =>
            bytes ← read_bytes files path;
            encode_sav files path (detect bytes)
        end;
  match res with
  | VNone => Raise InvalidSavError
  | _ => Ok res
  end.
Proof. intros Hex Hd. unfold _open_sav. rewrite Hex, Hd. reflexivity. Qed.

(** The attempts of the loop one after the other: all give no document, or
    the first one that gives something else decides. *)
Lemma try_encodings_result files path encodings (r : result pyval) :
  try_encodings files path encodings = r ->
  (r = Ok VNone /\
   Forall (fun e => encode_sav files path (Some e) = Ok VNone) encodings) \/
  (exists before e after, encodings = before ++ e :: after /\
     Forall (fun e => encode_sav files path (Some e) = Ok VNone) before /\
     encode_sav files path (Some e) = r /\ r <> Ok VNone).
Proof.
  revert r. induction encodings as [|e rest IH]; cbn [try_encodings];
    intros r Hr.
  - left. split; [congruence|constructor].
  - destruct (encode_sav files path (Some e)) as [v|x] eqn:He.
    + cbn in Hr.
      assert (Hv : v = VNone \/ v <> VNone)
        by (destruct v; (left; reflexivity) || (right; discriminate)).
      destruct Hv as [->|Hv].
      * destruct (IH r Hr) as [[-> Hall]|(before & e' & after & -> & Hb & He' & Hn)].
        -- left. split; [reflexivity|]. constructor; assumption.
        -- right. exists (e :: before), e', after.
           split; [reflexivity|]. split; [constructor; assumption|]. auto.
      * right. exists [], e, rest. split; [reflexivity|].
        split; [constructor|].
        assert (r = Ok v) as -> by (destruct v; congruence).
        split; [exact He|congruence].
    + cbn in Hr. subst r. right. exists [], e, rest.
      split; [reflexivity|]. split; [constructor|]. split; [exact He|discriminate].
Qed.

(** [_open_sav] as one pass over its attempts, for either branch. *)
Lemma open_sav_attempts files path tried :
  path_exists files path = true ->
  (chardet = None /\ tried = [Some "utf-8-sig"; Some "gbk"]) \/
  (exists detect bytes, chardet = Some detect /\
     read_bytes files path = Ok bytes /\ tried = [detect bytes]) ->
  let attempts := Some "utf-8" :: tried in
  let none := fun enc => encode_sav files path enc = Ok VNone in
  (Forall none attempts /\ _open_sav files path = Raise InvalidSavError) \/
  (exists before enc after, attempts = before ++ enc :: after /\
     Forall none before /\ encode_sav files path enc <> Ok VNone /\
     _open_sav files path = encode_sav files path enc).
Proof.
  intros Hex Hbranch attempts none.
  destruct (encode_sav files path (Some "utf-8")) as [v|x] eqn:H8.
  - assert (Hv : v = VNone \/ v <> VNone)
      by (destruct v; (left; reflexivity) || (right; discriminate)).
    destruct Hv as [->|Hv].
    + rewrite (open_sav_after_utf8 _ _ Hex H8).
      destruct Hbranch as [[Hc ->]|(detect & bytes & Hc & Hb & ->)];
        rewrite Hc.
      * destruct (try_encodings_result files path fallback_encodings _ eq_refl)
          as [[Hr Hall]|(before & e & after & Hsplit & Hb & He & Hn)].
        -- left. rewrite Hr. split; [|reflexivity].
           constructor; [exact H8|].
           change [Some "utf-8-sig"; Some "gbk"] with (Some <$> fallback_encodings).
           apply Forall_fmap. exact Hall.
        -- right. exists (Some "utf-8" :: (Some <$> before)), (Some e),
             (Some <$> after).
           split; [|split; [|split]].
           ++ subst attempts. change [Some "utf-8-sig"; Some "gbk"]
                with (Some <$> fallback_encodings).
              rewrite Hsplit, fmap_app. reflexivity.
           ++ constructor; [exact H8|]. apply Forall_fmap. exact Hb.
           ++ rewrite He. exact Hn.
           ++ rewrite He. revert Hn.
              destruct (try_encodings files path fallback_encodings)
                as [[]|]; cbn; congruence.
      * rewrite Hb. cbn.
        destruct (encode_sav files path (detect bytes)) as [v|x] eqn:Hd.
        -- assert (Hv : v = VNone \/ v <> VNone)
             by (destruct v; (left; reflexivity) || (right; discriminate)).
           destruct Hv as [->|Hv].
           ++ left. split; [|reflexivity].
              subst none. repeat constructor; assumption.
           ++ right. exists [Some "utf-8"], (detect bytes), [].
              split; [reflexivity|]. split; [repeat constructor; exact H8|].
              rewrite Hd. split; [congruence|].
              cbn. destruct v; congruence.
        -- right. exists [Some "utf-8"], (detect bytes), [].
           split; [reflexivity|]. split; [repeat constructor; exact H8|].
           rewrite Hd. split; [discriminate|reflexivity].
    + right. exists [], (Some "utf-8"), tried.
      split; [reflexivity|]. split; [constructor|].
      rewrite H8. split; [congruence|].
      apply open_sav_utf8; assumption.
  - right. exists [], (Some "utf-8"), tried.
    split; [reflexivity|]. split; [constructor|].
    rewrite H8. split; [discriminate|].
    unfold _open_sav. rewrite Hex, H8. reflexivity.
Qed.

(** In a list of attempts, the first one that gives something else than
    "no document" is determined. *)
Lemma first_attempt_unique {A} (none : A -> Prop) (b1 b2 : list A) e1 e2 a1 a2 :
  b1 ++ e1 :: a1 = b2 ++ e2 :: a2 ->
  Forall none b1 -> Forall none b2 -> ~ none e1 -> ~ none e2 ->
  e1 = e2.
Proof.
  revert b2. induction b1 as [|x b1 IH]; intros [|y b2] Heq H1 H2 N1 N2;
    cbn in Heq; injection Heq as Hx Hrest.
  - exact Hx.
  - subst. apply Forall_cons in H2 as [Hy _]. contradiction.
  - subst. apply Forall_cons in H1 as [Hx _]. contradiction.
  - apply Forall_cons in H1 as [_ H1]. apply Forall_cons in H2 as [_ H2].
    eapply IH; eassumption.
Qed.

(** C6 (as amended). [_open_sav] goes through its attempts in order:
    strict UTF-8 first; then, if [chardet] cannot be imported, [utf-8-sig]
    and [gbk], and if it can, only the encoding that [chardet] detects.
    The first attempt that gives a document decides and its document is
    returned; a document that is returned comes from such an attempt; and
    [InvalidSavError] is raised when every attempt of the branch taken gave
    no document, and (the attempts themselves not raising it) only then. *)
Theorem open_sav_fallbacks files path tried :
  path_exists files path = true ->
  (chardet = None /\ tried = [Some "utf-8-sig"; Some "gbk"]) \/
  (exists detect bytes, chardet = Some detect /\
     read_bytes files path = Ok bytes /\ tried = [detect bytes]) ->
  let attempts := Some "utf-8" :: tried in
  let none := fun enc => encode_sav files path enc = Ok VNone in
  (forall before enc after d, attempts = before ++ enc :: after ->
     Forall none before -> encode_sav files path enc = Ok d -> d <> VNone ->
     _open_sav files path = Ok d) /\
  (forall d, _open_sav files path = Ok d ->
     d <> VNone /\
     exists before enc after, attempts = before ++ enc :: after /\
       Forall none before /\ encode_sav files path enc = Ok d) /\
  (Forall none attempts -> _open_sav files path = Raise InvalidSavError) /\
  (_open_sav files path = Raise InvalidSavError ->
   (forall enc, enc ∈ attempts ->
      encode_sav files path enc <> Raise InvalidSavError) ->
   Forall none attempts).
Proof.
  intros Hex Hbranch attempts none.
  pose proof (open_sav_attempts files path tried Hex Hbranch) as Hpass.
  cbn zeta in Hpass. fold attempts in Hpass. fold none in Hpass.
  split; [|split; [|split]].
  - intros before enc after d Hsplit Hb He Hd.
    destruct Hpass as [[Hall _]|(b2 & e2 & a2 & Hs2 & Hb2 & Hn2 & Ho)].
    + rewrite Hsplit in Hall. apply Forall_app in Hall as [_ Hall].
      apply Forall_cons in Hall as [Hnone _]. unfold none in Hnone.
      congruence.
    + assert (enc = e2) as <-.
      { apply (first_attempt_unique none before b2 enc e2 after a2);
          [congruence|exact Hb|exact Hb2| |exact Hn2].
        unfold none. congruence. }
      rewrite Ho. exact He.
  - intros d Hd.
    destruct Hpass as [[_ Ho]|(b2 & e2 & a2 & Hs2 & Hb2 & Hn2 & Ho)];
      [congruence|].
    rewrite Ho in Hd. split; [congruence|].
    exists b2, e2, a2. auto.
  - intros Hall.
    destruct Hpass as [[_ Ho]|(b2 & e2 & a2 & Hs2 & Hb2 & Hn2 & Ho)];
      [exact Ho|].
    rewrite Hs2 in Hall. apply Forall_app in Hall as [_ Hall].
    apply Forall_cons in Hall as [Hnone _]. contradiction.
  - intros Hr Hno.
    destruct Hpass as [[Hall _]|(b2 & e2 & a2 & Hs2 & Hb2 & Hn2 & Ho)];
      [exact Hall|].
    exfalso. apply (Hno e2).
    + rewrite Hs2. apply elem_of_app. right. left.
    + rewrite <- Ho. exact Hr.
Qed.

End WithEnvironment.
End OpenSavFacts.

Module OpenSavExamples.
Import Sample SampleFiles OpenSavFacts.

(** C6 (fails on the code as stated). With [chardet] installed the fixed
    list is not tried: a GBK save for which the detector reports another
    encoding is rejected with [InvalidSavError], although the fallback
    [gbk] decodes it, as the same call without [chardet] shows. *)
Lemma chardet_skips_fixed_list :
  _open_sav (interp := with_chardet) files "/sav/g.sav" = Raise InvalidSavError /\
  encode_sav (interp := with_chardet) files "/sav/g.sav" (Some "gbk") = Ok gbk_sav /\
  gbk_sav <> VNone /\
  _open_sav (interp := plain) files "/sav/g.sav" = Ok gbk_sav.
Proof. repeat split. discriminate. Qed.

Lemma open_sav_fallbacks_witness :
  _open_sav (interp := plain) files "/sav/g.sav" = Ok gbk_sav /\
  _open_sav (interp := plain) files "/sav/broken.sav" = Raise InvalidSavError /\
  _open_sav (interp := with_chardet) files "/sav/g.sav" = Raise InvalidSavError.
Proof.
  pose proof (open_sav_fallbacks (interp := plain) files "/sav/g.sav"
    [Some "utf-8-sig"; Some "gbk"] eq_refl (or_introl (conj eq_refl eq_refl)))
    as (Hfirst & _).
  pose proof (open_sav_fallbacks (interp := plain) files "/sav/broken.sav"
    [Some "utf-8-sig"; Some "gbk"] eq_refl (or_introl (conj eq_refl eq_refl)))
    as (_ & _ & Hnone & _).
  pose proof (open_sav_fallbacks (interp := with_chardet) files "/sav/g.sav"
    [Some "ascii"] eq_refl
    (or_intror (ex_intro _ (fun _ => Some "ascii")
       (ex_intro _ gbk_bytes (conj eq_refl (conj eq_refl eq_refl))))))
    as (_ & _ & Hdetected & _).
  split; [|split].
  - apply (Hfirst [Some "utf-8"; Some "utf-8-sig"] (Some "gbk") [] gbk_sav
      eq_refl); [repeat constructor|reflexivity|discriminate].
  - apply Hnone. repeat constructor.
  - apply Hdetected. repeat constructor.
Defined.

End OpenSavExamples.

(* ===================================================================== *)
(** ** Theorems: [search_experiment] *)
(* ===================================================================== *)

Module SearchFacts.
Import Sample SampleFiles.

Section WithEnvironment.
Context {interp : Interpreter} {pkg : Package}.

(** A file that raises [InvalidSavError] is passed over. *)
Lemma search_experiment_loop_skip files sav_name aSav rest :
  _open_sav files (path_join SAV_PATH_DIR aSav) = Raise InvalidSavError ->
  search_experiment_loop files sav_name (aSav :: rest)
  = search_experiment_loop files sav_name rest.
Proof. intros Ho. cbn [search_experiment_loop]. rewrite Ho. reflexivity. Qed.

Lemma search_experiment_loop_None files sav_name savs :
  search_experiment_loop files sav_name savs = Ok None <->
  Forall (no_match files sav_name) savs.
Proof.
  induction savs as [|aSav rest IH]; cbn [search_experiment_loop].
  - split; [constructor|reflexivity].
  - split.
    + intros Hs.
      destruct (_open_sav files (path_join SAV_PATH_DIR aSav)) as [sav|e] eqn:Ho.
      * destruct (py_getitem sav "InternalName") as [name|] eqn:Hg;
          [|discriminate].
        cbn in Hs.
        destruct (is_string_value name sav_name) eqn:Hv; [discriminate|].
        constructor; [|apply IH; exact Hs].
        right. exists sav, name. rewrite Ho. auto.
      * destruct e; try discriminate.
        constructor; [|apply IH; exact Hs].
        left. exact Ho.
    + intros Hall. apply Forall_cons in Hall as [Hn Hall].
      destruct Hn as [Ho|(sav & name & Ho & Hg & Hv)]; cbn zeta in Ho;
        rewrite Ho.
      * apply IH. exact Hall.
      * rewrite Hg. cbn. rewrite Hv. apply IH. exact Hall.
Qed.

(** C10. In [search_experiment] a file of the save directory that
    [_open_sav] rejects with [InvalidSavError] is skipped and the scan goes
    on with the remaining files; the answer is [(None, None)] exactly when
    every file is either rejected in this way or carries another
    [InternalName]. *)
Theorem search_experiment_skips_unreadable files sav_name savs :
  _get_all_pl_sav files = Ok savs ->
  (forall before aSav rest, savs = before ++ aSav :: rest ->
     Forall (no_match files sav_name) before ->
     _open_sav files (path_join SAV_PATH_DIR aSav) = Raise InvalidSavError ->
     search_experiment files sav_name
     = search_experiment_loop files sav_name rest) /\
  (search_experiment files sav_name = Ok None <->
   Forall (no_match files sav_name) savs).
Proof.
  intros Hsavs. unfold search_experiment. rewrite Hsavs. cbn. split.
  - intros before aSav rest -> Hb Ho. clear Hsavs.
    induction Hb as [|b before Hn _ IH]; cbn [app].
    + apply search_experiment_loop_skip. exact Ho.
    + cbn [search_experiment_loop].
      destruct Hn as [Hn|(sav & name & Hn & Hg & Hv)]; cbn zeta in Hn;
        rewrite Hn; [|rewrite Hg; cbn; rewrite Hv]; apply IH.
  - apply search_experiment_loop_None.
Qed.

End WithEnvironment.

Lemma search_experiment_skips_unreadable_witness :
  search_experiment (interp := plain) files "T1"
    = Ok (Some ("a.sav", SampleData.circuit_sav)) /\
  search_experiment (interp := plain) files "T2" = Ok None.
Proof.
  pose proof (search_experiment_skips_unreadable (interp := plain) files)
    as Hthm.
  split.
  - rewrite (proj1 (Hthm "T1" ["broken.sav"; "g.sav"; "a.sav"] eq_refl)
      [] "broken.sav" ["g.sav"; "a.sav"] eq_refl (Forall_nil_2 _) eq_refl).
    reflexivity.
  - apply (proj2 (Hthm "T2" ["broken.sav"; "g.sav"; "a.sav"] eq_refl)).
    apply Forall_cons_2; [left; reflexivity|].
    apply Forall_cons_2;
      [right; exists gbk_sav, (VStr "G1"); repeat split|].
    apply Forall_cons_2;
      [right; exists SampleData.circuit_sav, (VStr "T1"); repeat split|].
    apply Forall_nil_2.
Defined.

End SearchFacts.

(* ===================================================================== *)
(** ** Theorems: the result monad and dictionaries *)
(* ===================================================================== *)

Module MonadFacts.

Lemma bind_Ok {A B} (m : result A) (f : A -> result B) (b : B) :
  m ≫= f = Ok b -> exists a, m = Ok a /\ f a = Ok b.
Proof. destruct m as [a|e]; [|discriminate]. intros Hb. exists a. auto. Qed.

End MonadFacts.

(** Splits a hypothesis [x ← m; k = Ok b] into [m = Ok x] and [k = Ok b]. *)
Tactic Notation "bind_inv" hyp(H) ident(x) ident(E) :=
  apply MonadFacts.bind_Ok in H; destruct H as (x & E & H).

Module DictFacts.

Lemma dict_find_set_eq (d : pydict) (k : string) (v : pyval) :
  dict_find (dict_set d k v) k = Some v.
Proof.
  induction d as [|[k' v'] d IH]; cbn.
  - rewrite String.eqb_refl. reflexivity.
  - destruct (String.eqb k' k) eqn:E; cbn.
    + rewrite String.eqb_refl. reflexivity.
    + rewrite E. exact IH.
Qed.

Lemma dict_find_set_ne (d : pydict) (k k' : string) (v : pyval) :
  k <> k' -> dict_find (dict_set d k v) k' = dict_find d k'.
Proof.
  intros Hne. induction d as [|[k0 v0] d IH]; cbn.
  - destruct (String.eqb_spec k k'); [contradiction|reflexivity].
  - destruct (String.eqb_spec k0 k) as [->|Hk]; cbn.
    + destruct (String.eqb_spec k k'); [contradiction|reflexivity].
    + destruct (String.eqb k0 k'); [reflexivity|exact IH].
Qed.

Lemma dict_set_changes (d : pydict) (k : string) (v : pyval) :
  dict_find d k <> Some v -> dict_set d k v <> d.
Proof.
  intros Hd E. apply Hd. rewrite <- E at 1. apply dict_find_set_eq.
Qed.

Lemma dict_get_Ok (d : pydict) (k : string) (v : pyval) :
  dict_get d k = Ok v <-> dict_find d k = Some v.
Proof.
  unfold dict_get. destruct (dict_find d k); split; congruence.
Qed.

Lemma dict_values_length (d : pydict) : length (dict_values d) = length d.
Proof. unfold dict_values. apply length_fmap. Qed.

Lemma dict_values_elem (d : pydict) (v : pyval) :
  v ∈ dict_values d <-> exists k, (k, v) ∈ d.
Proof.
  unfold dict_values. rewrite list_elem_of_fmap. split.
  - intros ([k v'] & -> & Hin). exists k. exact Hin.
  - intros (k & Hin). exists (k, v). split; [reflexivity|exact Hin].
Qed.

End DictFacts.

(* ===================================================================== *)
(** ** Theorems: the loader of elements *)
(* ===================================================================== *)

Module LoadFacts.
Import MonadFacts DictFacts ToolsFacts CrtElementFacts.

Section WithEnvironment.
Context {interp : Interpreter} {pkg : Package} {cat : Catalogue}.

Lemma construct_Ok (c : ctor_call) (obj : Element) :
  construct c = Ok obj ->
  ctor obj = c /\ rotation obj = None /\ notes obj = [] /\
  initial_data c = Ok (data obj).
Proof.
  unfold construct. intros Hc. bind_inv Hc d Ed.
  injection Hc as <-. cbn. auto.
Qed.

Lemma crt_element_dispatch_Ok t name x y z exy args kwargs c :
  crt_element_dispatch t name x y z exy args kwargs = Ok c ->
  is_simple_instrument c = false /\
  exists x' y' z', ctor_position c = (x', y', z') /\
    Tools.round_data x = Ok x' /\ Tools.round_data y = Ok y' /\
    Tools.round_data z = Ok z'.
Proof.
  intros Hc.
  destruct (is_str name && is_number x && is_number y && is_number z) eqn:Hb.
  - apply andb_prop in Hb as [Hb Hz]. apply andb_prop in Hb as [Hb Hy].
    apply andb_prop in Hb as [Hn Hx].
    destruct name as [| | |s| | |]; try discriminate Hn.
    destruct (crt_element_dispatch_rounds t s x y z exy args kwargs Hx Hy Hz)
      as (x' & y' & z' & Ex & Ey & Ez & E).
    rewrite E in Hc. cbn zeta in Hc. injection Hc as <-.
    split.
    + destruct t; [repeat case_match|..]; reflexivity.
    + exists x', y', z'.
      destruct t; [repeat case_match|..]; cbn; auto.
  - rewrite (crt_element_dispatch_TypeError _ _ _ _ _ _ _ _ Hb) in Hc.
    discriminate Hc.
Qed.

Lemma crt_element_Ok t name x y z exy args kwargs obj :
  crt_element t name x y z exy args kwargs = Ok obj ->
  rotation obj = None /\ is_simple_instrument (ctor obj) = false /\
  exists x' y' z', ctor_position (ctor obj) = (x', y', z') /\
    Tools.round_data x = Ok x' /\ Tools.round_data y = Ok y' /\
    Tools.round_data z = Ok z'.
Proof.
  unfold crt_element. intros Hc. bind_inv Hc c Ec.
  apply construct_Ok in Hc as (-> & Hr & _ & _).
  split; [exact Hr|]. eapply crt_element_dispatch_Ok. exact Ec.
Qed.

Lemma load_simple_instrument_Ok element x y z obj :
  load_simple_instrument element x y z = Ok obj ->
  rotation obj = None /\ is_simple_instrument (ctor obj) = true /\
  ctor_position (ctor obj) = (x, y, z).
Proof.
  unfold load_simple_instrument. intros Hl.
  bind_inv Hl properties Ep.
  destruct properties as [| | | | | |props]; try discriminate Hl.
  bind_inv Hl instrument Ei. bind_inv Hl pitch Epi.
  bind_inv Hl velocity Ev. bind_inv Hl rated Er.
  bind_inv Hl ideal Eid. bind_inv Hl single Es.
  bind_inv Hl o Eo. bind_inv Hl ns En.
  injection Hl as <-.
  apply construct_Ok in Eo as (Hc & Hr & _ & _).
  cbn. rewrite Hc, Hr. auto.
Qed.

(** After [crt_element] the stored [Properties] replace those of the new
    element, and the lock is set in them. *)
Lemma load_circuit_element_Ok element x y z obj :
  load_circuit_element element x y z = Ok obj ->
  rotation obj = None /\ is_simple_instrument (ctor obj) = false /\
  (exists x' y' z', ctor_position (ctor obj) = (x', y', z') /\
     Tools.round_data x = Ok x' /\ Tools.round_data y = Ok y' /\
     Tools.round_data z = Ok z') /\
  exists stored, py_getitem element "Properties" = Ok (VDict stored) /\
    dict_find (data obj) "Properties"
    = Some (VDict (dict_set stored lock_key lock_value)).
Proof.
  unfold load_circuit_element. intros Hl.
  bind_inv Hl ModelID Em. bind_inv Hl o Eo. bind_inv Hl properties Ep.
  cbn zeta in Hl. bind_inv Hl properties' Ep'.
  apply dict_get_Ok in Ep'. rewrite dict_find_set_eq in Ep'.
  injection Ep' as <-.
  bind_inv Hl locked El. injection Hl as <-.
  destruct properties as [| | | | | |stored]; try discriminate El.
  injection El as <-.
  apply crt_element_Ok in Eo as (Hr & Hs & Hpos).
  cbn. repeat split; try assumption.
  exists stored. split; [exact Ep|].
  rewrite dict_find_set_eq. reflexivity.
Qed.

End WithEnvironment.
End LoadFacts.

Module LoaderFacts.
Import MonadFacts DictFacts ToolsFacts CrtElementFacts LoadFacts.

Section WithEnvironment.
Context {interp : Interpreter} {pkg : Package} {cat : Catalogue}.

Lemma eval_position_xzy_Ok (v : pyval) (p : Tools.position) :
  eval_position_xzy v = Ok p -> swapped_from v (position_triple p).
Proof.
  unfold eval_position_xzy. intros Hp.
  bind_inv Hp t Et. bind_inv Hp a Ea. bind_inv Hp c Ec. bind_inv Hp b Eb.
  injection Hp as <-. exists t, a, b, c. auto.
Qed.

(** The camera: both stored triples are read in the order (x, z, y). *)
Lemma Experiment_load_camera (PlSav : pyval) (l : Loaded) :
  Experiment_load PlSav = Ok l ->
  exists vc tr,
    py_getitem (l_CameraSave l) "VisionCenter" = Ok vc /\
    py_getitem (l_CameraSave l) "TargetRotation" = Ok tr /\
    swapped_from vc (position_triple (l_VisionCenter l)) /\
    swapped_from tr (position_triple (l_TargetRotation l)).
Proof.
  unfold Experiment_load. intros Hl.
  bind_inv Hl experiment Ee. bind_inv Hl text Et. bind_inv Hl u Eu.
  bind_inv Hl camera Ec. bind_inv Hl vc Evc. bind_inv Hl vision Ev.
  bind_inv Hl tr Etr. bind_inv Hl target Eta. bind_inv Hl summary Es.
  bind_inv Hl PlSav' Ep. bind_inv Hl experiment' Ee'.
  bind_inv Hl type Ety. bind_inv Hl t Ett. injection Hl as <-. cbn.
  exists vc, tr. repeat split; try assumption;
    apply eval_position_xzy_Ok; assumption.
Qed.

(** The position of a decoded element, of any type. *)
Lemma load_element_position t element obj :
  load_element t element = Ok obj ->
  exists pos p a b c x y z,
    py_getitem element "Position" = Ok pos /\
    eval_parenthesised pos = Ok p /\ py_unpack3 p = Ok (a, b, c) /\
    ctor_position (ctor obj) = (x, y, z) /\
    passed_on (ctor obj) a x /\ passed_on (ctor obj) c y /\
    passed_on (ctor obj) b z.
Proof.
  unfold load_element. intros Hl.
  bind_inv Hl pos Epos. bind_inv Hl xzy Exzy.
  bind_inv Exzy p Ep. destruct xzy as [[a b] c].
  exists pos, p, a, b, c.
  assert (Hgoal : forall o : Element,
    (rotation o = None /\ is_simple_instrument (ctor o) = false /\
     exists x' y' z', ctor_position (ctor o) = (x', y', z') /\
       Tools.round_data a = Ok x' /\ Tools.round_data c = Ok y' /\
       Tools.round_data b = Ok z') ->
    exists x y z, ctor_position (ctor o) = (x, y, z) /\
      passed_on (ctor o) a x /\ passed_on (ctor o) c y /\
      passed_on (ctor o) b z).
  { intros o (_ & Hs & x' & y' & z' & Hp & Hx & Hy & Hz).
    exists x', y', z'. unfold passed_on. rewrite Hs. repeat split; auto. }
  destruct t.
  - bind_inv Hl ModelID Em. bind_inv Hl o Eo. bind_inv Hl rot Erot.
    bind_inv Hl r Er. bind_inv Hl r_x Ex. bind_inv Hl r_y Ey.
    bind_inv Hl r_z Ez. cbn zeta in Hl. bind_inv Hl identifier Ei.
    injection Hl as <-. cbn [ctor set_data set_rotation].
    destruct (is_string_value ModelID "Simple Instrument").
    + apply load_simple_instrument_Ok in Eo as (_ & Hs & Hp).
      exists a, c, b. unfold passed_on. rewrite Hs. repeat split; auto.
    + apply load_circuit_element_Ok in Eo as (Hr & Hs & Hp & _).
      destruct (Hgoal o (conj Hr (conj Hs Hp))) as (x & y & z & H1).
      exists x, y, z. auto.
  - bind_inv Hl Model Em. bind_inv Hl o Eo.
    destruct element as [| | | | | |d]; try discriminate Hl.
    injection Hl as <-. cbn [ctor set_data].
    apply crt_element_Ok in Eo.
    destruct (Hgoal o Eo) as (x & y & z & H1). exists x, y, z. auto.
  - bind_inv Hl ModelID Em. bind_inv Hl o Eo.
    destruct element as [| | | | | |d]; try discriminate Hl.
    injection Hl as <-. cbn [ctor set_data].
    apply crt_element_Ok in Eo.
    destruct (Hgoal o Eo) as (x & y & z & H1). exists x, y, z. auto.
Qed.

(** The rotation of a decoded Circuit element, and its lock. *)
Lemma load_element_circuit element obj :
  load_element Circuit element = Ok obj ->
  (exists rot r, py_getitem element "Rotation" = Ok rot /\
     swapped_from rot r /\ rotation obj = Some r) /\
  exists ModelID, py_getitem element "ModelID" = Ok ModelID /\
    (is_string_value ModelID "Simple Instrument" = false ->
     exists stored, py_getitem element "Properties" = Ok (VDict stored) /\
       dict_find (data obj) "Properties"
       = Some (VDict (dict_set stored lock_key lock_value))).
Proof.
  unfold load_element. intros Hl.
  bind_inv Hl pos Epos. bind_inv Hl xzy Exzy. destruct xzy as [[a b] c].
  bind_inv Hl ModelID Em. bind_inv Hl o Eo. bind_inv Hl rot Erot.
  bind_inv Hl r Er. bind_inv Hl r_x Ex. bind_inv Hl r_y Ey.
  bind_inv Hl r_z Ez. cbn zeta in Hl. bind_inv Hl identifier Ei.
  injection Hl as <-. cbn [rotation data set_data set_rotation]. split.
  - exists rot, (r_x, r_y, r_z). split; [exact Erot|]. split; [|reflexivity].
    exists r, r_x, r_z, r_y. auto.
  - exists ModelID. split; [exact Em|]. intros Hm. rewrite Hm in Eo.
    apply load_circuit_element_Ok in Eo as (_ & _ & _ & stored & Hp & Hd).
    exists stored. split; [exact Hp|].
    rewrite dict_find_set_ne by discriminate. exact Hd.
Qed.

(** A decoded Celestial or Electromagnetism element keeps the stored
    record as its [data]; no rotation is read. *)
Lemma load_element_other t element obj :
  t <> Circuit -> load_element t element = Ok obj ->
  rotation obj = None /\ element = VDict (data obj).
Proof.
  unfold load_element. intros Ht Hl.
  bind_inv Hl pos Epos. bind_inv Hl xzy Exzy. destruct xzy as [[a b] c].
  destruct t; [contradiction| |].
  - bind_inv Hl Model Em. bind_inv Hl o Eo.
    destruct element as [| | | | | |d]; try discriminate Hl.
    injection Hl as <-. cbn.
    apply crt_element_Ok in Eo as (Hr & _). auto.
  - bind_inv Hl Model Em. bind_inv Hl o Eo.
    destruct element as [| | | | | |d]; try discriminate Hl.
    injection Hl as <-. cbn.
    apply crt_element_Ok in Eo as (Hr & _). auto.
Qed.

Lemma load_elements_loop_app t l els0 els :
  load_elements_loop t l els0 = Ok els ->
  exists new, els = els0 ++ new /\
    Forall2 (fun element obj => load_element t element = Ok obj) l new.
Proof.
  revert els0. induction l as [|element l IH]; intros els0 Hl; cbn in Hl.
  - injection Hl as <-. exists []. split; [symmetry; apply app_nil_r|constructor].
  - bind_inv Hl obj Eo. apply IH in Hl as (new & -> & Hall).
    exists (obj :: new). split; [rewrite <- app_assoc; reflexivity|].
    constructor; assumption.
Qed.

End WithEnvironment.
End LoaderFacts.

(* ===================================================================== *)
(** ** Theorems: what the loader does to a decoded save *)
(* ===================================================================== *)

Module LoaderTheorems.
Import MonadFacts DictFacts LoadFacts LoaderFacts Sample.

Section WithEnvironment.
Context {interp : Interpreter} {pkg : Package} {cat : Catalogue}.

(** C4 (as amended). The loader reads every stored triple in the order
    (x, z, y) and exchanges the second and third components: for the
    [VisionCenter] and the [TargetRotation] of the camera, for the position
    of every decoded element (which reaches the constructor rounded, or as
    it is for a Simple Instrument) and for the rotation of every decoded
    Circuit element. For a Celestial or Electromagnetism element no
    rotation is read: the stored record becomes the [data] of the element
    as it is. *)
Theorem loader_swaps_second_and_third :
  (forall PlSav l, Experiment_load PlSav = Ok l ->
     exists vc tr,
       py_getitem (l_CameraSave l) "VisionCenter" = Ok vc /\
       py_getitem (l_CameraSave l) "TargetRotation" = Ok tr /\
       swapped_from vc (position_triple (l_VisionCenter l)) /\
       swapped_from tr (position_triple (l_TargetRotation l))) /\
  (forall t element obj, load_element t element = Ok obj ->
     (exists pos p a b c x y z,
        py_getitem element "Position" = Ok pos /\
        eval_parenthesised pos = Ok p /\ py_unpack3 p = Ok (a, b, c) /\
        ctor_position (ctor obj) = (x, y, z) /\
        passed_on (ctor obj) a x /\ passed_on (ctor obj) c y /\
        passed_on (ctor obj) b z) /\
     match t with
     | Circuit =>
         exists rot r, py_getitem element "Rotation" = Ok rot /\
           swapped_from rot r /\ rotation obj = Some r
     | _ => rotation obj = None /\ element = VDict (data obj)
     end).
Proof.
  split; [exact Experiment_load_camera|].
  intros t element obj Hl. split; [eapply load_element_position; exact Hl|].
  destruct t.
  - apply load_element_circuit in Hl as [Hr _]. exact Hr.
  - apply load_element_other in Hl; [exact Hl|discriminate].
  - apply load_element_other in Hl; [exact Hl|discriminate].
Qed.

Lemma dict_set_new (d : pydict) (k : string) (v : pyval) :
  dict_find d k = None -> dict_set d k v = d ++ [(k, v)].
Proof.
  induction d as [|[k' v'] d IH]; cbn; [reflexivity|].
  destruct (String.eqb k' k); [discriminate|].
  intros Hd. rewrite (IH Hd). reflexivity.
Qed.

(** C9. A Circuit element decoded from a save whose [ModelID] is not
    "Simple Instrument" carries the stored [Properties] with the key "锁定"
    set to 1.0: the key is added at the end when the stored bag lacks it
    and overwritten otherwise, every other key keeps its value, and the
    bag differs from the stored one unless the stored one already had
    1.0 there. *)
Theorem decoded_circuit_element_is_locked element obj ModelID :
  load_element Circuit element = Ok obj ->
  py_getitem element "ModelID" = Ok ModelID ->
  is_string_value ModelID "Simple Instrument" = false ->
  exists stored, py_getitem element "Properties" = Ok (VDict stored) /\
    let bag := dict_set stored lock_key lock_value in
    dict_find (data obj) "Properties" = Some (VDict bag) /\
    dict_find bag lock_key = Some lock_value /\
    (forall k, k <> lock_key -> dict_find bag k = dict_find stored k) /\
    (dict_find stored lock_key = None ->
     bag = stored ++ [(lock_key, lock_value)]) /\
    (dict_find stored lock_key <> Some lock_value -> bag <> stored).
Proof.
  intros Hl Hm Hs.
  apply load_element_circuit in Hl as (_ & ModelID' & Hm' & Hlock).
  assert (ModelID' = ModelID) as -> by congruence.
  destruct (Hlock Hs) as (stored & Hp & Hd).
  exists stored. split; [exact Hp|]. cbn zeta.
  split; [exact Hd|]. split; [apply dict_find_set_eq|].
  split; [|split].
  - intros k Hk. apply dict_find_set_ne. congruence.
  - apply dict_set_new.
  - apply dict_set_changes.
Qed.

Lemma load_elements_loop_data t l new :
  t <> Circuit ->
  Forall2 (fun element obj => load_element t element = Ok obj) l new ->
  (fun e => VDict (data e)) <$> new = l.
Proof.
  intros Ht. induction 1 as [|element obj l new Hl _ IH]; [reflexivity|].
  cbn. rewrite IH.
  apply (load_element_other _ _ _ Ht) in Hl as [_ ->]. reflexivity.
Qed.

End WithEnvironment.

(** C4 (fails on the code as stated). For an Electromagnetism element the
    loader exchanges the components of the position only: no rotation is
    set, and the stored rotation stays in the [data] as it was written. *)
Lemma rotation_not_read_outside_circuit :
  match load_element (interp := SampleData.plain) Electromagnetism
          SampleData.electromagnetism_element with
  | Ok obj =>
      ctor_position (ctor obj) = (int 1, int 3, int 2) /\
      rotation obj = None /\
      dict_find (data obj) "Rotation" = Some (VStr "0,180,90") /\
      ~ exists rot r, swapped_from (interp := SampleData.plain) rot r /\
          rotation obj = Some r
  | Raise _ => False
  end.
Proof.
  cbn. repeat split. intros (rot & r & _ & Hr). discriminate Hr.
Qed.

Lemma loader_swaps_second_and_third_witness :
  match load_element (interp := SampleData.plain) Circuit
          SampleData.circuit_element with
  | Ok obj =>
      exists rot r,
        py_getitem SampleData.circuit_element "Rotation" = Ok rot /\
        swapped_from (interp := SampleData.plain) rot r /\
        rotation obj = Some r
  | Raise _ => False
  end /\
  match Experiment_load (interp := SampleData.plain) SampleData.circuit_sav with
  | Ok l =>
      exists vc tr,
        py_getitem (l_CameraSave l) "VisionCenter" = Ok vc /\
        py_getitem (l_CameraSave l) "TargetRotation" = Ok tr /\
        swapped_from (interp := SampleData.plain) vc
          (position_triple (l_VisionCenter l)) /\
        swapped_from (interp := SampleData.plain) tr
          (position_triple (l_TargetRotation l))
  | Raise _ => False
  end.
Proof.
  split.
  - exact (proj2 (proj2 (loader_swaps_second_and_third
      (interp := SampleData.plain)) Circuit SampleData.circuit_element _
      eq_refl)).
  - exact (proj1 (loader_swaps_second_and_third (interp := SampleData.plain))
      SampleData.circuit_sav _ eq_refl).
Defined.

Lemma decoded_circuit_element_is_locked_witness :
  match load_element (interp := SampleData.plain) Circuit
          SampleData.circuit_element with
  | Ok obj =>
      exists stored,
        py_getitem SampleData.circuit_element "Properties" = Ok (VDict stored) /\
        let bag := dict_set stored lock_key lock_value in
        dict_find (data obj) "Properties" = Some (VDict bag) /\
        dict_find bag lock_key = Some lock_value /\
        (forall k, k <> lock_key -> dict_find bag k = dict_find stored k) /\
        (dict_find stored lock_key = None ->
         bag = stored ++ [(lock_key, lock_value)]) /\
        (dict_find stored lock_key <> Some lock_value -> bag <> stored)
  | Raise _ => False
  end.
Proof.
  exact (decoded_circuit_element_is_locked (interp := SampleData.plain)
    SampleData.circuit_element _ (VStr "Logic Input") eq_refl eq_refl eq_refl).
Defined.

End LoaderTheorems.

(* ===================================================================== *)
(** ** Theorems: the constructor and the stack *)
(* ===================================================================== *)

Module ExperimentFacts.
Import MonadFacts Sample.

Section WithEnvironment.
Context {interp : Interpreter} {pkg : Package} {cat : Catalogue}.
#[local] Existing Instance io_bind.
#[local] Existing Instance io_ret.

Lemma io_bind_Ok {A B} (m : io A) (f : A -> io B) (w w' : World) (b : B) :
  (m ≫= f) w = (w', Ok b) ->
  exists a w1, m w = (w1, Ok a) /\ f a w1 = (w', Ok b).
Proof.
  unfold mbind, io_bind. destruct (m w) as [w1 [a|e]]; [|discriminate].
  intros Hf. exists a, w1. auto.
Qed.

Lemma lift_Ok {A} (r : result A) (w w' : World) (a : A) :
  lift r w = (w', Ok a) -> w' = w /\ r = Ok a.
Proof. unfold lift. intros [= -> ->]. auto. Qed.

Lemma check_not_opened_Ok path (w w' : World) (u : unit) :
  check_not_opened path w = (w', Ok u) ->
  w' = w /\ ExperimentStack.inside (stack w) path = false.
Proof.
  unfold check_not_opened, mbind, io_bind, get_stack. cbn.
  destruct (ExperimentStack.inside (stack w) path); [discriminate|].
  intros [= ->]. auto.
Qed.

Lemma check_not_opened_conflict path (w : World) :
  ExperimentStack.inside (stack w) path = true ->
  check_not_opened path w = (w, Raise ExperimentOpenedError).
Proof.
  intros Hin. unfold check_not_opened, mbind, io_bind, get_stack. cbn.
  rewrite Hin. reflexivity.
Qed.

Tactic Notation "io_inv" hyp(H) ident(x) ident(w1) ident(E) :=
  apply io_bind_Ok in H; destruct H as (x & w1 & E & H).

Tactic Notation "lift_inv" hyp(E) :=
  apply lift_Ok in E; destruct E as [-> E].

Lemma get_files_Ok (w w' : World) f :
  get_files w = (w', Ok f) -> w' = w /\ f = files w.
Proof. unfold get_files. intros [= -> ->]. auto. Qed.

Lemma mret_Ok {A} (a b : A) (w w' : World) :
  mret (M := io) a w = (w', Ok b) -> w' = w /\ b = a.
Proof. unfold mret, io_ret. intros [= -> ->]. auto. Qed.

(** A load by file path that succeeds found its path absent from the
    stack and left the state as it was. *)
Lemma open_by_filepath_Ok args (w w' : World) e :
  open_by_filepath args w = (w', Ok e) ->
  w' = w /\ open_mode e = load_by_filepath /\
  ExperimentStack.inside (stack w) (SAV_PATH e) = false.
Proof.
  unfold open_by_filepath. intros Ho.
  repeat case_match; try discriminate Ho. subst.
  io_inv Ho fs0 w1 E0. apply get_files_Ok in E0 as [-> ->].
  destruct (path_exists (files w) (abspath s)); [|discriminate Ho].
  cbn [negb] in Ho.
  io_inv Ho u w1 Ec. apply check_not_opened_Ok in Ec as [-> Hin].
  io_inv Ho _temp w1 Et. lift_inv Et.
  io_inv Ho PlSav w1 Ep. lift_inv Ep.
  io_inv Ho l w1 El. lift_inv El.
  apply mret_Ok in Ho as [-> ->]. cbn. auto.
Qed.

Lemma open_by_sav_name_Ok args (w w' : World) e :
  open_by_sav_name args w = (w', Ok e) ->
  w' = w /\ open_mode e = load_by_sav_name /\
  ExperimentStack.inside (stack w) (SAV_PATH e) = false.
Proof.
  unfold open_by_sav_name. intros Ho.
  repeat case_match; try discriminate Ho. subst.
  io_inv Ho fs0 w1 E0. apply get_files_Ok in E0 as [-> ->].
  io_inv Ho found w1 Ef. lift_inv Ef.
  destruct found as [[filename _plsav]|]; [|discriminate Ho].
  io_inv Ho u w1 Ec. apply check_not_opened_Ok in Ec as [-> Hin].
  io_inv Ho l w1 El. lift_inv El.
  apply mret_Ok in Ho as [-> ->]. cbn. auto.
Qed.

Lemma open_by_plar_app_Ok args kwargs (w w' : World) e :
  open_by_plar_app args kwargs w = (w', Ok e) ->
  w' = w /\ open_mode e = load_by_plar_app /\
  ExperimentStack.inside (stack w) (SAV_PATH e) = false.
Proof.
  unfold open_by_plar_app. intros Ho.
  repeat case_match; try discriminate Ho; subst.
  io_inv Ho anonymous w1 Ea. lift_inv Ea.
  destruct (kwargs_get kwargs "user" (AUser anonymous)) as [| | | |user];
    try discriminate Ho.
  io_inv Ho u w1 Ec. apply check_not_opened_Ok in Ec as [-> Hin].
  io_inv Ho _summary w1 Es. lift_inv Es.
  io_inv Ho ContentID w1 Eci. lift_inv Eci.
  io_inv Ho _experiment w1 Ee. lift_inv Ee.
  io_inv Ho PlSav w1 Ep. lift_inv Ep.
  io_inv Ho l w1 El. lift_inv El.
  apply mret_Ok in Ho as [-> ->]. cbn. auto.
Qed.

Lemma stack_blind_bind {A B} (m : io A) (f : A -> io B) :
  stack_blind m -> (forall a, stack_blind (f a)) -> stack_blind (m ≫= f).
Proof.
  intros Hm Hf f0 lg0. destruct (Hm f0 lg0) as (f1 & lg1 & [a|e] & H1).
  - destruct (Hf a f1 lg1) as (f2 & lg2 & r & H2).
    exists f2, lg2, r. intros st. unfold mbind, io_bind.
    rewrite H1. apply H2.
  - exists f1, lg1, (Raise e). intros st. unfold mbind, io_bind.
    rewrite H1. reflexivity.
Qed.

Lemma stack_blind_lift {A} (r : result A) : stack_blind (lift r).
Proof. intros f lg. exists f, lg, r. reflexivity. Qed.

Lemma stack_blind_raise {A} (e : exn) : stack_blind (raise (A := A) e).
Proof. intros f lg. exists f, lg, (Raise e). reflexivity. Qed.

Lemma stack_blind_mret {A} (a : A) : stack_blind (mret (M := io) a).
Proof. intros f lg. exists f, lg, (Ok a). reflexivity. Qed.

Lemma stack_blind_get_files : stack_blind get_files.
Proof. intros f lg. exists f, lg, (Ok f). reflexivity. Qed.

Lemma stack_blind_set_files f : stack_blind (set_files f).
Proof. intros f0 lg. exists f, lg, (Ok tt). reflexivity. Qed.

(** The branch of the [crt] mode never looks at the stack. *)
Lemma open_crt_stack_blind token args kwargs :
  stack_blind (open_crt token args kwargs).
Proof.
  unfold open_crt.
  repeat (first
    [ apply stack_blind_raise | apply stack_blind_mret
    | apply stack_blind_lift | apply stack_blind_get_files
    | apply stack_blind_set_files
    | apply stack_blind_bind; [|intros ?]
    | case_match ]).
Qed.

Lemma stack_blind_Ok {A} (m : io A) (w w' : World) (r : result A) :
  stack_blind m -> m w = (w', r) -> stack w' = stack w.
Proof.
  intros Hm Hw. destruct w as [f st lg].
  destruct (Hm f lg) as (f' & lg' & r' & H1).
  rewrite H1 in Hw. injection Hw as <- _. reflexivity.
Qed.

Lemma open_crt_Ok token args kwargs (w w' : World) e :
  open_crt token args kwargs w = (w', Ok e) ->
  stack w' = stack w /\ open_mode e = crt.
Proof.
  intros Ho. split.
  - eapply stack_blind_Ok; [apply open_crt_stack_blind|exact Ho].
  - revert Ho. unfold open_crt.
    repeat case_match; try discriminate; subst.
    all: intros Ho; io_inv Ho fs0 w1 E0; io_inv Ho found w2 Ef.
    all: io_inv Ho u w3 Eu; io_inv Ho PlSav w4 Ep.
    all: apply mret_Ok in Ho as [_ ->]; reflexivity.
Qed.

Lemma push_self_Ok path (w w' : World) (u : unit) :
  push_self path w = (w', Ok u) ->
  w' = mk_World (files w) (stack w ++ [path]) (log w).
Proof.
  unfold push_self, mbind, io_bind, get_stack, set_stack,
    ExperimentStack.push. cbn. intros [= <-]. reflexivity.
Qed.

(** When [__init__] reaches the push, the path of the experiment goes on
    top of the stack; in a load mode it was not on the stack before. *)
Lemma Experiment_open_Ok token m args kwargs (w w' : World) e :
  Experiment_open token (AOpenMode m) args kwargs w = (w', Ok e) ->
  open_mode e = m /\ stack w' = stack w ++ [SAV_PATH e] /\
  (m <> crt -> ExperimentStack.inside (stack w) (SAV_PATH e) = false).
Proof.
  unfold Experiment_open. intros Ho.
  destruct args as [|a args]; [discriminate Ho|].
  io_inv Ho e0 w1 Ee. io_inv Ho u w2 Ec. lift_inv Ec.
  io_inv Ho u' w3 Ep. apply push_self_Ok in Ep as ->.
  apply mret_Ok in Ho as [-> ->]. cbn [stack].
  destruct m.
  - apply open_by_sav_name_Ok in Ee as (-> & Hm & Hin). auto.
  - apply open_by_filepath_Ok in Ee as (-> & Hm & Hin). auto.
  - apply open_by_plar_app_Ok in Ee as (-> & Hm & Hin). auto.
  - apply open_crt_Ok in Ee as (-> & Hm). repeat split; congruence.
Qed.

Lemma load_status_path e e' :
  load_status e = Ok e' -> SAV_PATH e' = SAV_PATH e.
Proof.
  unfold load_status. intros Hl.
  bind_inv Hl ex Ee. bind_inv Hl text Et. bind_inv Hl status Es.
  bind_inv Hl els0 E0. bind_inv Hl els E1. cbn zeta in Hl.
  cbn [experiment_type with_Elements] in Hl.
  destruct (experiment_type e).
  - bind_inv Hl ws0 Ew0. bind_inv Hl ws1 Ew1. bind_inv Hl ws Ew.
    injection Hl as <-. reflexivity.
  - injection Hl as <-. reflexivity.
  - injection Hl as <-. reflexivity.
Qed.

Lemma Experiment_init_Ok token m args kwargs (w w' : World) e :
  Experiment_init token (AOpenMode m) args kwargs w = (w', Ok e) ->
  stack w' = stack w ++ [SAV_PATH e] /\
  (m <> crt -> ExperimentStack.inside (stack w) (SAV_PATH e) = false).
Proof.
  unfold Experiment_init. intros Hi. io_inv Hi e0 w1 Eo.
  apply Experiment_open_Ok in Eo as (Hm & Hst & Hin).
  assert (Hp : w' = w1 /\ SAV_PATH e = SAV_PATH e0).
  { destruct (open_mode e0);
      try (lift_inv Hi; apply load_status_path in Hi; auto).
    apply mret_Ok in Hi as [-> ->]. auto. }
  destruct Hp as [-> ->]. auto.
Qed.

End WithEnvironment.
End ExperimentFacts.

(* ===================================================================== *)
(** ** Theorems: the lifecycle of an experiment *)
(* ===================================================================== *)

Module LifecycleTheorems.
Import MonadFacts ExperimentFacts Sample.

Section WithEnvironment.
Context {interp : Interpreter} {pkg : Package} {cat : Catalogue} {core : Core}.
#[local] Existing Instance io_bind.
#[local] Existing Instance io_ret.

(** C2 (as amended). In the modes [load_by_filepath], [load_by_sav_name]
    and [load_by_plar_app], once the arguments are accepted and the path
    is resolved (the file exists; the name is found in the save
    directory), the constructor raises [ExperimentOpenedError] when that
    path is on the stack, and leaves the stack as it was. The mode [crt]
    makes no such check: its branch neither reads nor changes the stack.
    In every mode, a constructor that gets through the branch of its mode
    pushes the path of the new experiment on the stack, and one that
    returns has done so. *)
Theorem Experiment_init_stack_discipline token kwargs (w : World) :
  (forall sav_name,
     path_exists (files w) (abspath sav_name) = true ->
     ExperimentStack.inside (stack w) (abspath sav_name) = true ->
     Experiment_init token (AOpenMode load_by_filepath)
       [AVal (VStr sav_name)] kwargs w
     = (w, Raise ExperimentOpenedError)) /\
  (forall sav_name filename sav,
     search_experiment (files w) sav_name = Ok (Some (filename, sav)) ->
     ExperimentStack.inside (stack w) (path_join SAV_PATH_DIR filename) = true ->
     Experiment_init token (AOpenMode load_by_sav_name)
       [AVal (VStr sav_name)] kwargs w
     = (w, Raise ExperimentOpenedError)) /\
  (forall content_id category anonymous user,
     new_User = Ok anonymous ->
     kwargs_get kwargs "user" (AUser anonymous) = AUser user ->
     ExperimentStack.inside (stack w)
       (path_join SAV_PATH_DIR (content_id ++ ".sav")) = true ->
     Experiment_init token (AOpenMode load_by_plar_app)
       [AVal (VStr content_id); ACategory category] kwargs w
     = (w, Raise ExperimentOpenedError)) /\
  (forall args, stack_blind (open_crt token args kwargs)) /\
  (forall m args w' e,
     Experiment_open token (AOpenMode m) args kwargs w = (w', Ok e) ->
     open_mode e = m /\ stack w' = stack w ++ [SAV_PATH e] /\
     (m <> crt -> ExperimentStack.inside (stack w) (SAV_PATH e) = false)) /\
  (forall m args w' e,
     Experiment_init token (AOpenMode m) args kwargs w = (w', Ok e) ->
     stack w' = stack w ++ [SAV_PATH e] /\
     (m <> crt -> ExperimentStack.inside (stack w) (SAV_PATH e) = false)).
Proof.
  repeat apply conj.
  - intros sav_name Hex Hin.
    unfold Experiment_init, Experiment_open, open_by_filepath, mbind, io_bind,
      get_files. cbn. rewrite Hex. cbn.
    rewrite (check_not_opened_conflict _ _ Hin). reflexivity.
  - intros sav_name filename sav Hs Hin.
    unfold Experiment_init, Experiment_open, open_by_sav_name, mbind, io_bind,
      get_files, lift. cbn. rewrite Hs.
    rewrite (check_not_opened_conflict _ _ Hin). reflexivity.
  - intros content_id category anonymous user Hu Hk Hin.
    unfold Experiment_init, Experiment_open, open_by_plar_app, mbind, io_bind,
      lift. cbn. rewrite Hu, Hk.
    rewrite (check_not_opened_conflict _ _ Hin). reflexivity.
  - intros args. apply open_crt_stack_blind.
  - intros m args w' e. apply Experiment_open_Ok.
  - intros m args w' e. apply Experiment_init_Ok.
Qed.

(** The constructor can still raise after the push: the path then stays
    on the stack. *)
Lemma Experiment_init_raises_after_push token m args kwargs (w w1 : World)
    e0 x :
  Experiment_open token (AOpenMode m) args kwargs w = (w1, Ok e0) ->
  m <> crt -> load_status e0 = Raise x ->
  Experiment_init token (AOpenMode m) args kwargs w = (w1, Raise x) /\
  stack w1 = stack w ++ [SAV_PATH e0].
Proof.
  intros Ho Hm Hl. split.
  - unfold Experiment_init, mbind, io_bind. rewrite Ho.
    apply Experiment_open_Ok in Ho as (Hm' & _).
    rewrite Hm'. destruct m; try contradiction; unfold lift; rewrite Hl;
      reflexivity.
  - apply Experiment_open_Ok in Ho as (_ & Hst & _). exact Hst.
Qed.

(** [Experiment.__exit__] without an exception, for an experiment that is
    still on the stack: [save], and when that has written the document,
    [exit] without deleting. *)
Lemma Experiment_exit_saves_and_exits e (w : World) fs1 :
  ExperimentStack.inside (stack w) (SAV_PATH e) = true ->
  write_document (files w) e None = Ok fs1 ->
  Experiment_exit e None w
  = (mk_World fs1 (ExperimentStack.remove (stack w) (SAV_PATH e))
       (log w ++ [Saved (SAV_PATH e) None; Exited (SAV_PATH e) false]),
     Ok tt).
Proof.
  intros Hin Hw. unfold Experiment_exit, mbind, io_bind, get_stack. cbn.
  rewrite Hin. unfold save, exit, emit, set_stack, get_stack, get_files,
    set_files, lift, mbind, io_bind, mret, io_ret. cbn. rewrite Hw. cbn.
  rewrite <- app_assoc. reflexivity.
Qed.

(** ... and for an experiment that has already left the stack: nothing. *)
Lemma Experiment_exit_after_exit e (w : World) :
  ExperimentStack.inside (stack w) (SAV_PATH e) = false ->
  Experiment_exit e None w = (w, Ok tt).
Proof.
  intros Hin. unfold Experiment_exit, mbind, io_bind, get_stack. cbn.
  rewrite Hin. reflexivity.
Qed.

(** C3 (the code fails it). When the block of an open experiment is left
    through an exception, [Experiment.__exit__] does nothing at all: no
    [save], and no [exit] either, so that the entry of the experiment is
    still on the stack afterwards. *)
Theorem Experiment_exit_on_error_keeps_entry e exc (w w' : World) r :
  ExperimentStack.inside (stack w) (SAV_PATH e) = true ->
  Experiment_exit e (Some exc) w = (w', r) ->
  r = Ok tt /\ log w' = log w /\ stack w' = stack w /\
  ExperimentStack.inside (stack w') (SAV_PATH e) = true.
Proof.
  intros Hin He. unfold Experiment_exit, mbind, io_bind, get_stack in He.
  cbn in He. injection He as <- <-. auto.
Qed.

(** The deprecated [experiment.__exit__] does call [exit] when the block is
    left through an exception. *)
Lemma experiment_exit_on_error self exc (w : World) :
  experiment_exit self (Some exc) w
  = (mk_World (files w)
       (ExperimentStack.remove (stack w) (SAV_PATH (_Experiment self)))
       (log w ++ [Exited (SAV_PATH (_Experiment self)) false]),
     Ok tt).
Proof. reflexivity. Qed.

(** Removing the path of an experiment from a stack without duplicates
    leaves a stack that does not hold the path. *)
Lemma remove_not_inside (st : list string) (path : string) :
  NoDup st ->
  ExperimentStack.inside (ExperimentStack.remove st path) path = false.
Proof.
  induction 1 as [|p st Hp Hnd IH]; cbn; [reflexivity|].
  destruct (String.eqb_spec path p) as [->|Hne].
  - unfold ExperimentStack.inside. apply not_true_is_false. intros Hin.
    apply existsb_exists in Hin as (q & Hq & Heq).
    apply String.eqb_eq in Heq as <-. apply Hp.
    apply list_elem_of_In. exact Hq.
  - cbn. destruct (String.eqb_spec path p); [contradiction|]. exact IH.
Qed.

End WithEnvironment.

(** C2 (fails on the code as stated). The mode [crt] does not compare its
    path with the stack: with a random name that is already there the
    constructor returns and the path is on the stack twice. And a load by
    file path of an experiment that is open but was never saved raises
    [FileNotFoundError], not the conflict error. *)
Lemma conflict_check_not_in_every_mode :
  let w := sample_world ["/sav/tok.sav"] in
  match Experiment_init (interp := SampleFiles.plain) "tok" (AOpenMode crt)
          [AVal (VStr "T9"); AExperimentType Circuit] [] w with
  | (w', Ok e) =>
      SAV_PATH e = "/sav/tok.sav" /\
      ExperimentStack.inside (stack w) (SAV_PATH e) = true /\
      stack w' = ["/sav/tok.sav"; "/sav/tok.sav"]
  | _ => False
  end /\
  ExperimentStack.inside (stack w)
    (abspath (Interpreter := SampleFiles.plain) "/sav/tok.sav") = true /\
  Experiment_init (interp := SampleFiles.plain) "new" (AOpenMode load_by_filepath)
    [AVal (VStr "/sav/tok.sav")] [] w
  = (w, Raise FileNotFoundError).
Proof. cbn zeta. repeat split. Qed.

Lemma Experiment_init_stack_discipline_witness :
  let w := sample_world ["/sav/a.sav"] in
  Experiment_init (interp := SampleFiles.plain) "tok"
    (AOpenMode load_by_filepath) [AVal (VStr "/sav/a.sav")] [] w
  = (w, Raise ExperimentOpenedError) /\
  Experiment_init (interp := SampleFiles.plain) "tok"
    (AOpenMode load_by_sav_name) [AVal (VStr "T1")] [] w
  = (w, Raise ExperimentOpenedError) /\
  Experiment_init (interp := SampleFiles.plain) "tok"
    (AOpenMode load_by_plar_app)
    [AVal (VStr "a"); ACategory Category_Experiment] [] w
  = (w, Raise ExperimentOpenedError) /\
  match Experiment_init (interp := SampleFiles.plain) "tok"
          (AOpenMode load_by_sav_name) [AVal (VStr "T1")] []
          (sample_world ["/sav/g.sav"]) with
  | (w', Ok e) =>
      stack w' = ["/sav/g.sav"] ++ [SAV_PATH e] /\
      (load_by_sav_name <> crt ->
       ExperimentStack.inside ["/sav/g.sav"] (SAV_PATH e) = false)
  | _ => False
  end.
Proof.
  cbn zeta.
  pose proof (Experiment_init_stack_discipline (interp := SampleFiles.plain)
    "tok" [] (sample_world ["/sav/a.sav"])) as (H1 & H2 & H3 & _).
  pose proof (Experiment_init_stack_discipline (interp := SampleFiles.plain)
    "tok" [] (sample_world ["/sav/g.sav"])) as (_ & _ & _ & _ & _ & H6).
  split; [exact (H1 "/sav/a.sav" eq_refl eq_refl)|].
  split; [exact (H2 "T1" "a.sav" SampleData.circuit_sav eq_refl eq_refl)|].
  split; [exact (H3 "a" Category_Experiment tt tt eq_refl eq_refl eq_refl)|].
  exact (H6 load_by_sav_name [AVal (VStr "T1")] _ _ eq_refl).
Defined.

(** The scenario of C3: an experiment is opened by name, the block is left
    through an exception, and the same experiment cannot be opened
    again. *)
Lemma Experiment_exit_on_error_keeps_entry_witness :
  match Experiment_init (interp := SampleFiles.plain) "tok"
          (AOpenMode load_by_sav_name) [AVal (VStr "T1")] []
          (sample_world []) with
  | (w, Ok e) =>
      forall w' r,
        Experiment_exit e (Some ValueError) w = (w', r) ->
        r = Ok tt /\ log w' = log w /\ stack w' = stack w /\
        ExperimentStack.inside (stack w') (SAV_PATH e) = true
  | _ => False
  end.
Proof.
  cbn zeta. intros w' r He.
  eapply (Experiment_exit_on_error_keeps_entry (interp := SampleFiles.plain));
    [|exact He].
  reflexivity.
Defined.

Lemma reopen_after_error_is_refused :
  match Experiment_init (interp := SampleFiles.plain) "tok"
          (AOpenMode load_by_sav_name) [AVal (VStr "T1")] []
          (sample_world []) with
  | (w, Ok e) =>
      let w' := (Experiment_exit e (Some ValueError) w).1 in
      stack w' = ["/sav/a.sav"] /\ log w' = [] /\
      (Experiment_init (interp := SampleFiles.plain) "tok"
         (AOpenMode load_by_sav_name) [AVal (VStr "T1")] [] w').2
      = Raise ExperimentOpenedError
  | _ => False
  end.
Proof. cbn zeta. repeat split. Qed.

End LifecycleTheorems.

(* ===================================================================== *)
(** ** Further theorems: rounding and random names *)
(* ===================================================================== *)

Module RoundingFacts.
Import Tools ToolsFacts.
Local Open Scope Q_scope.

Ltac qcompare_inv H :=
  match type of H with
  | (_ ?= _) = Eq => apply Qeq_alt in H
  | (_ ?= _) = Lt => apply Qlt_alt in H
  | (_ ?= _) = Gt => apply Qgt_alt in H
  end.

Lemma round_half_even_bounds (q : Q) :
  (Qfloor q <= round_half_even q <= Qfloor q + 1)%Z.
Proof.
  unfold round_half_even.
  destruct (q - inject_Z (Qfloor q) ?= 1 # 2); [destruct (Z.even _)|..]; lia.
Qed.

Lemma round_half_even_monotone (p q : Q) :
  p <= q -> (round_half_even p <= round_half_even q)%Z.
Proof.
  intros Hpq. pose proof (Qfloor_resp_le _ _ Hpq) as Hf.
  pose proof (round_half_even_bounds p) as Hp.
  pose proof (round_half_even_bounds q) as Hq.
  destruct (Z.eq_dec (Qfloor p) (Qfloor q)) as [E|E]; [|lia].
  clear Hp Hq Hf. unfold round_half_even. rewrite <- E.
  set (f := Qfloor p) in *. clearbody f. clear E.
  destruct (p - inject_Z f ?= 1 # 2) eqn:Cp;
    destruct (q - inject_Z f ?= 1 # 2) eqn:Cq;
    try (destruct (Z.even f); lia); try lia; exfalso;
    qcompare_inv Cp; qcompare_inv Cq; lra.
Qed.

(** X2. Rounding keeps the order. [round(x, 4)] first takes the decimal
    with four fractional digits nearest to the exact value of [x]: of two
    values the smaller one never gets the larger decimal. *)
Theorem round4_monotone (p q : Q) :
  p <= q -> (decimal4 p # 10000) <= (decimal4 q # 10000).
Proof.
  intros Hpq. unfold decimal4.
  assert (Hm : (round_half_even (p * 10000) <= round_half_even (q * 10000))%Z).
  { apply round_half_even_monotone. lra. }
  unfold Qle. cbn. nia.
Qed.

Lemma round4_monotone_witness :
  (decimal4 0.12344 # 10000) <= (decimal4 0.12346 # 10000).
Proof. apply round4_monotone. unfold Qle. cbn. lia. Defined.

Lemma mapM_round_data (args : list pyval) :
  forallb is_number args = true ->
  exists rs, mapM round_data args = Ok rs /\
    Forall2 (fun a r => round_data a = Ok r) args rs.
Proof.
  induction args as [|a args IH]; cbn [forallb].
  - intros _. exists []. split; [reflexivity|constructor].
  - intros Hb. apply andb_prop in Hb as [Ha Hargs].
    destruct (round_data_number a Ha) as (r & Hr & _).
    destruct (IH Hargs) as (rs & Hrs & Hall).
    exists (r :: rs). split; [|constructor; assumption].
    cbn. rewrite Hr. cbn. rewrite Hrs. reflexivity.
Qed.

(** X3. [roundData] raises [TypeError] as soon as one argument is not a
    number. On numbers it rounds each of them; a single argument comes
    back as a number, any other count (none included) as a tuple of the
    same length. *)
Theorem roundData_spec (args : list pyval) :
  (forallb is_number args = false -> roundData args = Raise TypeError) /\
  (forallb is_number args = true ->
   exists rs, Forall2 (fun a r => round_data a = Ok r) args rs /\
     roundData args = Ok match rs with
                         | [r] => r
                         | _ => VTuple rs
                         end).
Proof.
  split; intros Hb; unfold roundData; rewrite Hb; [reflexivity|].
  destruct (mapM_round_data args Hb) as (rs & Hrs & Hall).
  exists rs. split; [exact Hall|]. cbn [negb].
  destruct Hall as [|a r args rs Hr Hall]; [reflexivity|].
  destruct Hall as [|a' r' args rs Hr' Hall]; [exact Hr|].
  rewrite Hrs. reflexivity.
Qed.

Lemma roundData_spec_witness :
  roundData [VNum (NFloat 0.5); VStr "1"] = Raise TypeError /\
  exists rs, Forall2 (fun a r => round_data a = Ok r) [] rs /\
    roundData [] = Ok match rs with
                      | [r] => r
                      | _ => VTuple rs
                      end.
Proof.
  split.
  - exact (proj1 (roundData_spec [VNum (NFloat 0.5); VStr "1"]) eq_refl).
  - exact (proj2 (roundData_spec []) eq_refl).
Defined.

End RoundingFacts.

Module RandStringFacts.
Import Tools.

Lemma join_choices_length alphabet draws i n :
  String.length (join_choices alphabet draws i n) = n.
Proof. revert i. induction n as [|n IH]; intros i; cbn; [|rewrite IH]; reflexivity. Qed.

Lemma string_all_get (p : ascii -> bool) (s : string) (i : nat) (c : ascii) :
  string_all p s = true -> String.get i s = Some c -> p c = true.
Proof.
  revert i. induction s as [|a s IH]; intros i Hall Hg; [discriminate Hg|].
  cbn in Hall. apply andb_prop in Hall as [Ha Hs].
  destruct i as [|i]; cbn in Hg; [congruence|]. eapply IH; eassumption.
Qed.

Lemma get_in_range (s : string) (i : nat) :
  (i < String.length s)%nat -> exists c, String.get i s = Some c.
Proof.
  revert i. induction s as [|a s IH]; intros i Hi; cbn in Hi; [lia|].
  destruct i as [|i]; cbn; [eauto|]. apply IH. lia.
Qed.

Lemma choice_in (p : ascii -> bool) (seq : string) (draw : nat) :
  String.length seq <> O -> string_all p seq = true ->
  p (choice seq draw) = true.
Proof.
  intros Hlen Hall. unfold choice.
  destruct (get_in_range seq (draw mod String.length seq)) as (c & Hc).
  { apply Nat.mod_upper_bound. exact Hlen. }
  rewrite Hc. eapply string_all_get; eassumption.
Qed.

Lemma join_choices_all (p : ascii -> bool) alphabet draws i n :
  String.length alphabet <> O -> string_all p alphabet = true ->
  string_all p (join_choices alphabet draws i n) = true.
Proof.
  intros Hlen Hall. revert i. induction n as [|n IH]; intros i; cbn;
    [reflexivity|].
  rewrite (choice_in p _ _ Hlen Hall), IH. reflexivity.
Qed.

(** X4. [randString] of an integer length [n] returns a string of exactly
    [n] characters ([0] for a negative [n]), each an ASCII letter or
    digit, and no upper-case letter when [lower] is set, whatever the
    random generator draws; a length that is not an integer raises
    [TypeError]. *)
Theorem randString_spec (draws : nat -> nat) (strLength : pyval) (lower : bool) :
  match strLength with
  | VNum (NInt n) =>
      exists s, randString draws strLength lower = Ok s /\
        String.length s = Z.to_nat n /\ string_all is_alnum s = true /\
        (lower = true -> string_all is_lower_alnum s = true)
  | VBool _ => exists s, randString draws strLength lower = Ok s
  | _ => randString draws strLength lower = Raise TypeError
  end.
Proof.
  destruct strLength as [|b|[n|q]| | | |]; try reflexivity.
  - eexists. reflexivity.
  - eexists. split; [reflexivity|]. split; [apply join_choices_length|].
    split.
    + apply join_choices_all; destruct lower; try reflexivity; discriminate.
    + intros ->. apply join_choices_all; [discriminate|reflexivity].
Qed.

End RandStringFacts.

(* ===================================================================== *)
(** ** Further theorems: model names *)
(* ===================================================================== *)

Module NormalizeFacts.
Import StringFacts ToolsFacts CrtElementFacts.

Ltac bool_to_prop :=
  repeat first [ rewrite andb_true_iff | rewrite orb_true_iff
               | rewrite Nat.eqb_eq | rewrite Nat.leb_le ].

(** The bytes of a white-space character of two or three bytes are all
    above the ASCII range. *)
Lemma is_space2_high (a b : ascii) :
  is_space2 a b = true ->
  (128 <= nat_of_ascii a)%nat /\ (128 <= nat_of_ascii b)%nat.
Proof. unfold is_space2. cbn zeta. bool_to_prop. lia. Qed.

Lemma is_space3_high (a b c : ascii) :
  is_space3 a b c = true ->
  (128 <= nat_of_ascii a)%nat /\ (128 <= nat_of_ascii b)%nat /\
  (128 <= nat_of_ascii c)%nat.
Proof. unfold is_space3. cbn zeta. bool_to_prop. lia. Qed.

(** [underscore] changes a space or a hyphen into an underscore, three
    ASCII characters of which only the space is white space. *)
Lemma underscore_cases (c : ascii) :
  underscore c = c /\ c <> " "%char \/
  underscore c = "_"%char /\ (nat_of_ascii c < 128)%nat.
Proof.
  unfold underscore.
  destruct (Ascii.eqb_spec c " ") as [->|Hs]; [right; split; [reflexivity|apply Nat.ltb_lt; reflexivity]|].
  destruct (Ascii.eqb_spec c "-") as [->|Hh]; [right; split; [reflexivity|apply Nat.ltb_lt; reflexivity]|].
  left. auto.
Qed.

Lemma underscore_high (c : ascii) :
  (128 <= nat_of_ascii (underscore c))%nat -> underscore c = c.
Proof.
  destruct (underscore_cases c) as [[E _]|[E _]]; rewrite E; [reflexivity|].
  intros H. apply Nat.leb_le in H. discriminate H.
Qed.

Lemma underscore_space (c : ascii) :
  is_space (underscore c) = true -> underscore c = c.
Proof.
  destruct (underscore_cases c) as [[E _]|[E _]]; rewrite E; [reflexivity|].
  discriminate.
Qed.

(** A white-space character at the front of the renamed string was there
    before. *)
Lemma skip_space_map (s r' : string) :
  skip_space (map_string underscore s) = Some r' ->
  exists r, skip_space s = Some r /\ r' = map_string underscore r.
Proof.
  destruct s as [|a s]; [discriminate|]. cbn [map_string skip_space].
  destruct (is_space (underscore a)) eqn:Ha.
  { intros [= <-]. rewrite (underscore_space _ Ha) in Ha. rewrite Ha. eauto. }
  destruct s as [|b s]; [discriminate|]. cbn [map_string].
  destruct (is_space2 (underscore a) (underscore b)) eqn:Hb.
  { intros [= <-]. destruct (is_space2_high _ _ Hb) as [H1 H2].
    rewrite (underscore_high _ H1), (underscore_high _ H2) in Hb.
    rewrite (underscore_high _ H1) in Ha. rewrite Ha, Hb. eauto. }
  destruct s as [|c s]; [discriminate|]. cbn [map_string].
  destruct (is_space3 (underscore a) (underscore b) (underscore c)) eqn:Hc;
    [|discriminate].
  intros [= <-]. destruct (is_space3_high _ _ _ Hc) as (H1 & H2 & H3).
  assert (Ea := underscore_high _ H1). assert (Eb := underscore_high _ H2).
  assert (Ec := underscore_high _ H3).
  rewrite Ea, Eb, Ec in Hc. rewrite Ea in Ha, Hb. rewrite Eb in Hb.
  rewrite Ha, Hb, Hc. eauto.
Qed.

Lemma skip_space_map_None (s : string) :
  skip_space s = None -> skip_space (map_string underscore s) = None.
Proof.
  intros Hs. destruct (skip_space (map_string underscore s)) as [r'|] eqn:Hm;
    [|reflexivity].
  apply skip_space_map in Hm as (r & Hr & _). congruence.
Qed.

Lemma is_one_space_map (s : string) :
  is_one_space s = false -> is_one_space (map_string underscore s) = false.
Proof.
  unfold is_one_space. intros Hs.
  destruct (skip_space (map_string underscore s)) as [r'|] eqn:Hm;
    [|reflexivity].
  apply skip_space_map in Hm as (r & Hr & ->). rewrite Hr in Hs.
  destruct r; [discriminate Hs|reflexivity].
Qed.

Lemma ends_with_space_map (s : string) :
  ends_with_space s = false ->
  ends_with_space (map_string underscore s) = false.
Proof.
  induction s as [|a s IH]; [reflexivity|].
  cbn [ends_with_space map_string]. intros H.
  apply orb_false_iff in H as [H1 H2].
  change (String (underscore a) (map_string underscore s))
    with (map_string underscore (String a s)).
  rewrite (is_one_space_map _ H1), (IH H2). reflexivity.
Qed.

Lemma lstrip_fixed (s : string) : skip_space s = None -> lstrip s = s.
Proof. intros Hs. rewrite lstrip_eq, Hs. reflexivity. Qed.

Lemma rstrip_fixed (s : string) : ends_with_space s = false -> rstrip s = s.
Proof.
  induction s as [|a s IH]; [reflexivity|].
  cbn [ends_with_space rstrip]. intros H.
  apply orb_false_iff in H as [H1 H2]. rewrite (IH H2). cbn zeta.
  rewrite H1. reflexivity.
Qed.

Lemma underscore_idempotent (c : ascii) :
  underscore (underscore c) = underscore c.
Proof.
  unfold underscore.
  destruct (Ascii.eqb c " " || Ascii.eqb c "-") eqn:E; [reflexivity|].
  rewrite E. reflexivity.
Qed.

Lemma underscore_clean (c : ascii) : not_space_or_hyphen (underscore c) = true.
Proof.
  unfold underscore, not_space_or_hyphen.
  destruct (Ascii.eqb c " ") eqn:E1; [reflexivity|].
  destruct (Ascii.eqb c "-") eqn:E2; [reflexivity|].
  cbn. rewrite E1, E2. reflexivity.
Qed.

Lemma string_all_map (p : ascii -> bool) (f : ascii -> ascii) (s : string) :
  (forall c, p (f c) = true) -> string_all p (map_string f s) = true.
Proof.
  intros Hp. induction s as [|c s IH]; [reflexivity|].
  cbn. rewrite Hp, IH. reflexivity.
Qed.

Lemma normalize_name_clean (name : string) :
  string_all not_space_or_hyphen (normalize_name name) = true.
Proof.
  destruct (normalize_name_spec name) as [_ Hn].
  rewrite Hn. apply string_all_map. exact underscore_clean.
Qed.

Lemma normalize_name_twice (name : string) :
  normalize_name (normalize_name name) = normalize_name name.
Proof.
  destruct (normalize_name_spec name) as [(l & r & _ & _ & _ & Hf & Hl) Hn].
  destruct (normalize_name_spec (normalize_name name)) as [_ Hn2].
  rewrite Hn2. clear Hn2.
  assert (Hs : strip (normalize_name name) = normalize_name name).
  { unfold strip. rewrite lstrip_fixed.
    - apply rstrip_fixed. rewrite Hn. apply ends_with_space_map. exact Hl.
    - rewrite Hn. apply skip_space_map_None. exact Hf. }
  rewrite Hs, Hn, map_string_compose. apply map_string_ext.
  exact underscore_idempotent.
Qed.

(** X6. A normalised model name holds neither a space nor a hyphen, and
    normalising it again changes nothing, whatever white space of
    [str.strip], ASCII or not, the name came with. *)
Theorem normalize_name_idempotent (name : string) :
  string_all not_space_or_hyphen (normalize_name name) = true /\
  normalize_name (normalize_name name) = normalize_name name.
Proof. split; [apply normalize_name_clean|apply normalize_name_twice]. Qed.

End NormalizeFacts.

(* ===================================================================== *)
(** ** Further theorems: reading and searching save files *)
(* ===================================================================== *)

Module SearchMoreFacts.
Import Sample SampleFiles.

Section WithEnvironment.
Context {interp : Interpreter} {pkg : Package}.

Lemma search_experiment_loop_found files sav_name savs aSav sav :
  search_experiment_loop files sav_name savs = Ok (Some (aSav, sav)) ->
  exists before rest, savs = before ++ aSav :: rest /\
    Forall (no_match files sav_name) before /\
    _open_sav files (path_join SAV_PATH_DIR aSav) = Ok sav /\
    exists name, py_getitem sav "InternalName" = Ok name /\
      is_string_value name sav_name = true.
Proof.
  induction savs as [|a savs IH]; cbn [search_experiment_loop];
    [discriminate|].
  intros Hs.
  destruct (_open_sav files (path_join SAV_PATH_DIR a)) as [d|e] eqn:Ho.
  - destruct (py_getitem d "InternalName") as [name|] eqn:Hg; [|discriminate].
    cbn in Hs. destruct (is_string_value name sav_name) eqn:Hv.
    + injection Hs as -> ->. exists [], savs.
      split; [reflexivity|]. split; [constructor|]. split; [exact Ho|].
      exists name. auto.
    + destruct (IH Hs) as (before & rest & -> & Hb & Hopen).
      exists (a :: before), rest. split; [reflexivity|].
      split; [|exact Hopen].
      constructor; [|exact Hb]. right. exists d, name. auto.
  - destruct e; try discriminate.
    destruct (IH Hs) as (before & rest & -> & Hb & Hopen).
    exists (a :: before), rest. split; [reflexivity|].
    split; [|exact Hopen].
    constructor; [|exact Hb]. left. exact Ho.
Qed.

Lemma search_experiment_loop_skip_all files sav_name before rest :
  Forall (no_match files sav_name) before ->
  search_experiment_loop files sav_name (before ++ rest)
  = search_experiment_loop files sav_name rest.
Proof.
  induction 1 as [|b before Hn _ IH]; [reflexivity|].
  cbn [app search_experiment_loop].
  destruct Hn as [Hn|(sav & name & Hn & Hg & Hv)]; cbn zeta in Hn;
    rewrite Hn; [|rewrite Hg; cbn; rewrite Hv]; exact IH.
Qed.

(** X8. What [search_experiment] finds is sound and is the first match:
    the file name it returns is a name of the save directory that ends in
    [.sav], the document it returns is what [_open_sav] reads from that
    file, the [InternalName] of the document is the name asked for, and
    every [.sav] file listed before it is either not a save or has another
    name. *)
Theorem search_experiment_found files sav_name aSav sav :
  search_experiment files sav_name = Ok (Some (aSav, sav)) ->
  exists listing before rest,
    walk_files files SAV_PATH_DIR = Ok listing /\
    _get_all_pl_sav files = Ok (before ++ aSav :: rest) /\
    aSav ∈ listing /\ endswith aSav ".sav" = true /\
    Forall (no_match files sav_name) before /\
    _open_sav files (path_join SAV_PATH_DIR aSav) = Ok sav /\
    exists name, py_getitem sav "InternalName" = Ok name /\
      is_string_value name sav_name = true.
Proof.
  unfold search_experiment, _get_all_pl_sav. intros Hs.
  destruct (walk_files files SAV_PATH_DIR) as [listing|] eqn:Hw;
    [|discriminate Hs].
  cbn in Hs.
  destruct (search_experiment_loop_found _ _ _ _ _ Hs)
    as (before & rest & Hsavs & Hb & Ho & Hname).
  exists listing, before, rest. split; [reflexivity|].
  split; [cbn; rewrite Hsavs; reflexivity|].
  assert (Hin : aSav ∈ filter (fun a => Is_true (endswith a ".sav")) listing).
  { rewrite Hsavs. apply elem_of_app. right. left. }
  apply list_elem_of_filter in Hin as [Hend Hin].
  split; [exact Hin|]. split; [apply Is_true_true; exact Hend|].
  auto.
Qed.

(** X9. [search_experiment] passes over a file only for [InvalidSavError].
    Any other exception of [_open_sav], and the exception of reading
    [InternalName] from a document that was decoded ([KeyError] when the
    key is missing, [TypeError] when the document is not an object), ends
    the search and is raised to the caller. *)
Theorem search_experiment_raises files sav_name before aSav rest e :
  _get_all_pl_sav files = Ok (before ++ aSav :: rest) ->
  Forall (no_match files sav_name) before ->
  (_open_sav files (path_join SAV_PATH_DIR aSav) = Raise e /\
   e <> InvalidSavError) \/
  (exists sav, _open_sav files (path_join SAV_PATH_DIR aSav) = Ok sav /\
     py_getitem sav "InternalName" = Raise e) ->
  search_experiment files sav_name = Raise e.
Proof.
  intros Hsavs Hb He. unfold search_experiment. rewrite Hsavs. cbn.
  rewrite (search_experiment_loop_skip_all _ _ _ _ Hb).
  cbn [search_experiment_loop].
  destruct He as [[Ho Hne]|(sav & Ho & Hg)]; rewrite Ho.
  - destruct e; try reflexivity. contradiction.
  - rewrite Hg. reflexivity.
Qed.

End WithEnvironment.

Lemma search_experiment_found_witness :
  exists listing before rest,
    walk_files (Interpreter := plain) files SAV_PATH_DIR = Ok listing /\
    _get_all_pl_sav (interp := plain) files = Ok (before ++ "a.sav" :: rest) /\
    "a.sav" ∈ listing /\ endswith "a.sav" ".sav" = true /\
    Forall (no_match (interp := plain) files "T1") before /\
    _open_sav (interp := plain) files
      (path_join (Interpreter := plain) SAV_PATH_DIR "a.sav")
      = Ok SampleData.circuit_sav /\
    exists name, py_getitem SampleData.circuit_sav "InternalName" = Ok name /\
      is_string_value name "T1" = true.
Proof.
  exact (search_experiment_found (interp := plain) files "T1" "a.sav"
    SampleData.circuit_sav eq_refl).
Defined.

Lemma search_experiment_raises_witness :
  search_experiment (interp := plain)
    [("/sav/broken.sav", "garbage"); ("/sav/list.sav", "{camera}")] "T1"
  = Raise KeyError.
Proof.
  assert (Hsavs : _get_all_pl_sav (interp := plain)
            [("/sav/broken.sav", "garbage"); ("/sav/list.sav", "{camera}")]
          = Ok (["broken.sav"] ++ "list.sav" :: [])) by reflexivity.
  apply (search_experiment_raises (interp := plain) _ "T1" _ _ _ KeyError
    Hsavs).
  - apply Forall_cons_2; [left; reflexivity|apply Forall_nil_2].
  - right. exists SampleData.camera. split; reflexivity.
Defined.

End SearchMoreFacts.

Module OpenSavMoreFacts.
Import Sample SampleFiles OpenSavFacts.

Section WithEnvironment.
Context {interp : Interpreter}.

(** X10. [_open_sav] recovers from a decoding error only. A path that
    does not exist fails the assertion, and an exception of reading the
    file as UTF-8 that is not [UnicodeDecodeError] is raised as it is,
    before any fallback is tried. *)
Theorem open_sav_raises files path :
  (path_exists files path = false ->
   _open_sav files path = Raise AssertionError) /\
  (forall e, path_exists files path = true ->
     read_text files path (Some "utf-8") = Raise e ->
     e <> UnicodeDecodeError -> _open_sav files path = Raise e).
Proof.
  split.
  - intros Hex. unfold _open_sav. rewrite Hex. reflexivity.
  - intros e Hex Hr Hne. unfold _open_sav, encode_sav. rewrite Hex, Hr. cbn.
    destruct e; try reflexivity. contradiction.
Qed.

(** X11. Without [chardet] the encodings are tried in the order UTF-8,
    [utf-8-sig], [gbk], and the first one that gives a document decides:
    the document of [utf-8-sig] is returned whatever [gbk] would give, and
    the document of [gbk] only when the two before it gave none. *)
Theorem open_sav_first_fallback_wins files path d :
  chardet = None -> path_exists files path = true ->
  encode_sav files path (Some "utf-8") = Ok VNone -> d <> VNone ->
  (encode_sav files path (Some "utf-8-sig") = Ok d ->
   _open_sav files path = Ok d) /\
  (encode_sav files path (Some "utf-8-sig") = Ok VNone ->
   encode_sav files path (Some "gbk") = Ok d ->
   _open_sav files path = Ok d).
Proof.
  intros Hc Hex H8 Hd.
  rewrite (open_sav_after_utf8 _ _ Hex H8), Hc.
  unfold fallback_encodings. cbn [try_encodings].
  split.
  - intros Hs. rewrite Hs. cbn. destruct d; try reflexivity. contradiction.
  - intros Hs Hg. rewrite Hs. cbn. rewrite Hg. cbn.
    destruct d; try reflexivity. contradiction.
Qed.

End WithEnvironment.

Lemma open_sav_raises_witness :
  _open_sav (interp := plain) files "/sav/none.sav" = Raise AssertionError /\
  _open_sav (interp := SampleMore.locked) SampleMore.locked_files
    "/sav/locked.sav" = Raise OSError.
Proof.
  split.
  - exact (proj1 (open_sav_raises (interp := plain) files "/sav/none.sav")
      eq_refl).
  - refine (proj2 (open_sav_raises (interp := SampleMore.locked)
      SampleMore.locked_files "/sav/locked.sav") OSError eq_refl eq_refl _).
    discriminate.
Defined.

Lemma open_sav_first_fallback_wins_witness :
  _open_sav (interp := plain) files "/sav/g.sav" = Ok gbk_sav.
Proof.
  refine (proj2 (open_sav_first_fallback_wins (interp := plain) files
    "/sav/g.sav" gbk_sav eq_refl eq_refl eq_refl _) eq_refl eq_refl).
  discriminate.
Defined.

End OpenSavMoreFacts.

(* ===================================================================== *)
(** ** Further theorems: the loader *)
(* ===================================================================== *)

Module LoaderMoreFacts.
Import MonadFacts DictFacts LoadFacts LoaderFacts Sample.

Section WithEnvironment.
Context {interp : Interpreter} {pkg : Package} {cat : Catalogue}.

Lemma load_elements_loop_all t l new els0 :
  Forall2 (fun element obj => load_element t element = Ok obj) l new ->
  load_elements_loop t l els0 = Ok (els0 ++ new).
Proof.
  intros Hall. revert els0.
  induction Hall as [|element obj l new Hl _ IH]; intros els0; cbn.
  - rewrite app_nil_r. reflexivity.
  - rewrite Hl. cbn. rewrite IH, <- app_assoc. reflexivity.
Qed.

Lemma load_elements_loop_fails t before element rest e els0 :
  Forall (fun x => exists obj, load_element t x = Ok obj) before ->
  load_element t element = Raise e ->
  load_elements_loop t (before ++ element :: rest) els0 = Raise e.
Proof.
  intros Hb He. revert els0.
  induction Hb as [|b before [obj Hobj] _ IH]; intros els0; cbn.
  - rewrite He. reflexivity.
  - rewrite Hobj. cbn. apply IH.
Qed.

(** X12. [__load_elements] loads the records in the stored order. It
    returns exactly when every record loads, and [Elements] has then gained
    one element for each record, in that order, after the elements that
    were there; otherwise it raises the exception of the first record that
    fails to load. An argument that is not a list fails the assertion. *)
Theorem load_elements_in_order t (v : pyval) (els0 : list Element) :
  (forall l, v = VList l ->
     (forall els, Experiment_load_elements t v els0 = Ok els <->
        exists new, els = els0 ++ new /\
          Forall2 (fun element obj => load_element t element = Ok obj) l new) /\
     (forall before element rest e, l = before ++ element :: rest ->
        Forall (fun x => exists obj, load_element t x = Ok obj) before ->
        load_element t element = Raise e ->
        Experiment_load_elements t v els0 = Raise e)) /\
  ((forall l, v <> VList l) ->
   Experiment_load_elements t v els0 = Raise AssertionError).
Proof.
  split.
  - intros l ->. split.
    + intros els. split.
      * apply load_elements_loop_app.
      * intros (new & -> & Hall). apply load_elements_loop_all. exact Hall.
    + intros before element rest e -> Hb He.
      apply load_elements_loop_fails; assumption.
  - intros Hv. destruct v as [| | | | |l|]; try reflexivity.
    contradiction (Hv l eq_refl).
Qed.

(** X13. A decoded element carries the identifier of its stored record,
    for every experiment type: the [Identifier] in the [data] of the
    element is the stored one. *)
Theorem load_element_keeps_identifier t (d : pydict) obj :
  load_element t (VDict d) = Ok obj ->
  dict_find (data obj) "Identifier" = dict_find d "Identifier" /\
  (t = Circuit -> exists identifier,
     dict_find d "Identifier" = Some identifier).
Proof.
  intros Hl. destruct t.
  - unfold load_element in Hl.
    bind_inv Hl pos Epos. bind_inv Hl xzy Exzy. destruct xzy as [[a b] c].
    bind_inv Hl ModelID Em. bind_inv Hl o Eo. bind_inv Hl rot Erot.
    bind_inv Hl r Er. bind_inv Hl r_x Ex. bind_inv Hl r_y Ey.
    bind_inv Hl r_z Ez. cbn zeta in Hl. bind_inv Hl identifier Ei.
    injection Hl as <-. cbn [data set_data set_rotation].
    cbn in Ei. apply dict_get_Ok in Ei.
    rewrite dict_find_set_eq, Ei. eauto.
  - apply load_element_other in Hl as [_ Hd]; [|discriminate].
    injection Hd as ->. split; [reflexivity|discriminate].
  - apply load_element_other in Hl as [_ Hd]; [|discriminate].
    injection Hd as ->. split; [reflexivity|discriminate].
Qed.

Lemma collect_notes_member props key val n ns :
  dict_find props key = Some val -> startswith key "音高" = true ->
  py_int val = Ok n -> collect_notes props = Ok ns -> n ∈ ns.
Proof.
  intros Hf Hk Hn. revert ns.
  induction props as [|[k v] props IH]; intros ns Hc; cbn in Hf;
    [discriminate Hf|].
  cbn [collect_notes] in Hc.
  destruct (String.eqb_spec k key) as [->|Hne].
  - injection Hf as ->. rewrite Hk in Hc.
    bind_inv Hc n' En. bind_inv Hc ns' Ens. injection Hc as <-.
    assert (n' = n) as -> by congruence. left.
  - destruct (startswith k "音高").
    + bind_inv Hc n' En. bind_inv Hc ns' Ens. injection Hc as <-.
      right. apply IH; assumption.
    + apply IH; assumption.
Qed.

Lemma collect_notes_length props ns :
  collect_notes props = Ok ns -> length ns = count_prefixed "音高" props.
Proof.
  revert ns. induction props as [|[k v] props IH]; intros ns Hc;
    cbn [collect_notes] in Hc.
  - injection Hc as <-. reflexivity.
  - unfold count_prefixed. cbn [List.filter fst].
    destruct (startswith k "音高").
    + bind_inv Hc n' En. bind_inv Hc ns' Ens. injection Hc as <-.
      cbn. f_equal. apply IH. exact Ens.
    + apply IH. exact Hc.
Qed.

(** X14. A Simple Instrument is rebuilt from its stored properties: the
    instrument is 0 when the key "乐器" is absent, one note is added for
    every property whose key starts with "音高", and since the key "音高"
    itself is one of them the pitch of the instrument is always among its
    notes. *)
Theorem load_simple_instrument_notes element x y z obj :
  load_simple_instrument element x y z = Ok obj ->
  exists props instrument pitch velocity rated_oltage ideal single,
    py_getitem element "Properties" = Ok (VDict props) /\
    ctor obj = Simple_Instrument x y z false instrument pitch velocity
                 rated_oltage ideal single /\
    (dict_find props "乐器" = None -> instrument = 0) /\
    pitch ∈ notes obj /\
    length (notes obj) = count_prefixed "音高" props.
Proof.
  unfold load_simple_instrument. intros Hl.
  bind_inv Hl properties Ep.
  destruct properties as [| | | | | |props]; try discriminate Hl.
  bind_inv Hl instrument Ei. bind_inv Hl pitch Epi.
  bind_inv Hl velocity Ev. bind_inv Hl rated Er.
  bind_inv Hl ideal Eid. bind_inv Hl single Es.
  bind_inv Hl o Eo. bind_inv Hl ns En.
  injection Hl as <-.
  apply construct_Ok in Eo as (Hc & _ & _ & _).
  exists props, instrument, pitch, velocity, rated, ideal, single.
  cbn [ctor notes set_notes].
  split; [exact Ep|]. split; [exact Hc|]. split; [|split].
  - intros Hnone. rewrite Hnone in Ei. cbn in Ei. congruence.
  - bind_inv Epi val Eval. apply dict_get_Ok in Eval.
    eapply collect_notes_member; [exact Eval|reflexivity|exact Epi|exact En].
  - apply collect_notes_length. exact En.
Qed.

(** [__load] never changes the [Experiment] region of the document. *)
Lemma Experiment_load_keeps_experiment (PlSav : pyval) (l : Loaded) :
  Experiment_load PlSav = Ok l ->
  py_getitem (l_PlSav l) "Experiment" = py_getitem PlSav "Experiment" /\
  exists experiment type,
    py_getitem PlSav "Experiment" = Ok experiment /\
    py_getitem experiment "Type" = Ok type /\
    type_of_value type = Ok (l_experiment_type l).
Proof.
  unfold Experiment_load. intros Hl.
  bind_inv Hl experiment Ee. bind_inv Hl text Et. bind_inv Hl u Eu.
  bind_inv Hl camera Ec. bind_inv Hl vc Evc. bind_inv Hl vision Ev.
  bind_inv Hl tr Etr. bind_inv Hl target Eta. bind_inv Hl summary Es.
  bind_inv Hl PlSav' Ep. bind_inv Hl experiment' Ee'.
  bind_inv Hl type Ety. bind_inv Hl t Ett. injection Hl as <-.
  cbn [l_PlSav l_experiment_type].
  assert (Hsame : py_getitem PlSav' "Experiment" = py_getitem PlSav "Experiment").
  { destruct summary; try (injection Ep as <-; reflexivity).
    bind_inv Ep ts Ets.
    destruct PlSav as [| | | | | |d]; try discriminate Ep.
    injection Ep as <-. cbn. unfold dict_get.
    rewrite dict_find_set_ne by discriminate. reflexivity. }
  split; [exact Hsame|]. exists experiment, type.
  rewrite Hsame in Ee'. assert (experiment' = experiment) as -> by congruence.
  auto.
Qed.

(** X15. [__load] passes the document through: the [Experiment] region is
    never changed, the whole document is unchanged when it has a
    [Summary], and a [Summary] that is [None] is replaced by the one of
    the Circuit template, whatever the type of the experiment. The type
    it reports is one whose value equals the stored [Type]. *)
Theorem Experiment_load_passes_document (PlSav : pyval) (l : Loaded) :
  Experiment_load PlSav = Ok l ->
  py_getitem (l_PlSav l) "Experiment" = py_getitem PlSav "Experiment" /\
  (exists summary, py_getitem PlSav "Summary" = Ok summary /\
     (summary <> VNone -> l_PlSav l = PlSav) /\
     (summary = VNone ->
      exists template_summary,
        py_getitem (savTemplate Circuit) "Summary" = Ok template_summary /\
        py_setitem PlSav "Summary" template_summary = Ok (l_PlSav l))) /\
  (exists experiment type,
     py_getitem PlSav "Experiment" = Ok experiment /\
     py_getitem experiment "Type" = Ok type /\
     is_type_value type (l_experiment_type l) = true).
Proof.
  unfold Experiment_load. intros Hl.
  bind_inv Hl experiment Ee. bind_inv Hl text Et. bind_inv Hl u Eu.
  bind_inv Hl camera Ec. bind_inv Hl vc Evc. bind_inv Hl vision Ev.
  bind_inv Hl tr Etr. bind_inv Hl target Eta. bind_inv Hl summary Es.
  bind_inv Hl PlSav' Ep. bind_inv Hl experiment' Ee'.
  bind_inv Hl type Ety. bind_inv Hl t Ett. injection Hl as <-.
  cbn [l_PlSav l_experiment_type].
  assert (Hsame : py_getitem PlSav' "Experiment" = py_getitem PlSav "Experiment").
  { destruct summary; try (injection Ep as <-; reflexivity).
    bind_inv Ep ts Ets.
    destruct PlSav as [| | | | | |d]; try discriminate Ep.
    injection Ep as <-. cbn. unfold dict_get.
    rewrite dict_find_set_ne by discriminate. reflexivity. }
  split; [exact Hsame|]. split.
  - exists summary. split; [exact Es|]. split.
    + intros Hne. destruct summary; try (injection Ep as <-; reflexivity).
      contradiction.
    + intros ->. bind_inv Ep ts Ets. exists ts. auto.
  - exists experiment, type. rewrite Hsame in Ee'.
    assert (experiment' = experiment) as -> by congruence.
    split; [exact Ee|]. split; [exact Ety|].
    unfold type_of_value in Ett. repeat case_match; try discriminate Ett;
      injection Ett as <-; assumption.
Qed.

End WithEnvironment.

Lemma load_elements_in_order_witness :
  Experiment_load_elements (interp := SampleData.plain) Celestial
    (VList [SampleData.celestial_element "Sun" "1,2,3"; VStr "Earth"]) []
  = Raise TypeError /\
  Experiment_load_elements (interp := SampleData.plain) Celestial
    (VTuple [SampleData.celestial_element "Sun" "1,2,3"]) []
  = Raise AssertionError.
Proof.
  split.
  - apply (proj2 (proj1 (load_elements_in_order (interp := SampleData.plain)
      Celestial _ []) _ eq_refl)
      [SampleData.celestial_element "Sun" "1,2,3"] (VStr "Earth") [] TypeError
      eq_refl).
    + apply Forall_cons_2; [|apply Forall_nil_2]. eexists. reflexivity.
    + reflexivity.
  - apply (proj2 (load_elements_in_order (interp := SampleData.plain)
      Celestial _ [])).
    discriminate.
Defined.

Lemma load_simple_instrument_notes_witness :
  match load_simple_instrument (interp := SampleData.plain)
          SampleMore.simple_instrument_element (int 1) (int 3) (int 2) with
  | Ok obj =>
      exists props instrument pitch velocity rated_oltage ideal single,
        py_getitem SampleMore.simple_instrument_element "Properties"
        = Ok (VDict props) /\
        ctor obj = Simple_Instrument (int 1) (int 3) (int 2) false instrument
                     pitch velocity rated_oltage ideal single /\
        (dict_find props "乐器" = None -> instrument = 0) /\
        pitch ∈ notes obj /\
        length (notes obj) = count_prefixed "音高" props
  | Raise _ => False
  end.
Proof.
  exact (load_simple_instrument_notes (interp := SampleData.plain)
    SampleMore.simple_instrument_element (int 1) (int 3) (int 2) _ eq_refl).
Defined.

Lemma load_element_keeps_identifier_witness :
  match load_element (interp := SampleData.plain) Circuit
          SampleData.circuit_element with
  | Ok obj => dict_find (data obj) "Identifier" = Some (VStr "id1")
  | Raise _ => False
  end.
Proof.
  exact (proj1 (load_element_keeps_identifier (interp := SampleData.plain)
    Circuit
    [("ModelID", VStr "Logic Input"); ("Identifier", VStr "id1");
     ("Position", VStr "1,2,3"); ("Rotation", VStr "0,180,90");
     ("Properties", VDict [("高电平", float 3); ("锁定", float 0)])]
    _ eq_refl)).
Defined.

Lemma Experiment_load_passes_document_witness :
  match Experiment_load (interp := SampleData.plain) SampleData.circuit_sav with
  | Ok l =>
      py_getitem (l_PlSav l) "Experiment"
      = py_getitem SampleData.circuit_sav "Experiment"
  | Raise _ => False
  end.
Proof.
  exact (proj1 (Experiment_load_passes_document (interp := SampleData.plain)
    SampleData.circuit_sav _ eq_refl)).
Defined.

End LoaderMoreFacts.

(* ===================================================================== *)
(** ** Further theorems: the constructor *)
(* ===================================================================== *)

Module ConstructorFacts.
Import MonadFacts DictFacts ExperimentFacts LoaderFacts Sample.

Section WithEnvironment.
Context {interp : Interpreter} {pkg : Package} {cat : Catalogue}.
#[local] Existing Instance io_bind.
#[local] Existing Instance io_ret.

Lemma preserves_world_bind {A B} (m : io A) (f : A -> io B) :
  preserves_world m -> (forall a, preserves_world (f a)) ->
  preserves_world (m ≫= f).
Proof.
  intros Hm Hf w w' r. unfold mbind, io_bind.
  destruct (m w) as [w1 [a|e]] eqn:E1.
  - intros E2. apply Hf in E2 as ->. apply Hm in E1. exact E1.
  - intros [= <- <-]. apply Hm in E1. exact E1.
Qed.

Lemma preserves_world_lift {A} (r : result A) : preserves_world (lift r).
Proof. intros w w' r' [= <- _]. reflexivity. Qed.

Lemma preserves_world_raise {A} (e : exn) : preserves_world (raise (A := A) e).
Proof. intros w w' r' [= <- _]. reflexivity. Qed.

Lemma preserves_world_mret {A} (a : A) : preserves_world (mret (M := io) a).
Proof. intros w w' r' [= <- _]. reflexivity. Qed.

Lemma preserves_world_get_files : preserves_world get_files.
Proof. intros w w' r' [= <- _]. reflexivity. Qed.

Ltac preserves_world_tac :=
  repeat (first
    [ apply preserves_world_raise | apply preserves_world_mret
    | apply preserves_world_lift | apply preserves_world_get_files
    | apply preserves_world_bind; [|intros ?]
    | case_match ]).

(** Without [force_crt] the branch of the mode [crt] does so too. *)
Lemma open_crt_preserves_world token args kwargs :
  kwargs_get kwargs "force_crt" (AVal (VBool false)) = AVal (VBool false) ->
  preserves_world (open_crt token args kwargs).
Proof.
  intros Hk. unfold open_crt. rewrite Hk. cbn [negb].
  preserves_world_tac.
Qed.

(** The outcomes of [__init__] up to the push when the branch of the mode
    leaves the state as it is. *)
Lemma Experiment_open_outcome token m args kwargs (w w' : World) r :
  (forall args,
     preserves_world
       match m with
       | load_by_filepath => open_by_filepath args
       | load_by_sav_name => open_by_sav_name args
       | load_by_plar_app => open_by_plar_app args kwargs
       | crt => open_crt token args kwargs
       end) ->
  Experiment_open token (AOpenMode m) args kwargs w = (w', r) ->
  (w' = w /\ exists x, r = Raise x) \/
  (exists e, r = Ok e /\
     w' = mk_World (files w) (stack w ++ [SAV_PATH e]) (log w)).
Proof.
  intros Hpres. unfold Experiment_open.
  destruct args as [|a args]; [intros [= <- <-]; left; eauto|].
  unfold mbind, io_bind.
  destruct (match m with
            | load_by_sav_name => open_by_sav_name (a :: args)
            | load_by_filepath => open_by_filepath (a :: args)
            | load_by_plar_app => open_by_plar_app (a :: args) kwargs
            | crt => open_crt token (a :: args) kwargs
            end w) as [w1 [e|x]] eqn:Eb.
  - assert (w1 = w) as ->.
    { eapply (Hpres (a :: args)). destruct m; exact Eb. }
    unfold lift. destruct (check_attributes e) as [u|x].
    + unfold push_self, mbind, io_bind, get_stack, set_stack, mret, io_ret,
        ExperimentStack.push. cbn. intros [= <- <-]. right. eauto.
    + intros [= <- <-]. left. eauto.
  - assert (w1 = w) as ->.
    { eapply (Hpres (a :: args)). destruct m; exact Eb. }
    intros [= <- <-]. left. eauto.
Qed.

Lemma Experiment_init_outcome token m args kwargs (w w' : World) r :
  (forall args,
     preserves_world
       match m with
       | load_by_filepath => open_by_filepath args
       | load_by_sav_name => open_by_sav_name args
       | load_by_plar_app => open_by_plar_app args kwargs
       | crt => open_crt token args kwargs
       end) ->
  Experiment_init token (AOpenMode m) args kwargs w = (w', r) ->
  (w' = w /\ exists x, r = Raise x) \/
  (exists e0, Experiment_open token (AOpenMode m) args kwargs w = (w', Ok e0)
     /\ w' = mk_World (files w) (stack w ++ [SAV_PATH e0]) (log w)).
Proof.
  intros Hpres. unfold Experiment_init, mbind, io_bind.
  destruct (Experiment_open token (AOpenMode m) args kwargs w)
    as [w1 [e0|x]] eqn:Eo.
  - destruct (Experiment_open_outcome _ _ _ _ _ _ _ Hpres Eo)
      as [[_ [x Hx]]|(e & He & Hw)]; [discriminate Hx|].
    injection He as <-.
    intros Hi. right. exists e0.
    assert (w' = w1) as ->.
    { destruct (open_mode e0); unfold lift, mret, io_ret in Hi;
        injection Hi as <- _; reflexivity. }
    auto.
  - destruct (Experiment_open_outcome _ _ _ _ _ _ _ Hpres Eo)
      as [[-> _]|(e & He & _)]; [|discriminate He].
    intros [= <- <-]. left. eauto.
Qed.

(** X17. The load modes report a missing experiment before anything else
    happens: a file path that does not exist raises [FileNotFoundError],
    a name that no save of the directory carries raises
    [ExperimentNotExistError], and the state is left as it was. *)
Theorem load_modes_not_found token kwargs (w : World) :
  (forall sav_name, path_exists (files w) (abspath sav_name) = false ->
     Experiment_init token (AOpenMode load_by_filepath)
       [AVal (VStr sav_name)] kwargs w = (w, Raise FileNotFoundError)) /\
  (forall sav_name, search_experiment (files w) sav_name = Ok None ->
     Experiment_init token (AOpenMode load_by_sav_name)
       [AVal (VStr sav_name)] kwargs w = (w, Raise ExperimentNotExistError)).
Proof.
  split.
  - intros sav_name Hex.
    unfold Experiment_init, Experiment_open, open_by_filepath, mbind, io_bind,
      get_files. cbn. rewrite Hex. reflexivity.
  - intros sav_name Hs.
    unfold Experiment_init, Experiment_open, open_by_sav_name, mbind, io_bind,
      get_files, lift. cbn. rewrite Hs. reflexivity.
Qed.

End WithEnvironment.

Lemma load_modes_not_found_witness :
  Experiment_init (interp := SampleFiles.plain) "tok"
    (AOpenMode load_by_filepath) [AVal (VStr "/sav/none.sav")] []
    (sample_world [])
  = (sample_world [], Raise FileNotFoundError) /\
  Experiment_init (interp := SampleFiles.plain) "tok"
    (AOpenMode load_by_sav_name) [AVal (VStr "T2")] [] (sample_world [])
  = (sample_world [], Raise ExperimentNotExistError).
Proof.
  pose proof (load_modes_not_found (interp := SampleFiles.plain) "tok" []
    (sample_world [])) as [H1 H2].
  split; [exact (H1 "/sav/none.sav" eq_refl)|exact (H2 "T2" eq_refl)].
Defined.

End ConstructorFacts.

Module ConstructorShapes.
Import MonadFacts DictFacts ExperimentFacts LoaderFacts ConstructorFacts Sample.

Section WithEnvironment.
Context {interp : Interpreter} {pkg : Package} {cat : Catalogue}.
#[local] Existing Instance io_bind.
#[local] Existing Instance io_ret.

Tactic Notation "io_inv" hyp(H) ident(x) ident(w1) ident(E) :=
  apply io_bind_Ok in H; destruct H as (x & w1 & E & H).

Tactic Notation "lift_inv" hyp(E) :=
  apply lift_Ok in E; destruct E as [-> E].

Lemma set_files_Ok f (w w' : World) (u : unit) :
  set_files f w = (w', Ok u) -> w' = mk_World f (stack w) (log w).
Proof. unfold set_files. intros [= <-]. reflexivity. Qed.

(** What a successful branch of the mode [crt] has done. *)
Lemma open_crt_result token args kwargs (w w' : World) e :
  open_crt token args kwargs w = (w', Ok e) ->
  exists sav_name t found,
    args = [AVal (VStr sav_name); AExperimentType t] /\
    search_experiment (files w) sav_name = Ok found /\
    open_mode e = crt /\ experiment_type e = t /\ Elements e = [] /\
    SAV_PATH e = path_join SAV_PATH_DIR (token ++ ".sav") /\
    entitle (savTemplate t) sav_name = Ok (PlSav e) /\
    stack w' = stack w /\ log w' = log w /\
    match found with
    | None => files w' = files w
    | Some (filepath, _) =>
        kwargs_get kwargs "force_crt" (AVal (VBool false)) = AVal (VBool true) /\
        let path := path_join SAV_PATH_DIR filepath in
        let jpg := replace_str ".sav" ".jpg" path in
        exists fs1, os_remove (files w) path = Ok fs1 /\
          if path_exists fs1 jpg then os_remove fs1 jpg = Ok (files w')
          else files w' = fs1
    end.
Proof.
  unfold open_crt. intros Ho.
  destruct args as [|a1 args]; [discriminate Ho|].
  destruct args as [|a2 args]; [repeat case_match; discriminate Ho|].
  destruct a1 as [[| | |sav_name| | |]| | | |]; try discriminate Ho.
  destruct a2 as [| |t| |]; try discriminate Ho.
  destruct args as [|a3 args]; [|discriminate Ho].
  destruct (kwargs_get kwargs "force_crt" (AVal (VBool false)))
    as [[|force| | | | |]| | | |] eqn:Hk; try discriminate Ho.
  io_inv Ho fs0 w1 E0. apply get_files_Ok in E0 as [-> ->].
  io_inv Ho found w1 Ef. lift_inv Ef.
  io_inv Ho u w2 Eu.
  destruct (new_camera t) as [[camera vision] target].
  io_inv Ho pl w3 Ep. lift_inv Ep. apply mret_Ok in Ho as [-> ->].
  exists sav_name, t, found. cbn [open_mode experiment_type Elements SAV_PATH
    PlSav].
  split; [reflexivity|]. split; [exact Ef|]. split; [reflexivity|].
  split; [reflexivity|]. split; [reflexivity|]. split; [reflexivity|].
  split; [exact Ep|].
  destruct found as [[filepath sav]|].
  - destruct force; cbn [negb] in Eu; [|discriminate Eu].
    io_inv Eu fs1 w4 E1. lift_inv E1.
    io_inv Eu u1 w5 E2. apply set_files_Ok in E2 as ->.
    cbn zeta in Eu.
    destruct (path_exists fs1
      (replace_str ".sav" ".jpg" (path_join SAV_PATH_DIR filepath))) eqn:Hj.
    + io_inv Eu fs2 w6 E3. lift_inv E3. apply set_files_Ok in Eu as ->.
      cbn [files stack log]. repeat split; try reflexivity.
      exists fs1. split; [exact E1|]. cbn zeta. rewrite Hj. exact E3.
    + apply mret_Ok in Eu as [-> _]. cbn [files stack log].
      repeat split; try reflexivity.
      exists fs1. split; [exact E1|]. cbn zeta. rewrite Hj. reflexivity.
  - apply mret_Ok in Eu as [-> _]. auto.
Qed.

(** X18. Without [force_crt] the mode [crt] never touches a file: whatever
    the outcome the files and the record of calls are as before, and when
    a save with the name exists the constructor raises
    [ExperimentExistError] and leaves the whole state as it was. *)
Theorem crt_without_force token args kwargs (w w' : World) r :
  kwargs_get kwargs "force_crt" (AVal (VBool false)) = AVal (VBool false) ->
  Experiment_init token (AOpenMode crt) args kwargs w = (w', r) ->
  files w' = files w /\ log w' = log w /\
  (forall sav_name t filepath sav,
     args = [AVal (VStr sav_name); AExperimentType t] ->
     search_experiment (files w) sav_name = Ok (Some (filepath, sav)) ->
     w' = w /\ r = Raise ExperimentExistError).
Proof.
  intros Hk Hi. split; [|split].
  - destruct (Experiment_init_outcome token crt args kwargs w w' r
      (fun args0 => open_crt_preserves_world token args0 kwargs Hk) Hi)
      as [[-> _]|(e0 & _ & ->)]; reflexivity.
  - destruct (Experiment_init_outcome token crt args kwargs w w' r
      (fun args0 => open_crt_preserves_world token args0 kwargs Hk) Hi)
      as [[-> _]|(e0 & _ & ->)]; reflexivity.
  - intros sav_name t filepath sav -> Hs. revert Hi.
    unfold Experiment_init, Experiment_open, open_crt, mbind, io_bind,
      get_files, lift. cbn. rewrite Hk, Hs. cbn. intros [= <- <-]. auto.
Qed.

(** X19. A constructor of the mode [crt] that returns has made a new,
    empty experiment of the type asked for, whose path is the save
    directory joined with the random name and [.sav], and has pushed that
    path; the record of calls is untouched. The files are as before when
    no save had the name; otherwise [force_crt] was set, the old save file
    has been removed and, if it existed, the picture with the same name
    and the extension [.jpg] too. *)
Theorem crt_result token args kwargs (w w' : World) e :
  Experiment_init token (AOpenMode crt) args kwargs w = (w', Ok e) ->
  exists sav_name t found,
    args = [AVal (VStr sav_name); AExperimentType t] /\
    search_experiment (files w) sav_name = Ok found /\
    open_mode e = crt /\ experiment_type e = t /\ Elements e = [] /\
    SAV_PATH e = path_join SAV_PATH_DIR (token ++ ".sav") /\
    stack w' = stack w ++ [SAV_PATH e] /\ log w' = log w /\
    match found with
    | None => files w' = files w
    | Some (filepath, _) =>
        kwargs_get kwargs "force_crt" (AVal (VBool false)) = AVal (VBool true) /\
        let path := path_join SAV_PATH_DIR filepath in
        let jpg := replace_str ".sav" ".jpg" path in
        exists fs1, os_remove (files w) path = Ok fs1 /\
          if path_exists fs1 jpg then os_remove fs1 jpg = Ok (files w')
          else files w' = fs1
    end.
Proof.
  unfold Experiment_init. intros Hi. io_inv Hi e0 w1 Eo.
  assert (Hm : open_mode e0 = crt)
    by (apply Experiment_open_Ok in Eo as (Hm & _); exact Hm).
  rewrite Hm in Hi. apply mret_Ok in Hi as [-> ->].
  unfold Experiment_open in Eo.
  destruct args as [|a args]; [discriminate Eo|].
  io_inv Eo e1 w2 Ee. io_inv Eo u w3 Ec. lift_inv Ec.
  io_inv Eo u' w4 Ep. apply push_self_Ok in Ep as ->.
  apply mret_Ok in Eo as [-> ->].
  apply open_crt_result in Ee
    as (sav_name & t & found & Ha & Hs & Hmode & Ht & Hel & Hp & _ & Hst & Hlg & Hf).
  exists sav_name, t, found. cbn [files stack log]. rewrite Hst.
  repeat (split; [assumption || reflexivity|]). exact Hf.
Qed.

(** What a successful branch of a load mode returns. *)
Lemma load_branch_result token m args kwargs (w w' : World) e :
  m <> crt ->
  Experiment_open token (AOpenMode m) args kwargs w = (w', Ok e) ->
  exists path PlSav0 l,
    Experiment_load PlSav0 = Ok l /\ e = loaded_experiment m path l /\
    (m = load_by_filepath ->
     exists sav_name doc, args = [AVal (VStr sav_name)] /\
       path = abspath sav_name /\
       _open_sav (files w) path = Ok (VDict doc) /\
       if dict_mem doc "Experiment" then PlSav0 = VDict doc
       else wrap_in_template (VDict doc) = Ok PlSav0).
Proof.
  intros Hm. unfold Experiment_open. intros Ho.
  destruct args as [|a args]; [discriminate Ho|].
  io_inv Ho e0 w1 Ee. io_inv Ho u w2 Ec. lift_inv Ec.
  io_inv Ho u' w3 Ep. apply mret_Ok in Ho as [_ ->].
  destruct m; [| | |contradiction].
  - unfold open_by_sav_name in Ee.
    repeat case_match; try discriminate Ee. subst.
    io_inv Ee fs0 w4 E0. io_inv Ee found w5 Ef.
    destruct found as [[filename _plsav]|]; [|discriminate Ee].
    io_inv Ee u1 w6 Ech. io_inv Ee l w7 El. lift_inv El.
    apply mret_Ok in Ee as [_ ->].
    eexists _, _, l. split; [exact El|]. split; [reflexivity|discriminate].
  - unfold open_by_filepath in Ee.
    repeat case_match; try discriminate Ee. subst.
    io_inv Ee fs0 w4 E0. apply get_files_Ok in E0 as [-> ->].
    destruct (path_exists (files w) (abspath s)); [|discriminate Ee].
    cbn [negb] in Ee.
    io_inv Ee u1 w5 Ech. apply check_not_opened_Ok in Ech as [-> _].
    io_inv Ee _temp w6 Et. lift_inv Et.
    io_inv Ee PlSav0 w7 Ep0. lift_inv Ep0.
    io_inv Ee l w8 El. lift_inv El.
    apply mret_Ok in Ee as [_ ->].
    exists (abspath s), PlSav0, l.
    split; [exact El|]. split; [reflexivity|]. intros _.
    destruct _temp as [| | | | | |doc]; try discriminate Ep0.
    exists s, doc. split; [reflexivity|]. split; [reflexivity|].
    split; [exact Et|].
    destruct (dict_mem doc "Experiment"); [congruence|exact Ep0].
  - unfold open_by_plar_app in Ee.
    repeat case_match; try discriminate Ee; subst.
    io_inv Ee anonymous w4 Ea.
    destruct (kwargs_get kwargs "user" (AUser anonymous)) as [| | | |user];
      try discriminate Ee.
    io_inv Ee u1 w5 Ech. io_inv Ee _summary w6 Es.
    io_inv Ee ContentID w7 Eci. io_inv Ee _experiment w8 Eex.
    io_inv Ee PlSav0 w9 Ep0. io_inv Ee l w10 El. lift_inv El.
    apply mret_Ok in Ee as [_ ->].
    eexists _, _, l. split; [exact El|]. split; [reflexivity|discriminate].
Qed.

End WithEnvironment.
End ConstructorShapes.

Module ConstructorTheorems.
Import MonadFacts DictFacts ExperimentFacts LoaderFacts LoaderMoreFacts
  ConstructorFacts ConstructorShapes Sample.

Section WithEnvironment.
Context {interp : Interpreter} {pkg : Package} {cat : Catalogue}.
#[local] Existing Instance io_bind.
#[local] Existing Instance io_ret.

Tactic Notation "io_inv" hyp(H) ident(x) ident(w1) ident(E) :=
  apply io_bind_Ok in H; destruct H as (x & w1 & E & H).

(** What [__init__] does after the push, when it succeeds. *)
Lemma load_status_result e e' :
  load_status e = Ok e' ->
  PlSav e' = PlSav e /\ SAV_PATH e' = SAV_PATH e /\
  open_mode e' = open_mode e /\ experiment_type e' = experiment_type e /\
  exists experiment text status l new,
    py_getitem (PlSav e) "Experiment" = Ok experiment /\
    py_getitem experiment "StatusSave" = Ok (VStr text) /\
    json_loads text = Ok status /\
    elements_of_status (experiment_type e) status = Ok (VList l) /\
    Forall2 (fun element obj => load_element (experiment_type e) element = Ok obj)
      l new /\
    Elements e' = Elements e ++ new.
Proof.
  unfold load_status. intros Hl.
  bind_inv Hl ex Ee. bind_inv Hl text Et. bind_inv Hl status Es.
  bind_inv Hl els0 E0. bind_inv Hl els E1. cbn zeta in Hl.
  cbn [experiment_type with_Elements] in Hl.
  destruct text as [| | |text| | |]; try discriminate Es.
  destruct els0 as [| | | | |l|]; try discriminate E1.
  cbn in E1. apply load_elements_loop_app in E1 as (new & -> & Hall).
  assert (Hgoal : forall e'', PlSav e'' = PlSav e -> SAV_PATH e'' = SAV_PATH e ->
            open_mode e'' = open_mode e ->
            experiment_type e'' = experiment_type e ->
            Elements e'' = Elements e ++ new ->
            PlSav e'' = PlSav e /\ SAV_PATH e'' = SAV_PATH e /\
            open_mode e'' = open_mode e /\
            experiment_type e'' = experiment_type e /\
            exists experiment text status l new,
              py_getitem (PlSav e) "Experiment" = Ok experiment /\
              py_getitem experiment "StatusSave" = Ok (VStr text) /\
              json_loads text = Ok status /\
              elements_of_status (experiment_type e) status = Ok (VList l) /\
              Forall2 (fun element obj =>
                load_element (experiment_type e) element = Ok obj) l new /\
              Elements e'' = Elements e ++ new).
  { intros e'' H1 H2 H3 H4 H5. repeat (split; [assumption|]).
    exists ex, text, status, l, new. auto 10. }
  destruct (experiment_type e) eqn:Ht.
  - bind_inv Hl ws0 Ew0. bind_inv Hl ws1 Ew1. bind_inv Hl ws Ew.
    injection Hl as <-. apply Hgoal; auto.
  - injection Hl as <-. apply Hgoal; auto.
  - injection Hl as <-. apply Hgoal; auto.
Qed.

Lemma Experiment_init_load_Ok token m args kwargs (w w' : World) e :
  m <> crt ->
  Experiment_init token (AOpenMode m) args kwargs w = (w', Ok e) ->
  exists e0, Experiment_open token (AOpenMode m) args kwargs w = (w', Ok e0)
    /\ load_status e0 = Ok e.
Proof.
  intros Hm. unfold Experiment_init. intros Hi. io_inv Hi e0 w1 Eo.
  assert (Hmode : open_mode e0 = m)
    by (apply Experiment_open_Ok in Eo as (Hmode & _); exact Hmode).
  exists e0. rewrite Hmode in Hi.
  destruct m; try contradiction; apply lift_Ok in Hi as [-> Hi]; auto.
Qed.

(** X20. A load by file path keeps the document of the file: the
    experiment has the absolute path of the file, and the [Experiment]
    region of its document is the one of the file when the file has the
    key [Experiment], and the whole document of the file otherwise. *)
Theorem load_by_filepath_document token sav_name kwargs (w w' : World) e :
  Experiment_init token (AOpenMode load_by_filepath) [AVal (VStr sav_name)]
    kwargs w = (w', Ok e) ->
  SAV_PATH e = abspath sav_name /\
  exists doc, _open_sav (files w) (abspath sav_name) = Ok (VDict doc) /\
    py_getitem (PlSav e) "Experiment"
    = if dict_mem doc "Experiment" then dict_get doc "Experiment"
      else Ok (VDict doc).
Proof.
  intros Hi.
  apply Experiment_init_load_Ok in Hi as (e0 & Ho & Hl); [|discriminate].
  apply load_status_result in Hl as (Hp & Hpath & _).
  apply load_branch_result in Ho as (path & PlSav0 & l & El & -> & Hfile);
    [|discriminate].
  destruct (Hfile eq_refl) as (s & doc & Hargs & -> & Hopen & Hdoc).
  injection Hargs as <-.
  rewrite Hp, Hpath. cbn [PlSav SAV_PATH loaded_experiment].
  split; [reflexivity|]. exists doc. split; [exact Hopen|].
  apply Experiment_load_keeps_experiment in El as [-> _].
  destruct (dict_mem doc "Experiment").
  - rewrite Hdoc. reflexivity.
  - unfold wrap_in_template in Hdoc.
    bind_inv Hdoc type Ety. bind_inv Hdoc t Et.
    destruct (savTemplate t) as [| | | | | |template]; try discriminate Hdoc.
    injection Hdoc as <-. cbn. unfold dict_get.
    rewrite dict_find_set_eq. reflexivity.
Qed.

(** X21. An experiment opened in a load mode holds one element for every
    record of the [Elements] of its decoded [StatusSave] (the values of
    the mapping for a Celestial experiment), in the stored order, each
    loaded from its record. *)
Theorem loaded_experiment_elements token m args kwargs (w w' : World) e :
  m <> crt ->
  Experiment_init token (AOpenMode m) args kwargs w = (w', Ok e) ->
  exists experiment text status l,
    py_getitem (PlSav e) "Experiment" = Ok experiment /\
    py_getitem experiment "StatusSave" = Ok (VStr text) /\
    json_loads text = Ok status /\
    elements_of_status (experiment_type e) status = Ok (VList l) /\
    Forall2 (fun element obj => load_element (experiment_type e) element = Ok obj)
      l (Elements e) /\
    length (Elements e) = length l.
Proof.
  intros Hm Hi.
  apply Experiment_init_load_Ok in Hi as (e0 & Ho & Hl); [|exact Hm].
  apply load_status_result in Hl
    as (Hp & _ & _ & Ht & ex & text & status & l & new & H1 & H2 & H3 & H4 & H5 & H6).
  apply load_branch_result in Ho as (path & PlSav0 & l0 & _ & -> & _);
    [|exact Hm].
  cbn [Elements loaded_experiment app] in H6.
  rewrite Hp, Ht, H6. exists ex, text, status, l.
  repeat (split; [assumption|]). symmetry. eapply Forall2_length. exact H5.
Qed.

End WithEnvironment.

Lemma crt_without_force_witness :
  Experiment_init (interp := SampleFiles.plain) "tok" (AOpenMode crt)
    [AVal (VStr "T1"); AExperimentType Circuit] [] (sample_world [])
  = (sample_world [], Raise ExperimentExistError).
Proof.
  destruct (Experiment_init (interp := SampleFiles.plain) "tok" (AOpenMode crt)
    [AVal (VStr "T1"); AExperimentType Circuit] [] (sample_world []))
    as [w' r] eqn:Hi.
  destruct (crt_without_force (interp := SampleFiles.plain) "tok"
    [AVal (VStr "T1"); AExperimentType Circuit] [] (sample_world []) w' r
    eq_refl Hi) as (_ & _ & H).
  destruct (H "T1" Circuit "a.sav" SampleData.circuit_sav eq_refl eq_refl)
    as [-> ->].
  reflexivity.
Defined.

Lemma crt_result_witness :
  let args := [AVal (VStr "T1"); AExperimentType Circuit] in
  let kwargs := [("force_crt", AVal (VBool true))] in
  let w := sample_world [] in
  match Experiment_init (interp := SampleFiles.plain) "tok" (AOpenMode crt)
          args kwargs w with
  | (w', Ok e) =>
      exists sav_name t found,
        args = [AVal (VStr sav_name); AExperimentType t] /\
        search_experiment (interp := SampleFiles.plain) (files w) sav_name
        = Ok found /\
        open_mode e = crt /\ experiment_type e = t /\ Elements e = [] /\
        SAV_PATH e
        = path_join (Interpreter := SampleFiles.plain) SAV_PATH_DIR
            ("tok" ++ ".sav") /\
        stack w' = stack w ++ [SAV_PATH e] /\ log w' = log w /\
        match found with
        | None => files w' = files w
        | Some (filepath, _) =>
            kwargs_get kwargs "force_crt" (AVal (VBool false))
            = AVal (VBool true) /\
            let path :=
              path_join (Interpreter := SampleFiles.plain) SAV_PATH_DIR filepath in
            let jpg := replace_str ".sav" ".jpg" path in
            exists fs1,
              os_remove (Interpreter := SampleFiles.plain) (files w) path
              = Ok fs1 /\
              if path_exists (Interpreter := SampleFiles.plain) fs1 jpg
              then os_remove (Interpreter := SampleFiles.plain) fs1 jpg
                   = Ok (files w')
              else files w' = fs1
        end
  | _ => False
  end.
Proof.
  exact (crt_result (interp := SampleFiles.plain) "tok"
    [AVal (VStr "T1"); AExperimentType Circuit]
    [("force_crt", AVal (VBool true))] (sample_world []) _ _ eq_refl).
Defined.

Lemma load_by_filepath_document_witness :
  match Experiment_init (interp := SampleFiles.plain) "tok"
          (AOpenMode load_by_filepath) [AVal (VStr "/sav/a.sav")] []
          (sample_world []) with
  | (_, Ok e) =>
      SAV_PATH e = "/sav/a.sav" /\
      exists doc,
        _open_sav (interp := SampleFiles.plain) SampleFiles.files "/sav/a.sav"
        = Ok (VDict doc) /\
        py_getitem (PlSav e) "Experiment"
        = if dict_mem doc "Experiment" then dict_get doc "Experiment"
          else Ok (VDict doc)
  | _ => False
  end.
Proof.
  exact (load_by_filepath_document (interp := SampleFiles.plain) "tok"
    "/sav/a.sav" [] (sample_world []) _ _ eq_refl).
Defined.

Lemma loaded_experiment_elements_witness :
  match Experiment_init (interp := SampleFiles.plain) "tok"
          (AOpenMode load_by_sav_name) [AVal (VStr "G1")] []
          (sample_world []) with
  | (_, Ok e) =>
      exists experiment text status l,
        py_getitem (PlSav e) "Experiment" = Ok experiment /\
        py_getitem experiment "StatusSave" = Ok (VStr text) /\
        json_loads (Interpreter := SampleFiles.plain) text = Ok status /\
        elements_of_status (experiment_type e) status = Ok (VList l) /\
        Forall2 (fun element obj =>
          load_element (interp := SampleFiles.plain) (experiment_type e) element
          = Ok obj) l (Elements e) /\
        length (Elements e) = length l
  | _ => False
  end.
Proof.
  refine (loaded_experiment_elements (interp := SampleFiles.plain) "tok"
    load_by_sav_name [AVal (VStr "G1")] [] (sample_world []) _ _ _ eq_refl).
  discriminate.
Defined.

End ConstructorTheorems.

(* ===================================================================== *)
(** ** Theorems: the elements of a Celestial experiment *)
(* ===================================================================== *)

Module CelestialFacts.
Import MonadFacts DictFacts ExperimentFacts LoaderFacts LoaderTheorems
  LoaderMoreFacts ConstructorFacts ConstructorShapes ConstructorTheorems Sample.

Section WithEnvironment.
Context {interp : Interpreter} {pkg : Package} {cat : Catalogue}.
#[local] Existing Instance io_bind.
#[local] Existing Instance io_ret.

(** The end of [__init__] for a Celestial experiment whose decoded
    [StatusSave] is [status]. *)
Lemma load_status_celestial e0 experiment text status :
  experiment_type e0 = Celestial ->
  py_getitem (PlSav e0) "Experiment" = Ok experiment ->
  py_getitem experiment "StatusSave" = Ok (VStr text) ->
  json_loads text = Ok status ->
  load_status e0 =
  _elements ← elements_of_status Celestial status;
  els ← Experiment_load_elements Celestial _elements (Elements e0);
  Ok (with_Elements e0 els).
Proof.
  intros Ht He Hs Hj. unfold load_status. rewrite He. cbn. rewrite Hs. cbn.
  rewrite Hj. cbn. rewrite Ht.
  destruct (elements_of_status Celestial status) as [v|]; [|reflexivity].
  cbn. destruct (Experiment_load_elements Celestial v (Elements e0));
    reflexivity.
Qed.

(** C5. When an experiment is loaded whose type is Celestial, the
    [Elements] field of the decoded [StatusSave] must be a mapping
    (anything else raises [AttributeError]), and the elements are loaded
    from the list of its values: the loading returns exactly when every
    value loads, and the experiment then holds one element for each entry
    of the mapping, in the order of the entries, whose [data] is the value
    of the entry. So the [Elements] of the experiment that the constructor
    returns are as many as the entries, and the values they carry are
    exactly the values of the mapping. *)
Theorem celestial_elements_from_mapping :
  (forall e0 experiment text status v,
     experiment_type e0 = Celestial ->
     py_getitem (PlSav e0) "Experiment" = Ok experiment ->
     py_getitem experiment "StatusSave" = Ok (VStr text) ->
     json_loads text = Ok status ->
     py_getitem status "Elements" = Ok v ->
     match v with
     | VDict d =>
         forall e, load_status e0 = Ok e <->
           exists new,
             Forall2 (fun element obj => load_element Celestial element = Ok obj)
               (dict_values d) new /\
             e = with_Elements e0 (Elements e0 ++ new)
     | _ => load_status e0 = Raise AttributeError
     end) /\
  (forall token m args kwargs (w w' : World) e experiment text status d,
     m <> crt ->
     Experiment_init token (AOpenMode m) args kwargs w = (w', Ok e) ->
     experiment_type e = Celestial ->
     py_getitem (PlSav e) "Experiment" = Ok experiment ->
     py_getitem experiment "StatusSave" = Ok (VStr text) ->
     json_loads text = Ok status ->
     py_getitem status "Elements" = Ok (VDict d) ->
     length (Elements e) = length d /\
     (fun el => VDict (data el)) <$> Elements e = dict_values d /\
     (forall v, v ∈ ((fun el => VDict (data el)) <$> Elements e) <->
                exists k, (k, v) ∈ d) /\
     Forall2 (fun element obj => load_element Celestial element = Ok obj)
       (dict_values d) (Elements e)).
Proof.
  split.
  - intros e0 experiment text status v Ht He Hs Hj Hv.
    rewrite (load_status_celestial _ _ _ _ Ht He Hs Hj).
    unfold elements_of_status. rewrite Hv. cbn.
    destruct v as [| | | | | |d]; try reflexivity.
    intros e. cbn. split.
    + intros Hl. bind_inv Hl els El. injection Hl as <-.
      apply load_elements_loop_app in El as (new & -> & Hall).
      exists new. auto.
    + intros (new & Hall & ->).
      rewrite (load_elements_loop_all _ _ _ (Elements e0) Hall). reflexivity.
  - intros token m args kwargs w w' e experiment text status d Hm Hi Ht He Hs
      Hj Hv.
    apply Experiment_init_load_Ok in Hi as (e0 & Ho & Hl); [|exact Hm].
    apply load_status_result in Hl
      as (Hp & _ & _ & Ht' & ex & text' & status' & l & new
          & H1 & H2 & H3 & H4 & H5 & H6).
    apply load_branch_result in Ho as (path & PlSav0 & l0 & _ & -> & _);
      [|exact Hm].
    cbn [Elements loaded_experiment app] in H6.
    rewrite Hp in He. rewrite Ht in Ht'. rewrite <- Ht' in H4, H5.
    assert (ex = experiment) as -> by congruence.
    assert (text' = text) as -> by congruence.
    assert (status' = status) as -> by congruence.
    unfold elements_of_status in H4. rewrite Hv in H4. cbn in H4.
    injection H4 as <-. rewrite H6.
    assert (Hd : (fun el => VDict (data el)) <$> new = dict_values d)
      by (eapply load_elements_loop_data; [|exact H5]; discriminate).
    split; [|split; [exact Hd|split; [|exact H5]]].
    + rewrite <- (dict_values_length d), <- Hd, length_fmap. reflexivity.
    + intros v. rewrite Hd. apply dict_values_elem.
Qed.

End WithEnvironment.

Lemma celestial_elements_from_mapping_witness :
  match Experiment_init (interp := SampleFiles.plain) "tok"
          (AOpenMode load_by_sav_name) [AVal (VStr "G1")] []
          (sample_world []) with
  | (_, Ok e) =>
      exists d,
        py_getitem SampleData.celestial_status "Elements" = Ok (VDict d) /\
        length d = 3%nat /\ length (Elements e) = length d /\
        (fun el => VDict (data el)) <$> Elements e = dict_values d
  | _ => False
  end.
Proof.
  eexists. split; [reflexivity|]. split; [reflexivity|].
  pose proof (proj2 (celestial_elements_from_mapping (interp := SampleFiles.plain))
    "tok" load_by_sav_name [AVal (VStr "G1")] [] (sample_world []) _ _
    _ "{celestial status}" SampleData.celestial_status _
    ltac:(discriminate) eq_refl eq_refl eq_refl eq_refl eq_refl eq_refl)
    as (Hlen & Hdata & _).
  split; [exact Hlen|exact Hdata].
Defined.

End CelestialFacts.

(* ===================================================================== *)
(** ** Further theorems: leaving the block *)
(* ===================================================================== *)

Module ExitFacts.
Import MonadFacts ExperimentFacts ConstructorFacts LifecycleTheorems Sample.

Section WithEnvironment.
Context {interp : Interpreter} {pkg : Package} {cat : Catalogue} {core : Core}.
#[local] Existing Instance io_bind.
#[local] Existing Instance io_ret.

Lemma exit_without_delete e (w : World) :
  exit e false w
  = (mk_World (files w) (ExperimentStack.remove (stack w) (SAV_PATH e))
       (log w ++ [Exited (SAV_PATH e) false]), Ok tt).
Proof. reflexivity. Qed.

Lemma exit_with_delete e (w w' : World) r :
  exit e true w = (w', r) ->
  stack w' = ExperimentStack.remove (stack w) (SAV_PATH e) /\
  log w' = log w ++ [Exited (SAV_PATH e) true].
Proof.
  unfold exit, mbind, io_bind, get_stack, set_stack, emit, get_files, lift,
    set_files, mret, io_ret. cbn.
  destruct (path_exists (files w) (SAV_PATH e)); [|intros [= <- _]; auto].
  destruct (os_remove (files w) (SAV_PATH e)); intros [= <- _]; auto.
Qed.

(** [save] records the call; then the files are those that the writing
    leaves, or the exception of the writing is raised. *)
Lemma save_outcome e extra (w : World) :
  save e extra w
  = match write_document (files w) e extra with
    | Ok fs1 =>
        (mk_World fs1 (stack w) (log w ++ [Saved (SAV_PATH e) extra]), Ok tt)
    | Raise x =>
        (mk_World (files w) (stack w) (log w ++ [Saved (SAV_PATH e) extra]),
         Raise x)
    end.
Proof.
  unfold save, emit, get_files, lift, set_files, mbind, io_bind. cbn.
  destruct (write_document (files w) e extra); reflexivity.
Qed.

(** X22. The deprecated [experiment.__exit__] saves only when the block
    was left without an exception and [write] is set while [is_exit] and
    [delete] are not, and it asks [exit] to delete the file only when the
    block was left without an exception, [delete] is set and [is_exit] is
    not; so an exception in the block never saves and never deletes. When
    it saves and the writing fails, the exception is raised and [exit] is
    not called: the experiment stays on the stack. In every other case
    [exit] is called once, as the last call, after the [save] if there was
    one. *)
Theorem experiment_exit_calls self exc (w w' : World) r :
  experiment_exit self exc w = (w', r) ->
  let e := _Experiment self in
  let path := SAV_PATH e in
  exists saved deleted : bool,
    (saved = true <->
     exc = None /\ is_exit self = false /\ write self = true /\
     delete self = false) /\
    (deleted = true <->
     exc = None /\ is_exit self = false /\ delete self = true) /\
    match (if saved then write_document (files w) e (extra_filepath self)
           else Ok (files w)) with
    | Raise x =>
        r = Raise x /\ stack w' = stack w /\ files w' = files w /\
        log w' = log w ++ [Saved path (extra_filepath self)]
    | Ok fs1 =>
        stack w' = ExperimentStack.remove (stack w) path /\
        log w' = log w
                 ++ (if saved then [Saved path (extra_filepath self)] else [])
                 ++ [Exited path deleted] /\
        (deleted = false -> files w' = fs1 /\ r = Ok tt)
    end.
Proof.
  unfold experiment_exit. intros He. cbn zeta.
  destruct exc as [x|].
  - rewrite exit_without_delete in He. injection He as <- <-.
    exists false, false. cbn.
    repeat split; try discriminate; intros (H & _); discriminate H.
  - destruct (is_exit self) eqn:Hx.
    + rewrite exit_without_delete in He. injection He as <- <-.
      exists false, false. cbn.
      repeat split; try discriminate; intros (_ & H & _); discriminate H.
    + destruct (write self) eqn:Hw, (delete self) eqn:Hd; cbn in He.
      * unfold mbind, io_bind, mret, io_ret in He.
        apply exit_with_delete in He as [Hst Hlg].
        exists false, true. cbn.
        repeat split; try discriminate; try assumption.
        intros (_ & _ & _ & H); discriminate H.
      * exists true, false. unfold mbind, io_bind in He.
        rewrite save_outcome in He.
        destruct (write_document (files w) (_Experiment self)
                    (extra_filepath self)) as [fs1|x].
        -- rewrite exit_without_delete in He. injection He as <- <-. cbn.
           rewrite <- app_assoc.
           repeat split; try discriminate.
           intros (_ & _ & H); discriminate H.
        -- injection He as <- <-. cbn.
           repeat split; try discriminate.
           intros (_ & _ & H); discriminate H.
      * unfold mbind, io_bind, mret, io_ret in He.
        apply exit_with_delete in He as [Hst Hlg].
        exists false, true. cbn.
        repeat split; try discriminate; try assumption.
        intros (_ & _ & H & _); discriminate H.
      * unfold mbind, io_bind, mret, io_ret in He.
        rewrite exit_without_delete in He. injection He as <- <-.
        exists false, false. cbn.
        repeat split; try discriminate.
        -- intros (_ & _ & H & _); discriminate H.
        -- intros (_ & _ & H); discriminate H.
Qed.

Lemma Experiment_exit_None e (w : World) :
  Experiment_exit e None w
  = if ExperimentStack.inside (stack w) (SAV_PATH e)
    then match write_document (files w) e None with
         | Ok fs1 =>
             (mk_World fs1 (ExperimentStack.remove (stack w) (SAV_PATH e))
                (log w ++ [Saved (SAV_PATH e) None; Exited (SAV_PATH e) false]),
              Ok tt)
         | Raise x =>
             (mk_World (files w) (stack w) (log w ++ [Saved (SAV_PATH e) None]),
              Raise x)
         end
    else (w, Ok tt).
Proof.
  unfold Experiment_exit, mbind, io_bind, get_stack. cbn.
  destruct (ExperimentStack.inside (stack w) (SAV_PATH e)); [|reflexivity].
  rewrite save_outcome.
  destruct (write_document (files w) e None); [|reflexivity].
  rewrite exit_without_delete. cbn. rewrite <- app_assoc. reflexivity.
Qed.

(** X23. Leaving a block twice saves once. On a stack without duplicates,
    [Experiment.__exit__] without an exception does nothing for an
    experiment that is not on the stack. For one that is, it calls [save]:
    when the document is written the experiment is exited and off the
    stack, and a second [__exit__] changes nothing; when the writing fails
    the exception is raised, [exit] is not called and the experiment stays
    on the stack. *)
Theorem Experiment_exit_once e (w w1 : World) r :
  NoDup (stack w) ->
  Experiment_exit e None w = (w1, r) ->
  (ExperimentStack.inside (stack w) (SAV_PATH e) = false ->
   w1 = w /\ r = Ok tt) /\
  (ExperimentStack.inside (stack w) (SAV_PATH e) = true ->
   match write_document (files w) e None with
   | Ok fs1 =>
       r = Ok tt /\ files w1 = fs1 /\
       ExperimentStack.inside (stack w1) (SAV_PATH e) = false /\
       log w1 = log w ++ [Saved (SAV_PATH e) None; Exited (SAV_PATH e) false] /\
       Experiment_exit e None w1 = (w1, Ok tt)
   | Raise x =>
       r = Raise x /\ files w1 = files w /\ stack w1 = stack w /\
       log w1 = log w ++ [Saved (SAV_PATH e) None]
   end).
Proof.
  intros Hnd He. rewrite Experiment_exit_None in He. split; intros Hin;
    rewrite Hin in He.
  - injection He as <- <-. auto.
  - destruct (write_document (files w) e None) as [fs1|x];
      injection He as <- <-; cbn [files stack log]; [|auto].
    assert (Hout : ExperimentStack.inside
              (ExperimentStack.remove (stack w) (SAV_PATH e)) (SAV_PATH e)
            = false) by (apply remove_not_inside; exact Hnd).
    repeat split; try assumption.
    rewrite Experiment_exit_None. cbn [stack]. rewrite Hout. reflexivity.
Qed.

Lemma inside_app_last (st : list string) (path : string) :
  ExperimentStack.inside (st ++ [path]) path = true.
Proof.
  unfold ExperimentStack.inside. rewrite existsb_app. cbn.
  rewrite String.eqb_refl. apply orb_true_iff. right. reflexivity.
Qed.

Lemma remove_app_last (st : list string) (path : string) :
  ExperimentStack.inside st path = false ->
  ExperimentStack.remove (st ++ [path]) path = st.
Proof.
  unfold ExperimentStack.inside.
  induction st as [|p st IH]; cbn; intros Hin.
  - rewrite String.eqb_refl. reflexivity.
  - apply orb_false_iff in Hin as [Hp Hst]. rewrite Hp.
    rewrite (IH Hst). reflexivity.
Qed.

(** X24. Opening an experiment in a load mode and leaving its block
    without an exception restores the stack when the document can be
    written: the path pushed by the constructor is the one removed, after
    one [save] and before one [exit]. When the writing fails the
    exception is raised and the path stays on the stack. *)
Theorem open_then_exit_restores_stack token m args kwargs (w w1 w2 : World) e r :
  m <> crt ->
  Experiment_init token (AOpenMode m) args kwargs w = (w1, Ok e) ->
  Experiment_exit e None w1 = (w2, r) ->
  match write_document (files w1) e None with
  | Ok fs1 =>
      r = Ok tt /\ stack w2 = stack w /\ files w2 = fs1 /\
      log w2 = log w1 ++ [Saved (SAV_PATH e) None; Exited (SAV_PATH e) false]
  | Raise x =>
      r = Raise x /\ stack w2 = stack w ++ [SAV_PATH e] /\
      files w2 = files w1 /\ log w2 = log w1 ++ [Saved (SAV_PATH e) None]
  end.
Proof.
  intros Hm Hi He.
  apply Experiment_init_Ok in Hi as (Hst & Hin). specialize (Hin Hm).
  rewrite Experiment_exit_None, Hst, inside_app_last in He.
  destruct (write_document (files w1) e None) as [fs1|x];
    injection He as <- <-; cbn [stack files log].
  - rewrite (remove_app_last _ _ Hin). auto.
  - auto.
Qed.

End WithEnvironment.

Lemma experiment_exit_calls_witness :
  let self := SampleMore.wrapper in
  let w := sample_world ["/sav/a.sav"] in
  (experiment_exit (interp := SampleFiles.plain) self (Some ValueError) w).2
  = Ok tt /\
  match experiment_exit (interp := SampleFiles.plain)
          (core := SampleFiles.read_only) SampleMore.saving_wrapper None w with
  | (w', r) => r = Raise OSError /\ stack w' = ["/sav/a.sav"]
  end.
Proof.
  cbn zeta. split.
  - destruct (experiment_exit (interp := SampleFiles.plain) SampleMore.wrapper
      (Some ValueError) (sample_world ["/sav/a.sav"])) as [w' r] eqn:He.
    destruct (experiment_exit_calls (interp := SampleFiles.plain)
      SampleMore.wrapper (Some ValueError) (sample_world ["/sav/a.sav"]) w' r
      He) as (saved & deleted & Hs & Hd & H).
    destruct saved; [destruct (proj1 Hs eq_refl) as [Hx _]; discriminate Hx|].
    destruct deleted; [destruct (proj1 Hd eq_refl) as [Hx _]; discriminate Hx|].
    cbn in H. exact (proj2 (proj2 (proj2 H) eq_refl)).
  - destruct (experiment_exit (interp := SampleFiles.plain)
      (core := SampleFiles.read_only) SampleMore.saving_wrapper None
      (sample_world ["/sav/a.sav"])) as [w' r] eqn:He.
    destruct (experiment_exit_calls (interp := SampleFiles.plain)
      (core := SampleFiles.read_only) SampleMore.saving_wrapper None
      (sample_world ["/sav/a.sav"]) w' r He) as (saved & deleted & Hs & Hd & H).
    destruct saved.
    + cbn in H. destruct H as (Hr & Hst & _). auto.
    + assert (Hsaved : false = true) by (apply Hs; repeat split).
      discriminate Hsaved.
Defined.

Lemma Experiment_exit_once_witness :
  match Experiment_init (interp := SampleFiles.plain) "tok"
          (AOpenMode load_by_sav_name) [AVal (VStr "T1")] []
          (sample_world []) with
  | (w, Ok e) =>
      forall w1 r, Experiment_exit e None w = (w1, r) ->
        r = Ok tt /\
        ExperimentStack.inside (stack w1) (SAV_PATH e) = false /\
        Experiment_exit e None w1 = (w1, Ok tt)
  | _ => False
  end.
Proof.
  cbn zeta. intros w1 r He.
  eapply (Experiment_exit_once (interp := SampleFiles.plain)) in He
    as (_ & Hon).
  - specialize (Hon eq_refl). cbn in Hon.
    destruct Hon as (Hr & _ & Hout & _ & Hagain). auto.
  - apply NoDup_singleton.
Defined.

Lemma open_then_exit_restores_stack_witness :
  match Experiment_init (interp := SampleFiles.plain) "tok"
          (AOpenMode load_by_sav_name) [AVal (VStr "T1")] []
          (sample_world ["/sav/g.sav"]) with
  | (w1, Ok e) =>
      match Experiment_exit e None w1 with
      | (w2, r) => r = Ok tt /\ stack w2 = ["/sav/g.sav"]
      end /\
      match Experiment_exit (core := SampleFiles.read_only) e None w1 with
      | (w2, r) => r = Raise OSError /\ stack w2 = ["/sav/g.sav"; "/sav/a.sav"]
      end
  | _ => False
  end.
Proof.
  cbn zeta. split.
  - pose proof (open_then_exit_restores_stack (interp := SampleFiles.plain)
      "tok" load_by_sav_name [AVal (VStr "T1")] []
      (sample_world ["/sav/g.sav"]) _ _ _ _ ltac:(discriminate) eq_refl
      eq_refl) as H.
    cbn in H. destruct H as (Hr & Hst & _). exact (conj Hr Hst).
  - pose proof (open_then_exit_restores_stack (interp := SampleFiles.plain)
      (core := SampleFiles.read_only)
      "tok" load_by_sav_name [AVal (VStr "T1")] []
      (sample_world ["/sav/g.sav"]) _ _ _ _ ltac:(discriminate) eq_refl
      eq_refl) as H.
    cbn in H. destruct H as (Hr & Hst & _). exact (conj Hr Hst).
Defined.

End ExitFacts.

Module FailedLoadFacts.
Import MonadFacts ExperimentFacts ExitFacts Sample.

Section WithEnvironment.
Context {interp : Interpreter} {pkg : Package} {cat : Catalogue}.
#[local] Existing Instance io_bind.
#[local] Existing Instance io_ret.

(** X25. The constructor pushes before it loads the elements and the
    wires. When that loading raises, in a load mode, the constructor
    raises the same exception and no experiment is returned, but the path
    it pushed stays on the stack. *)
Theorem failed_load_leaves_path_on_stack token m args kwargs (w w1 : World)
    e0 x :
  m <> crt ->
  Experiment_open token (AOpenMode m) args kwargs w = (w1, Ok e0) ->
  load_status e0 = Raise x ->
  Experiment_init token (AOpenMode m) args kwargs w = (w1, Raise x) /\
  stack w1 = stack w ++ [SAV_PATH e0] /\
  ExperimentStack.inside (stack w) (SAV_PATH e0) = false /\
  ExperimentStack.inside (stack w1) (SAV_PATH e0) = true.
Proof.
  intros Hm Ho Hl.
  pose proof (Experiment_open_Ok _ _ _ _ _ _ _ Ho) as (Hmode & Hst & Hin).
  split; [|split; [exact Hst|split; [exact (Hin Hm)|]]].
  - unfold Experiment_init, mbind, io_bind. rewrite Ho, Hmode.
    destruct m; try contradiction; unfold lift; rewrite Hl; reflexivity.
  - rewrite Hst. apply inside_app_last.
Qed.

End WithEnvironment.

Lemma failed_load_leaves_path_on_stack_witness :
  match Experiment_init (interp := SampleMore.with_bad_status) "tok"
          (AOpenMode load_by_sav_name) [AVal (VStr "T3")] []
          SampleMore.bad_status_world with
  | (w1, r) => r = Raise JSONDecodeError /\ stack w1 = ["/sav/bad.sav"]
  end.
Proof.
  destruct (Experiment_open (interp := SampleMore.with_bad_status) "tok"
    (AOpenMode load_by_sav_name) [AVal (VStr "T3")] []
    SampleMore.bad_status_world) as [w1 [e0|x]] eqn:Ho; [|discriminate Ho].
  injection Ho as <- <-.
  match goal with
  | |- context [Experiment_init ?t ?m ?a ?k ?w] =>
      destruct (failed_load_leaves_path_on_stack
        (interp := SampleMore.with_bad_status) t load_by_sav_name a k w _ _
        JSONDecodeError ltac:(discriminate) eq_refl eq_refl) as (Hi & Hst & _)
  end.
  rewrite Hi. split; [reflexivity|exact Hst].
Defined.

End FailedLoadFacts.
